(** * ExpertMind client script (backend/static/js/main.js)

    A shallow embedding of the page script of the document
    question-answering application: the script variables, the part of
    the page the script reads and writes, the requests it issues and the
    handlers it attaches, followed by the properties of the
    specification.

    Strings are JavaScript strings whose code units are below 256
    (Latin-1), carried by [string]; on that range [toLowerCase], the
    regular-expression classes [\w] and [\s], [trim] and the URI
    component coding are written out exactly.  The HTML parser and the
    selector parser of the browser, which read the texts the script
    splices into markup and into selectors, are written out for the
    texts described with [html_decode], [attribute_value] and [css_string]. *)

From Stdlib Require Import String Ascii List ZArith Bool Lia Arith DecimalString.
Import ListNotations.
Local Open Scope string_scope.
Local Open Scope list_scope.
Local Open Scope nat_scope.

(** ** JavaScript string primitives *)

Module JsString.

Definition code (c : ascii) : nat := nat_of_ascii c.

Definition between (lo hi n : nat) : bool := (lo <=? n) && (n <=? hi).

(** [String.prototype.toLowerCase], one code unit at a time: A-Z and the
    Latin-1 capitals U+00C0..U+00DE (the sign U+00D7 excepted) move up
    by 32. *)
Definition lower_char (c : ascii) : ascii :=
  let n := code c in
  if between 65 90 n || between 192 214 n || between 216 222 n
  then ascii_of_nat (n + 32) else c.

Fixpoint map_chars (f : ascii -> ascii) (s : string) : string :=
  match s with
  | EmptyString => EmptyString
  | String c t => String (f c) (map_chars f t)
  end.

Definition toLowerCase (s : string) : string := map_chars lower_char s.

(** The class [\w]: ASCII letters, digits and the underscore. *)
Definition is_word (c : ascii) : bool :=
  let n := code c in
  between 97 122 n || between 65 90 n || between 48 57 n || (n =? 95).

(** The class [\s] (also the set [trim] strips): tab, line feed, vertical
    tab, form feed, carriage return, space and the no-break space. *)
Definition is_space (c : ascii) : bool :=
  let n := code c in
  between 9 13 n || (n =? 32) || (n =? 160).

Definition space : ascii := ascii_of_nat 32.

(** [s.replace(/[^\w\s]/g, ' ')]. *)
Definition blank_punctuation (s : string) : string :=
  map_chars (fun c => if is_word c || is_space c then c else space) s.

Fixpoint rev_string (acc : list ascii) : string :=
  match acc with
  | [] => EmptyString
  | c :: t => (rev_string t ++ String c EmptyString)%string
  end.

(** [s.split(/\s+/)]: the pieces between maximal runs of white space; a
    leading or trailing run leaves an empty piece at that end, and the
    empty string splits into one empty piece.  [cur] is the piece being
    read, last character first; [in_ws] tells that the previous
    character belonged to a separator. *)
Fixpoint split_go (in_ws : bool) (cur : list ascii) (s : string) : list string :=
  match s with
  | EmptyString => [rev_string cur]
  | String c t =>
      if is_space c
      then if in_ws then split_go true cur t
           else rev_string cur :: split_go true [] t
      else split_go false (c :: cur) t
  end.

Definition split_ws (s : string) : list string := split_go false [] s.

(** [text.includes(word)]. *)
Fixpoint includes (text word : string) : bool :=
  String.prefix word text ||
  match text with
  | EmptyString => false
  | String _ t => includes t word
  end.

(** [String.prototype.trim]. *)
Fixpoint trim_start (s : string) : string :=
  match s with
  | EmptyString => EmptyString
  | String c t => if is_space c then trim_start t else s
  end.

Fixpoint trim_end (s : string) : string :=
  match s with
  | EmptyString => EmptyString
  | String c t =>
      match trim_end t with
      | EmptyString => if is_space c then EmptyString else String c EmptyString
      | t' => String c t'
      end
  end.

Definition trim (s : string) : string := trim_end (trim_start s).

(** The string of one double quote character. *)
Definition double_quote : string := String (ascii_of_nat 34) EmptyString.

(** Truthiness of a string value: every string but the empty one. *)
Definition nonempty (s : string) : bool :=
  match s with EmptyString => false | _ => true end.

(** Decimal rendering of a number inside a template string. *)
Definition show_nat (n : nat) : string := NilEmpty.string_of_uint (Nat.to_uint n).

Definition show_Z (z : Z) : string := NilZero.string_of_int (Z.to_int z).

(** [s.substring(0, n)]. *)
Fixpoint take (n : nat) (s : string) : string :=
  match n, s with
  | S k, String c t => String c (take k t)
  | _, _ => EmptyString
  end.

(** *** URI component coding *)

Definition hex_digit (n : nat) : ascii :=
  if n <? 10 then ascii_of_nat (48 + n) else ascii_of_nat (55 + n).

Definition percent (b : nat) : string :=
  String "%" (String (hex_digit (b / 16)) (String (hex_digit (b mod 16)) EmptyString)).

(** The characters [encodeURIComponent] leaves alone: letters, digits and
    [- _ . ! ~ * ' ( )]. *)
Definition uri_unreserved (c : ascii) : bool :=
  let n := code c in
  is_word c || (n =? 45) || (n =? 46) || (n =? 33) || (n =? 126)
  || (n =? 42) || (n =? 39) || (n =? 40) || (n =? 41).

(** Every other code unit is written as the percent-escaped octets of
    its UTF-8 form: one octet below 128, two from 128 to 255. *)
Definition encode_char (c : ascii) : string :=
  let n := code c in
  if uri_unreserved c then String c EmptyString
  else if n <? 128 then percent n
  else (percent (192 + n / 64) ++ percent (128 + n mod 64))%string.

Fixpoint encodeURIComponent (s : string) : string :=
  match s with
  | EmptyString => EmptyString
  | String c t => (encode_char c ++ encodeURIComponent t)%string
  end.

Definition hex_value (c : ascii) : option nat :=
  let n := code c in
  if between 48 57 n then Some (n - 48)
  else if between 65 70 n then Some (n - 55)
  else if between 97 102 n then Some (n - 87)
  else None.

Definition is_percent (c : ascii) : bool := code c =? 37.

(** [decodeURIComponent].  [None] stands for the [URIError] raised on a
    malformed escape, and also for an escape that decodes to a character
    above U+00FF, which these strings do not carry. *)
Fixpoint decodeURIComponent (s : string) : option string :=
  match s with
  | EmptyString => Some EmptyString
  | String c t =>
      if is_percent c then
        match t with
        | String h1 (String h2 t2) =>
            match hex_value h1, hex_value h2 with
            | Some a, Some b =>
                let o1 := 16 * a + b in
                if o1 <? 128
                then option_map (String (ascii_of_nat o1)) (decodeURIComponent t2)
                else if between 194 195 o1 then
                  match t2 with
                  | String p (String k1 (String k2 t3)) =>
                      if is_percent p then
                        match hex_value k1, hex_value k2 with
                        | Some a', Some b' =>
                            let o2 := 16 * a' + b' in
                            if between 128 191 o2
                            then option_map
                                   (String (ascii_of_nat ((o1 - 192) * 64 + (o2 - 128))))
                                   (decodeURIComponent t3)
                            else None
                        | _, _ => None
                        end
                      else None
                  | _ => None
                  end
                else None
            | _, _ => None
            end
        | _ => None
        end
      else option_map (String c) (decodeURIComponent t)
  end.


(** *** Texts spliced into markup and into selectors

    The script puts texts, unescaped, into markup it assigns to
    [innerHTML] and into the double-quoted string of a selector it
    passes to [querySelector]. *)

(** Every character of a string satisfies a test. *)
Fixpoint all_chars (p : ascii -> bool) (s : string) : bool :=
  match s with
  | EmptyString => true
  | String c t => p c && all_chars p t
  end.

(** A plain character: no control character, and none of the double
    quote, the ampersand, the less-than sign and the backslash.  A text
    of plain characters reads as itself in character data, in a
    double-quoted attribute value and in a double-quoted string of a
    selector. *)
Definition plain_char (c : ascii) : bool :=
  let n := code c in
  (32 <=? n) && negb ((n =? 34) || (n =? 38) || (n =? 60) || (n =? 92)).

Definition plain_text (s : string) : bool := all_chars plain_char s.



(** The character reference at the head of the text after an ampersand,
    with the number of characters it takes.  Of the references of HTML
    the five predefined ones are known here. *)
Definition reference (t : string) : option (ascii * nat) :=
  if String.prefix "amp;" t then Some (ascii_of_nat 38, 4)
  else if String.prefix "lt;" t then Some (ascii_of_nat 60, 3)
  else if String.prefix "gt;" t then Some (ascii_of_nat 62, 3)
  else if String.prefix "quot;" t then Some (ascii_of_nat 34, 5)
  else if String.prefix "apos;" t then Some (ascii_of_nat 39, 5)
  else None.

(** What the HTML parser reads from character data, or from a
    double-quoted attribute value, that holds no double quote and no
    less-than sign: the known character references are replaced by
    their characters; any other ampersand stays, as it does in the
    parser when no reference follows it.  [skip] counts the characters
    of a reference still to be passed over. *)
Fixpoint html_decode_go (skip : nat) (s : string) : string :=
  match s with
  | EmptyString => EmptyString
  | String c t =>
      match skip with
      | S n => html_decode_go n t
      | O =>
          if code c =? 38 then
            match reference t with
            | Some (d, n) => String d (html_decode_go n t)
            | None => String c (html_decode_go 0 t)
            end
          else String c (html_decode_go 0 t)
      end
  end.

Definition html_decode (s : string) : string := html_decode_go 0 s.

(** The part of a text before its first double quote. *)
Fixpoint before_quote (s : string) : string :=
  match s with
  | EmptyString => EmptyString
  | String c t => if code c =? 34 then EmptyString else String c (before_quote t)
  end.

(** The value the HTML parser stores for an attribute whose text was
    placed between the double quotes of the markup: the value ends at
    the first double quote of the text. *)
Definition attribute_value (s : string) : string := html_decode (before_quote s).


(** What the selector [[data-filename="..."]] asks for: nothing, when
    the text is no selector and [querySelector] throws a [SyntaxError];
    an attribute value; or a value with a character above U+00FF, which
    no attribute of these strings has. *)
Inductive Selector : Type :=
| syntax_error
| attribute_is (value : string)
| attribute_beyond.

Definition is_newline (c : ascii) : bool :=
  let n := code c in (n =? 10) || (n =? 12) || (n =? 13).

Definition css_put (c : ascii) (r : Selector) : Selector :=
  match r with
  | attribute_is v => attribute_is (String c v)
  | _ => r
  end.

Definition css_beyond (r : Selector) : Selector :=
  match r with
  | attribute_is _ => attribute_beyond
  | _ => r
  end.

(** The code point of an escape: zero and the values above U+00FF fall
    outside these strings. *)
Definition css_code (n : nat) (r : Selector) : Selector :=
  if (0 <? n) && (n <? 256) then css_put (ascii_of_nat n) r else css_beyond r.

(** Where the reading of a selector string stands: in the string; after
    a backslash; in an escape of [digits] hexadecimal digits and that
    value; after a carriage return that was passed over, which takes a
    following line feed with it. *)
Inductive CssState : Type :=
| in_string
| after_backslash
| in_escape (digits value : nat)
| after_return.

(** The string of the selector, read as the selector parser reads it up
    to the closing quote the script adds.  A backslash escapes what
    follows: one to six hexadecimal digits and one white space after
    them give a code point, a newline is passed over, any other
    character stands for itself; a backslash at the end escapes the
    closing quote, and the string then runs to the end of the selector.
    A newline that is not escaped ends the string badly.  A double quote
    ends the string before the script's own: the rest is then read as
    more of the selector, which is taken here to fail, as it does
    unless the rest of the text is itself the rest of a selector. *)
Fixpoint css_scan (st : CssState) (s : string) : Selector :=
  match s with
  | EmptyString =>
      match st with
      | after_backslash => attribute_is (double_quote ++ "]")
      | in_escape _ v => css_code v (attribute_is EmptyString)
      | _ => attribute_is EmptyString
      end
  | String c t =>
      let read :=
        if code c =? 92 then css_scan after_backslash t
        else if (code c =? 34) || is_newline c then syntax_error
        else if code c =? 0 then css_beyond (css_scan in_string t)
        else css_put c (css_scan in_string t) in
      match st with
      | in_string => read
      | after_return => if code c =? 10 then css_scan in_string t else read
      | after_backslash =>
          match hex_value c with
          | Some d => css_scan (in_escape 1 d) t
          | None =>
              if code c =? 13 then css_scan after_return t
              else if is_newline c then css_scan in_string t
              else if code c =? 0 then css_beyond (css_scan in_string t)
              else css_put c (css_scan in_string t)
          end
      | in_escape n v =>
          match hex_value c with
          | Some d =>
              if n <? 6 then css_scan (in_escape (S n) (16 * v + d)) t
              else css_code v read
          | None =>
              if code c =? 13 then css_code v (css_scan after_return t)
              else if is_newline c || (code c =? 9) || (code c =? 32)
              then css_code v (css_scan in_string t)
              else css_code v read
          end
      end
  end.

Definition css_string (s : string) : Selector := css_scan in_string s.

End JsString.

Import JsString.

(** ** Data of the page and of the backend replies

    Changes of CSS classes that only restyle an element (the blue ring of
    the active file button, colours, animations), focus, scroll position
    and the character counter are left out; so is the pixel geometry of
    a highlight, which is floating-point arithmetic on the fragment's
    transform.  The elements the page template declares by id are
    present, except where the script itself returns early on a missing
    one ([loadPdf], [highlightText]): those are flags of [Env]. *)

(** The file chosen in the upload form ([File.type], [File.size]). *)
Record File : Type := { file_type : string; file_size : Z }.

(** A loaded document ([PDFDocumentProxy]). *)
Record Pdf : Type := { numPages : Z }.

(** One entry of [textContent.items]. *)
Record TextItem : Type := { str : string }.

(** A [div.pdf-highlight], laid over the fragment of that index. *)
Record Highlight : Type := { hl_index : nat; hl_item : TextItem }.

(** [style.display]: ['block'] or ['none']. *)
Inductive Display : Type := block | none.

(** What [updatePageControls] writes: the two [disabled] flags and the
    numbers of the text [Page c of t]. *)
Record PageControls : Type := {
  prev_disabled : bool;
  next_disabled : bool;
  page_info : Z * Z
}.

(** A list item of [#file-list].  Every item holds a [.file-btn] with a
    [data-filename]; the items the page was served with also carry the
    attribute on the [li] and hold a [.delete-btn], the items
    [addFileToList] builds do not.  The attributes are the values the
    HTML parser stored. *)
Record FileItem : Type := {
  item_id : nat;
  li_filename : option string;
  btn_filename : string;
  has_delete_btn : bool
}.

(** The content of a [.feedback-container]: the two buttons, or one of
    the two thanks. *)
Inductive FeedbackDisplay : Type := buttons | thanks_like | thanks_dislike.

(** A [.feedback-container] with its three data attributes, which hold
    URI-encoded text and never change once written. *)
Record FeedbackContainer : Type := {
  fc_id : nat;
  data_question : string;
  data_answer : string;
  data_filename : string;
  fc_display : FeedbackDisplay
}.

(** A child of [#chat-box]: a user bubble, whose paragraph received the
    content as markup through [innerHTML], or an assistant bubble
    holding the converted markup, the source page when one is shown, and
    the feedback container the script builds.  Elements that the markup
    of a message itself makes are not followed. *)
Inductive MessageElement : Type :=
| user_bubble (content : string)
| bot_bubble (htmlContent : string) (sourceInfo : option Z) (feedback : FeedbackContainer).

(** A feedback dialog with what its handlers close over. *)
Record FeedbackModal : Type := {
  modal_id : nat;
  modal_question : string;
  modal_answer : string;
  modal_container : FeedbackContainer
}.

(** What the page and the loaded libraries provide: whether [pdfjsLib]
    is defined, the [makeHtml] of the showdown converter when [showdown]
    is defined, and the presence of the elements tested by early
    returns. *)
Record Env : Type := {
  pdfjs_loaded : bool;
  converter : option (string -> string);
  has_pdfViewer : bool;
  has_pdfPlaceholder : bool;
  has_canvas : bool;
  has_highlightLayer : bool
}.

(** A message of the chat history. *)
Record HistoryMsg : Type := {
  msg_role : string;
  msg_content : string;
  msg_id : option Z;
  msg_feedback : option string
}.

(** The parsed JSON of a reply, with the properties the script reads:
    strings, numbers and the list of the history; an absent property is
    [None]. *)
Record Data : Type := {
  d_error : option string;
  d_filename : option string;
  d_answer : string;
  d_message_id : option Z;
  d_source_page : option Z;
  d_source_content : option string;
  d_message : option string;
  d_success : option string;
  d_history : option (list HistoryMsg)
}.

(** How a promise settles. *)
Inductive Settled (A : Type) : Type :=
| resolved (a : A)
| rejected.
Arguments resolved {A} a.
Arguments rejected {A}.

(** ** Effects *)

Inductive Body : Type :=
| form_data (file : File)
| json (fields : list (string * string)).

Record Request : Type := {
  method : string;
  url : string;
  body : option Body
}.

(** What the handlers of a request close over. *)
Inductive Pending : Type :=
| p_upload
| p_feedback (feedbackType : string) (container : FeedbackContainer)
| p_ask (question : string)
| p_history (filename : option string)
| p_clear_chat (filename : string)
| p_delete (filename : option string) (listItem : nat).

Inductive PageUse : Type :=
| for_render
| for_highlight (searchText : string).

Inductive Timer : Type :=
| t_init
| t_auto_select (filename : option string) (listItem : nat)
| t_highlight (text : string).

Inductive Effect : Type :=
| Fetch (r : Request) (k : Pending)
| Alert (message : string)
| Notification (message type : string)
| ConsoleError (message : string)
| GetDocument (url : string)
| GetPage (pageNumber : Z) (k : PageUse)
| SetTimeout (t : Timer) (ms : nat).

(** ** State *)

(** The values of the variable [selectedFile]: [null], at the start and
    after [resetUI]; the name of a file; and [undefined], which the
    timer of [addFileToList] stores when that function was called
    without a name. *)
Inductive Selected : Type :=
| null
| undefined
| named (filename : string).

(** The variables of the script, and [window.currentPageTextContent]. *)
Record Vars : Type := {
  pdfDoc : option Pdf;
  currentPage : Z;
  totalPages : Z;
  selectedFile : Selected;
  currentHighlights : list Highlight;
  currentPageTextContent : option (list TextItem)
}.

(** The chat panel: the children of [#chat-box], the welcome message (its
    display and the text of its last paragraph), the status line and the
    input controls. *)
Record Chat : Type := {
  chatBox : list MessageElement;
  welcome_display : Display;
  welcome_text : string;
  chatStatus : string;
  userInput_value : string;
  userInput_disabled : bool;
  sendBtn_disabled : bool
}.

(** The file panel: whether [#file-list-container] holds a [.text-center]
    element (the no-documents message), the items of [#file-list] when
    that list exists, and the number shown in [#file-count]. *)
Record Files : Type := {
  noDocumentsMessage : bool;
  fileList : option (list FileItem);
  fileCount : Z
}.

(** The viewer panel.  [highlightIndicators] counts the elements of id
    [highlight-indicator] in the page. *)
Record Viewer : Type := {
  pdfViewer_display : Display;
  pdfPlaceholder_display : Display;
  loadingOverlay_hidden : bool;
  pageControls : PageControls;
  highlightLayer : list Highlight;
  highlightIndicators : nat
}.

(** The upload dialog and the feedback dialogs appended to the body. *)
Record Dialogs : Type := {
  uploadModal_hidden : bool;
  uploadSubmit_busy : bool;
  feedbackModals : list FeedbackModal
}.

(** The whole state: the environment, the five groups above, the
    effects issued so far (oldest first) and the next fresh element
    identifier. *)
Record State : Type := {
  env : Env;
  vars : Vars;
  chat : Chat;
  files : Files;
  viewer : Viewer;
  dialogs : Dialogs;
  out : list Effect;
  fresh : nat
}.

Definition with_vars (v : Vars) (s : State) : State :=
  {| env := env s;
     vars := v;
     chat := chat s;
     files := files s;
     viewer := viewer s;
     dialogs := dialogs s;
     out := out s;
     fresh := fresh s |}.

Definition with_chat (v : Chat) (s : State) : State :=
  {| env := env s;
     vars := vars s;
     chat := v;
     files := files s;
     viewer := viewer s;
     dialogs := dialogs s;
     out := out s;
     fresh := fresh s |}.

Definition with_files (v : Files) (s : State) : State :=
  {| env := env s;
     vars := vars s;
     chat := chat s;
     files := v;
     viewer := viewer s;
     dialogs := dialogs s;
     out := out s;
     fresh := fresh s |}.

Definition with_viewer (v : Viewer) (s : State) : State :=
  {| env := env s;
     vars := vars s;
     chat := chat s;
     files := files s;
     viewer := v;
     dialogs := dialogs s;
     out := out s;
     fresh := fresh s |}.

Definition with_dialogs (v : Dialogs) (s : State) : State :=
  {| env := env s;
     vars := vars s;
     chat := chat s;
     files := files s;
     viewer := viewer s;
     dialogs := v;
     out := out s;
     fresh := fresh s |}.

Definition with_out (v : list Effect) (s : State) : State :=
  {| env := env s;
     vars := vars s;
     chat := chat s;
     files := files s;
     viewer := viewer s;
     dialogs := dialogs s;
     out := v;
     fresh := fresh s |}.

Definition with_fresh (v : nat) (s : State) : State :=
  {| env := env s;
     vars := vars s;
     chat := chat s;
     files := files s;
     viewer := viewer s;
     dialogs := dialogs s;
     out := out s;
     fresh := v |}.

Definition set_pdfDoc (v : option Pdf) (s : State) : State :=
  with_vars
    {| pdfDoc := v;
       currentPage := currentPage (vars s);
       totalPages := totalPages (vars s);
       selectedFile := selectedFile (vars s);
       currentHighlights := currentHighlights (vars s);
       currentPageTextContent := currentPageTextContent (vars s) |} s.

Definition set_currentPage (v : Z) (s : State) : State :=
  with_vars
    {| pdfDoc := pdfDoc (vars s);
       currentPage := v;
       totalPages := totalPages (vars s);
       selectedFile := selectedFile (vars s);
       currentHighlights := currentHighlights (vars s);
       currentPageTextContent := currentPageTextContent (vars s) |} s.

Definition set_totalPages (v : Z) (s : State) : State :=
  with_vars
    {| pdfDoc := pdfDoc (vars s);
       currentPage := currentPage (vars s);
       totalPages := v;
       selectedFile := selectedFile (vars s);
       currentHighlights := currentHighlights (vars s);
       currentPageTextContent := currentPageTextContent (vars s) |} s.

Definition set_selectedFile (v : Selected) (s : State) : State :=
  with_vars
    {| pdfDoc := pdfDoc (vars s);
       currentPage := currentPage (vars s);
       totalPages := totalPages (vars s);
       selectedFile := v;
       currentHighlights := currentHighlights (vars s);
       currentPageTextContent := currentPageTextContent (vars s) |} s.

Definition set_currentHighlights (v : list Highlight) (s : State) : State :=
  with_vars
    {| pdfDoc := pdfDoc (vars s);
       currentPage := currentPage (vars s);
       totalPages := totalPages (vars s);
       selectedFile := selectedFile (vars s);
       currentHighlights := v;
       currentPageTextContent := currentPageTextContent (vars s) |} s.

Definition set_currentPageTextContent (v : option (list TextItem)) (s : State) : State :=
  with_vars
    {| pdfDoc := pdfDoc (vars s);
       currentPage := currentPage (vars s);
       totalPages := totalPages (vars s);
       selectedFile := selectedFile (vars s);
       currentHighlights := currentHighlights (vars s);
       currentPageTextContent := v |} s.

Definition set_chatBox (v : list MessageElement) (s : State) : State :=
  with_chat
    {| chatBox := v;
       welcome_display := welcome_display (chat s);
       welcome_text := welcome_text (chat s);
       chatStatus := chatStatus (chat s);
       userInput_value := userInput_value (chat s);
       userInput_disabled := userInput_disabled (chat s);
       sendBtn_disabled := sendBtn_disabled (chat s) |} s.

Definition set_welcome_display (v : Display) (s : State) : State :=
  with_chat
    {| chatBox := chatBox (chat s);
       welcome_display := v;
       welcome_text := welcome_text (chat s);
       chatStatus := chatStatus (chat s);
       userInput_value := userInput_value (chat s);
       userInput_disabled := userInput_disabled (chat s);
       sendBtn_disabled := sendBtn_disabled (chat s) |} s.

Definition set_welcome_text (v : string) (s : State) : State :=
  with_chat
    {| chatBox := chatBox (chat s);
       welcome_display := welcome_display (chat s);
       welcome_text := v;
       chatStatus := chatStatus (chat s);
       userInput_value := userInput_value (chat s);
       userInput_disabled := userInput_disabled (chat s);
       sendBtn_disabled := sendBtn_disabled (chat s) |} s.

Definition set_chatStatus (v : string) (s : State) : State :=
  with_chat
    {| chatBox := chatBox (chat s);
       welcome_display := welcome_display (chat s);
       welcome_text := welcome_text (chat s);
       chatStatus := v;
       userInput_value := userInput_value (chat s);
       userInput_disabled := userInput_disabled (chat s);
       sendBtn_disabled := sendBtn_disabled (chat s) |} s.

Definition set_userInput_value (v : string) (s : State) : State :=
  with_chat
    {| chatBox := chatBox (chat s);
       welcome_display := welcome_display (chat s);
       welcome_text := welcome_text (chat s);
       chatStatus := chatStatus (chat s);
       userInput_value := v;
       userInput_disabled := userInput_disabled (chat s);
       sendBtn_disabled := sendBtn_disabled (chat s) |} s.

Definition set_userInput_disabled (v : bool) (s : State) : State :=
  with_chat
    {| chatBox := chatBox (chat s);
       welcome_display := welcome_display (chat s);
       welcome_text := welcome_text (chat s);
       chatStatus := chatStatus (chat s);
       userInput_value := userInput_value (chat s);
       userInput_disabled := v;
       sendBtn_disabled := sendBtn_disabled (chat s) |} s.

Definition set_sendBtn_disabled (v : bool) (s : State) : State :=
  with_chat
    {| chatBox := chatBox (chat s);
       welcome_display := welcome_display (chat s);
       welcome_text := welcome_text (chat s);
       chatStatus := chatStatus (chat s);
       userInput_value := userInput_value (chat s);
       userInput_disabled := userInput_disabled (chat s);
       sendBtn_disabled := v |} s.

Definition set_noDocumentsMessage (v : bool) (s : State) : State :=
  with_files
    {| noDocumentsMessage := v;
       fileList := fileList (files s);
       fileCount := fileCount (files s) |} s.

Definition set_fileList (v : option (list FileItem)) (s : State) : State :=
  with_files
    {| noDocumentsMessage := noDocumentsMessage (files s);
       fileList := v;
       fileCount := fileCount (files s) |} s.

Definition set_fileCount (v : Z) (s : State) : State :=
  with_files
    {| noDocumentsMessage := noDocumentsMessage (files s);
       fileList := fileList (files s);
       fileCount := v |} s.

Definition set_pdfViewer_display (v : Display) (s : State) : State :=
  with_viewer
    {| pdfViewer_display := v;
       pdfPlaceholder_display := pdfPlaceholder_display (viewer s);
       loadingOverlay_hidden := loadingOverlay_hidden (viewer s);
       pageControls := pageControls (viewer s);
       highlightLayer := highlightLayer (viewer s);
       highlightIndicators := highlightIndicators (viewer s) |} s.

Definition set_pdfPlaceholder_display (v : Display) (s : State) : State :=
  with_viewer
    {| pdfViewer_display := pdfViewer_display (viewer s);
       pdfPlaceholder_display := v;
       loadingOverlay_hidden := loadingOverlay_hidden (viewer s);
       pageControls := pageControls (viewer s);
       highlightLayer := highlightLayer (viewer s);
       highlightIndicators := highlightIndicators (viewer s) |} s.

Definition set_loadingOverlay_hidden (v : bool) (s : State) : State :=
  with_viewer
    {| pdfViewer_display := pdfViewer_display (viewer s);
       pdfPlaceholder_display := pdfPlaceholder_display (viewer s);
       loadingOverlay_hidden := v;
       pageControls := pageControls (viewer s);
       highlightLayer := highlightLayer (viewer s);
       highlightIndicators := highlightIndicators (viewer s) |} s.

Definition set_pageControls (v : PageControls) (s : State) : State :=
  with_viewer
    {| pdfViewer_display := pdfViewer_display (viewer s);
       pdfPlaceholder_display := pdfPlaceholder_display (viewer s);
       loadingOverlay_hidden := loadingOverlay_hidden (viewer s);
       pageControls := v;
       highlightLayer := highlightLayer (viewer s);
       highlightIndicators := highlightIndicators (viewer s) |} s.

Definition set_highlightLayer (v : list Highlight) (s : State) : State :=
  with_viewer
    {| pdfViewer_display := pdfViewer_display (viewer s);
       pdfPlaceholder_display := pdfPlaceholder_display (viewer s);
       loadingOverlay_hidden := loadingOverlay_hidden (viewer s);
       pageControls := pageControls (viewer s);
       highlightLayer := v;
       highlightIndicators := highlightIndicators (viewer s) |} s.

Definition set_highlightIndicators (v : nat) (s : State) : State :=
  with_viewer
    {| pdfViewer_display := pdfViewer_display (viewer s);
       pdfPlaceholder_display := pdfPlaceholder_display (viewer s);
       loadingOverlay_hidden := loadingOverlay_hidden (viewer s);
       pageControls := pageControls (viewer s);
       highlightLayer := highlightLayer (viewer s);
       highlightIndicators := v |} s.

Definition set_uploadModal_hidden (v : bool) (s : State) : State :=
  with_dialogs
    {| uploadModal_hidden := v;
       uploadSubmit_busy := uploadSubmit_busy (dialogs s);
       feedbackModals := feedbackModals (dialogs s) |} s.

Definition set_uploadSubmit_busy (v : bool) (s : State) : State :=
  with_dialogs
    {| uploadModal_hidden := uploadModal_hidden (dialogs s);
       uploadSubmit_busy := v;
       feedbackModals := feedbackModals (dialogs s) |} s.

Definition set_feedbackModals (v : list FeedbackModal) (s : State) : State :=
  with_dialogs
    {| uploadModal_hidden := uploadModal_hidden (dialogs s);
       uploadSubmit_busy := uploadSubmit_busy (dialogs s);
       feedbackModals := v |} s.

(** ** The monad of handlers

    A handler runs on the state and either returns or throws; what it did
    to the state before throwing stays done. *)

Inductive Res (A : Type) : Type :=
| returned (a : A)
| thrown.
Arguments returned {A} a.
Arguments thrown {A}.

Definition M (A : Type) : Type := State -> Res A * State.

Definition ret {A : Type} (a : A) : M A := fun s => (returned a, s).

Definition bind {A B : Type} (m : M A) (f : A -> M B) : M B :=
  fun s =>
    match m s with
    | (returned a, s') => f a s'
    | (thrown, s') => (thrown, s')
    end.

Definition throw {A : Type} : M A := fun s => (thrown, s).

Definition try_catch (m h : M unit) : M unit :=
  fun s =>
    match m s with
    | (returned a, s') => (returned a, s')
    | (thrown, s') => h s'
    end.

Definition gets {A : Type} (f : State -> A) : M A := fun s => (returned (f s), s).

Definition modify (f : State -> State) : M unit := fun s => (returned tt, f s).

Definition emit (e : Effect) : M unit :=
  modify (fun s => with_out (out s ++ [e]) s).

(** [document.createElement], for the elements the script later refers
    to: the element gets an identifier no other element has. *)
Definition createElement : M nat :=
  fun s => (returned (fresh s), with_fresh (S (fresh s)) s).

Declare Scope handler_scope.
Delimit Scope handler_scope with handler.
Notation "x <- m ;; k" := (bind m (fun x => k))
  (at level 61, m at next level, right associativity) : handler_scope.
Notation "m ;; k" := (bind m (fun _ => k))
  (at level 61, right associativity) : handler_scope.
Local Open Scope handler_scope.

(** [promise.then(f).catch(g)]: [g] runs when the promise is rejected and
    also when [f] throws. *)
Definition then_catch {A : Type} (f : A -> M unit) (g : M unit) (r : Settled A) : M unit :=
  match r with
  | resolved a => try_catch (f a) g
  | rejected => g
  end.

(** The final state of a handler. *)
Definition exec (m : M unit) (s : State) : State := snd (m s).

(** *** Values *)

(** Truthiness of a property that holds a string, or a number, when
    present. *)
Definition truthy (o : option string) : bool :=
  match o with
  | Some v => nonempty v
  | None => false
  end.

Definition truthyZ (o : option Z) : bool :=
  match o with
  | Some z => negb (z =? 0)%Z
  | None => false
  end.

(** [o || d]. *)
Definition or_else (o : option string) (d : string) : string :=
  match o with
  | Some v => if nonempty v then v else d
  | None => d
  end.

(** A value placed in a template string. *)
Definition js_string (o : option string) : string :=
  match o with
  | Some v => v
  | None => "undefined"
  end.

(** The value of [selectedFile] where a string is looked for:
    [selectedFile || ''], [if (selectedFile)]. *)
Definition file_name (v : Selected) : option string :=
  match v with
  | named filename => Some filename
  | null | undefined => None
  end.
Coercion file_name : Selected >-> option.

(** [selectedFile = v], for a value that is [undefined] or a string. *)
Definition of_value (v : option string) : Selected :=
  match v with
  | Some filename => named filename
  | None => undefined
  end.

(** [selectedFile === b] for a value [b] that is [undefined] or a
    string. *)
Definition strict_eq (a : Selected) (b : option string) : bool :=
  match a, b with
  | named x, Some y => String.eqb x y
  | undefined, None => true
  | _, _ => false
  end.

Definition post_json (path : string) (fields : list (string * string)) : Request :=
  {| method := "POST"; url := path; body := Some (json fields) |}.

(** ** The functions of the script *)

Definition consoleError (message : string) : M unit := emit (ConsoleError message).

(** The notification is appended to the body; its timed removal is not
    followed. *)
Definition showNotification (message type : string) : M unit :=
  emit (Notification message type).

Definition alert (message : string) : M unit := emit (Alert message).

Definition resetUploadButton : M unit := modify (set_uploadSubmit_busy false).

Definition showUploadLoading : M unit := modify (set_uploadSubmit_busy true).

Definition closeUploadModal : M unit :=
  modify (set_uploadModal_hidden true);;
  resetUploadButton.

Definition showLoadingOverlay : M unit := modify (set_loadingOverlay_hidden false).

Definition hideLoadingOverlay : M unit := modify (set_loadingOverlay_hidden true).

Definition updateChatStatus (status : string) : M unit := modify (set_chatStatus status).

Definition enableChat (enabled : bool) : M unit :=
  modify (set_userInput_disabled (negb enabled));;
  modify (set_sendBtn_disabled (negb enabled));;
  updateChatStatus (if enabled then "Ready - Ask about any document"
                    else "No documents available").

Definition renderPage (pageNumber : Z) : M unit :=
  doc <- gets (fun s => pdfDoc (vars s));;
  match doc with
  | None => ret tt
  | Some _ => emit (GetPage pageNumber for_render)
  end.

Definition updatePageControls : M unit :=
  c <- gets (fun s => currentPage (vars s));;
  t <- gets (fun s => totalPages (vars s));;
  modify (set_pageControls
            {| prev_disabled := (c <=? 1)%Z;
               next_disabled := (c >=? t)%Z;
               page_info := (c, t) |}).

Definition clearHighlights : M unit :=
  layer <- gets (fun s => has_highlightLayer (env s));;
  (if layer then modify (set_highlightLayer []) else ret tt);;
  modify (fun s => set_highlightIndicators (Nat.pred (highlightIndicators (viewer s))) s);;
  modify (set_currentHighlights []).

Definition loadPdf (url : string) : M unit :=
  e <- gets env;;
  if negb (has_pdfViewer e) || negb (has_pdfPlaceholder e)
  then consoleError "PDF viewer elements not found"
  else
    showLoadingOverlay;;
    modify (set_pdfPlaceholder_display none);;
    modify (set_pdfViewer_display block);;
    if pdfjs_loaded e
    then emit (GetDocument url)
    else
      consoleError "PDF.js not loaded";;
      hideLoadingOverlay;;
      showNotification "PDF viewer not available." "error";;
      modify (set_pdfPlaceholder_display block);;
      modify (set_pdfViewer_display none).

(** The two handlers of [pdfjsLib.getDocument(url).promise]. *)
Definition loadPdf_then (pdf : Pdf) : M unit :=
  modify (set_pdfDoc (Some pdf));;
  modify (set_totalPages (numPages pdf));;
  modify (set_currentPage 1%Z);;
  c <- gets (fun s => currentPage (vars s));;
  renderPage c;;
  updatePageControls;;
  hideLoadingOverlay.

Definition loadPdf_catch : M unit :=
  consoleError "Error loading PDF:";;
  hideLoadingOverlay;;
  showNotification "Failed to load PDF." "error";;
  modify (set_pdfPlaceholder_display block);;
  modify (set_pdfViewer_display none).

(** What follows [pdfDoc.getPage] in [renderPage]: the canvas is sized
    (an exception when it is missing), the page is drawn and its text is
    read; [r] is how that chain settles. *)
Definition renderPage_then (r : Settled (list TextItem)) : M unit :=
  canvas <- gets (fun s => has_canvas (env s));;
  if canvas then
    match r with
    | resolved textContent =>
        modify (set_currentPageTextContent (Some textContent));;
        clearHighlights
    | rejected => consoleError "Error rendering page:"
    end
  else throw.

(** *** Highlighting *)

Definition searchWords (searchText : string) : list string :=
  firstn 5
    (filter (fun word => 3 <? String.length word)
       (split_ws (blank_punctuation (toLowerCase searchText)))).

Definition containsSearchTerm (words : list string) (item : TextItem) : bool :=
  let text := toLowerCase (str item) in
  existsb (fun word => includes text word) words.

(** The body of [textContent.items.forEach]: [index] is the position of
    the next fragment and [highlightsCreated] the counter; the result
    lists the highlights created, in order. *)
Fixpoint scan (words : list string) (index highlightsCreated : nat)
    (items : list TextItem) : list Highlight :=
  match items with
  | [] => []
  | item :: rest =>
      if containsSearchTerm words item && (highlightsCreated <? 10)
      then {| hl_index := index; hl_item := item |}
             :: scan words (S index) (S highlightsCreated) rest
      else scan words (S index) highlightsCreated rest
  end.

Definition highlightText (searchText : string) : M unit :=
  content <- gets (fun s => currentPageTextContent (vars s));;
  match content with
  | None => ret tt
  | Some _ =>
      if negb (nonempty searchText) then ret tt
      else
        clearHighlights;;
        e <- gets env;;
        if negb (has_canvas e) || negb (has_highlightLayer e) then ret tt
        else
          doc <- gets (fun s => pdfDoc (vars s));;
          match doc with
          | None => ret tt
          | Some _ =>
              c <- gets (fun s => currentPage (vars s));;
              emit (GetPage c (for_highlight searchText))
          end
  end.

(** What follows [pdfDoc.getPage] in [highlightText]. *)
Definition highlightText_then (searchText : string) : M unit :=
  content <- gets (fun s => currentPageTextContent (vars s));;
  match content with
  | None => throw
  | Some items =>
      let created := scan (searchWords searchText) 0 0 items in
      modify (fun s => set_highlightLayer (highlightLayer (viewer s) ++ created) s);;
      modify (fun s => set_currentHighlights (currentHighlights (vars s) ++ created) s);;
      hs <- gets (fun s => currentHighlights (vars s));;
      if 0 <? List.length hs then
        showNotification
          ("Highlighted " ++ show_nat (List.length hs) ++ " text section(s) on this page")%string
          "info";;
        viewer_present <- gets (fun s => has_pdfViewer (env s));;
        if viewer_present
        then modify (fun s => set_highlightIndicators (S (highlightIndicators (viewer s))) s)
        else ret tt
      else ret tt
  end.

(** *** Chat *)

Definition appendChild (m : MessageElement) : M unit :=
  modify (fun s => set_chatBox (chatBox (chat s) ++ [m]) s).

Definition appendMessage (role content : string) (messageId sourcePage : option Z)
    (feedback question filename : option string) : M unit :=
  modify (set_welcome_display none);;
  if String.eqb role "user" then appendChild (user_bubble content)
  else
    conv <- gets (fun s => converter (env s));;
    match conv with
    | None => throw
    | Some makeHtml =>
        let htmlContent := makeHtml content in
        let sourceInfo := if truthyZ sourcePage then sourcePage else None in
        selected <- gets (fun s => selectedFile (vars s));;
        id <- createElement;;
        appendChild
          (bot_bubble htmlContent sourceInfo
             {| fc_id := id;
                data_question := encodeURIComponent (or_else question "");
                data_answer := encodeURIComponent content;
                data_filename :=
                  encodeURIComponent (or_else filename (or_else selected ""));
                fc_display := buttons |})
    end.

(** The [forEach] over [data.history], with [lastUserQuestion];
    [filename] is the argument of [loadHistory], a string or
    [undefined]. *)
Fixpoint history_forEach (filename : option string) (lastUserQuestion : string)
    (history : list HistoryMsg) : M unit :=
  match history with
  | [] => ret tt
  | msg :: rest =>
      if String.eqb (msg_role msg) "user" then
        appendMessage (msg_role msg) (msg_content msg) (msg_id msg) None
          (msg_feedback msg) None filename;;
        history_forEach filename (msg_content msg) rest
      else
        appendMessage (msg_role msg) (msg_content msg) (msg_id msg) None
          (msg_feedback msg) (Some lastUserQuestion) filename;;
        history_forEach filename lastUserQuestion rest
  end.

Definition loadHistory (filename : option string) : M unit :=
  modify (set_chatBox []);;
  modify (set_welcome_display block);;
  modify (set_welcome_text
            ("Ask me anything about " ++ double_quote ++ js_string filename
               ++ double_quote)%string);;
  emit (Fetch {| method := "GET";
                 url := ("/history?filename="
                           ++ encodeURIComponent (js_string filename))%string;
                 body := None |}
          (p_history filename)).

Definition loadHistory_then (filename : option string) (data : Data) : M unit :=
  match d_history data with
  | Some (msg :: rest) =>
      modify (set_chatBox []);;
      history_forEach filename "" (msg :: rest)
  | _ => ret tt
  end.

Definition loadHistory_catch : M unit := consoleError "History load error:".

Definition clearChatHistory (filename : string) : M unit :=
  showLoadingOverlay;;
  emit (Fetch (post_json "/clear_chat" [("filename", filename)]) (p_clear_chat filename)).

Definition clearChatHistory_then (filename : string) (data : Data) : M unit :=
  hideLoadingOverlay;;
  if truthy (d_error data) then showNotification (js_string (d_error data)) "error"
  else
    showNotification (js_string (d_success data)) "success";;
    loadHistory (Some filename);;
    modify (set_welcome_display block).

Definition clearChatHistory_catch : M unit :=
  hideLoadingOverlay;;
  consoleError "Clear chat error:";;
  showNotification "Failed to clear chat history." "error".

Definition askQuestion : M unit :=
  v <- gets (fun s => userInput_value (chat s));;
  let question := trim v in
  if negb (nonempty question) then ret tt
  else
    appendMessage "user" question None None None None None;;
    modify (set_userInput_value "");;
    updateChatStatus "Finding best document...";;
    emit (Fetch (post_json "/ask" [("question", question)]) (p_ask question)).

(** *** Elements with a [data-filename] *)

Definition items (s : State) : list FileItem :=
  match fileList (files s) with
  | Some l => l
  | None => []
  end.

(** Whether an element of the page has the attribute [data-filename]
    with that value: a list item or a file button, or a feedback
    container, whose attribute holds encoded text. *)
Definition has_data_filename (value : string) (s : State) : bool :=
  existsb (fun it => match li_filename it with
                     | Some v => String.eqb v value
                     | None => false
                     end
                     || String.eqb (btn_filename it) value) (items s)
  || existsb (fun m => match m with
                       | bot_bubble _ _ fc => String.eqb (data_filename fc) value
                       | user_bubble _ => false
                       end) (chatBox (chat s)).

(** [document.querySelector(`[data-filename="${filename}"]`)], as a
    truth value: the text is spliced into the selector as it is, so the
    selector parser decides what is asked for. *)
Definition query_data_filename (filename : string) : M bool :=
  match css_string filename with
  | syntax_error => throw
  | attribute_is value => gets (has_data_filename value)
  | attribute_beyond => ret false
  end.

(** Apart from the ring it moves to the button of the file, a change of
    CSS classes, [highlightSelectedDocument] shows in one way: its
    [querySelector] throws when the name makes no selector. *)
Definition highlightSelectedDocument (filename : string) : M unit :=
  query_data_filename filename;;
  ret tt.

(** The reply handler of [askQuestion], in its three parts: the switch to
    the document the answer came from, the answer, and the move to the
    source page. *)
Definition switchDocument (data : Data) : M unit :=
  selected <- gets (fun s => selectedFile (vars s));;
  if truthy (d_filename data) && negb (strict_eq selected (d_filename data)) then
    modify (set_selectedFile (of_value (d_filename data)));;
    highlightSelectedDocument (js_string (d_filename data));;
    loadPdf ("/uploads/" ++ js_string (d_filename data))%string;;
    showNotification ("Switched to document: " ++ js_string (d_filename data))%string "info"
  else ret tt.

Definition showSource (data : Data) : M unit :=
  doc <- gets (fun s => pdfDoc (vars s));;
  match d_source_page data, doc with
  | Some page, Some _ =>
      if truthyZ (Some page) then
        modify (set_currentPage page);;
        renderPage page;;
        updatePageControls;;
        if truthy (d_source_content data) then
          emit (SetTimeout (t_highlight (take 100 (js_string (d_source_content data)))) 500);;
          showNotification
            ("Navigated to page " ++ show_Z page ++ " with highlighted source")%string "info"
        else
          showNotification
            ("Navigated to page " ++ show_Z page ++ " for context")%string "info"
      else ret tt
  | _, _ => ret tt
  end.

Definition askQuestion_then (question : string) (data : Data) : M unit :=
  updateChatStatus "Ready";;
  if truthy (d_error data)
  then appendMessage "assistant" (js_string (d_error data)) None None None None None
  else
    switchDocument data;;
    appendMessage "assistant" (d_answer data) (d_message_id data) (d_source_page data)
      None (Some question) (d_filename data);;
    showSource data.

Definition askQuestion_catch : M unit :=
  consoleError "Chat error:";;
  updateChatStatus "Error";;
  appendMessage "assistant" "Sorry, I encountered an error. Please try again."
    None None None None None.

(** *** Feedback *)

(** [decodeURIComponent(attribute || '')], an exception when the text is
    not a valid encoding. *)
Definition decode_attribute (a : string) : M string :=
  match decodeURIComponent a with
  | Some v => ret v
  | None => throw
  end.

Definition sendFeedback (question answer feedbackType additionalInfo : string)
    (feedbackContainer : FeedbackContainer) : M unit :=
  filename <- decode_attribute (data_filename feedbackContainer);;
  if negb (nonempty filename) then
    showNotification "Cannot determine which document this feedback is for" "error"
  else if negb (nonempty question) || negb (nonempty answer) || negb (nonempty feedbackType)
  then
    consoleError "Missing required fields:";;
    showNotification "Missing required information for feedback" "error"
  else
    emit (Fetch
            (post_json "/feedback"
               [("filename", filename); ("question", question); ("answer", answer);
                ("feedback_type", feedbackType); ("additional_info", additionalInfo)])
            (p_feedback feedbackType feedbackContainer)).

(** [feedbackContainer.innerHTML = ...]: seen in the chat box when the
    container is still one of its descendants. *)
Definition set_feedback_display (id : nat) (d : FeedbackDisplay) : M unit :=
  modify (fun s =>
    set_chatBox
      (map (fun m =>
              match m with
              | bot_bubble html src fc =>
                  if fc_id fc =? id
                  then bot_bubble html src
                         {| fc_id := fc_id fc;
                            data_question := data_question fc;
                            data_answer := data_answer fc;
                            data_filename := data_filename fc;
                            fc_display := d |}
                  else m
              | user_bubble _ => m
              end)
         (chatBox (chat s))) s).

Definition sendFeedback_then (feedbackType : string) (feedbackContainer : FeedbackContainer)
    (data : Data) : M unit :=
  if truthy (d_message data) then
    showNotification "Feedback submitted successfully!" "success";;
    set_feedback_display (fc_id feedbackContainer)
      (if String.eqb feedbackType "like" then thanks_like else thanks_dislike)
  else showNotification (or_else (d_error data) "Failed to submit feedback.") "error".

Definition sendFeedback_catch : M unit :=
  consoleError "Feedback error:";;
  showNotification "An error occurred while submitting feedback." "error".

Definition showFeedbackModal (question answer : string) (feedbackContainer : FeedbackContainer)
  : M unit :=
  id <- createElement;;
  modify (fun s =>
    set_feedbackModals
      (feedbackModals (dialogs s)
         ++ [{| modal_id := id; modal_question := question; modal_answer := answer;
                modal_container := feedbackContainer |}]) s).

Definition removeModal (id : nat) : M unit :=
  modify (fun s =>
    set_feedbackModals
      (filter (fun m => negb (modal_id m =? id)) (feedbackModals (dialogs s))) s).

(** The container of identifier [id] whose buttons are in the chat box. *)
Fixpoint find_buttons (id : nat) (box : list MessageElement) : option FeedbackContainer :=
  match box with
  | [] => None
  | bot_bubble _ _ fc :: rest =>
      if (fc_id fc =? id) && match fc_display fc with buttons => true | _ => false end
      then Some fc else find_buttons id rest
  | user_bubble _ :: rest => find_buttons id rest
  end.

(** The click handler of the chat box, for a click on the button of
    [data-feedback] value [feedback] in the container [id]. *)
Definition feedbackClick (id : nat) (feedback : string) : M unit :=
  box <- gets (fun s => chatBox (chat s));;
  match find_buttons id box with
  | None => ret tt
  | Some feedbackContainer =>
      question <- decode_attribute (data_question feedbackContainer);;
      answer <- decode_attribute (data_answer feedbackContainer);;
      if String.eqb feedback "like"
      then sendFeedback question answer "like" "" feedbackContainer
      else if String.eqb feedback "dislike"
      then showFeedbackModal question answer feedbackContainer
      else ret tt
  end.

(** The submit handler of a feedback dialog, [value] being the text of
    its textarea. *)
Definition modalSubmit (id : nat) (value : string) : M unit :=
  ms <- gets (fun s => feedbackModals (dialogs s));;
  match find (fun m => modal_id m =? id) ms with
  | None => ret tt
  | Some m =>
      let feedbackText := trim value in
      if nonempty feedbackText then
        sendFeedback (modal_question m) (modal_answer m) "dislike" feedbackText
          (modal_container m);;
        removeModal id
      else ret tt
  end.

(** *** Files *)

(** [document.querySelectorAll('.file-btn').length]. *)
Definition fileButtons (s : State) : nat := List.length (items s).

Definition welcome_ready : string :=
  "Ask me anything about your documents - I'll automatically find the most relevant one!".

Definition welcome_empty : string := "Upload a document to get started".

(** [filename] is a string or [undefined]; in the selector and in the
    markup of the new item it is written as a template string writes
    it.  The button of the item gets the attribute the HTML parser
    reads from that markup. *)
Definition addFileToList (filename : option string) : M unit :=
  existing <- query_data_filename (js_string filename);;
  if existing then ret tt
  else
    f <- gets files;;
    (match noDocumentsMessage f, fileList f with
     | true, None =>
         modify (set_noDocumentsMessage false);;
         modify (set_fileList (Some []))
     | _, _ => ret tt
     end);;
    l <- gets items;;
    id <- createElement;;
    modify (set_fileList
              (Some ({| item_id := id; li_filename := None;
                        btn_filename := attribute_value (js_string filename);
                        has_delete_btn := false |} :: l)));;
    modify (fun s => set_fileCount (fileCount (files s) + 1)%Z s);;
    n <- gets fileButtons;;
    (if n =? 1 then
       enableChat true;;
       modify (set_welcome_text welcome_ready)
     else ret tt);;
    emit (SetTimeout (t_auto_select filename id) 100).

(** The timer of [addFileToList]: the new file is selected. *)
Definition autoSelect (filename : option string) : M unit :=
  modify (set_selectedFile (of_value filename));;
  loadPdf ("/uploads/" ++ js_string filename)%string;;
  loadHistory filename;;
  enableChat true;;
  updateChatStatus "Connected to document".

Definition resetUI : M unit :=
  modify (set_selectedFile null);;
  modify (set_pdfDoc None);;
  modify (set_currentPage 1%Z);;
  modify (set_totalPages 0%Z);;
  clearHighlights;;
  e <- gets env;;
  (if has_pdfViewer e then modify (set_pdfViewer_display none) else ret tt);;
  (if has_pdfPlaceholder e then modify (set_pdfPlaceholder_display block) else ret tt);;
  modify (set_chatBox []);;
  modify (set_welcome_display block);;
  enableChat false;;
  updatePageControls.

Definition deleteDocument (filename : option string) (listItem : nat) : M unit :=
  showLoadingOverlay;;
  emit (Fetch
          (post_json "/delete"
             match filename with
             | Some f => [("filename", f)]
             | None => []
             end)
          (p_delete filename listItem)).

Definition deleteDocument_then (filename : option string) (listItem : nat) (data : Data)
  : M unit :=
  hideLoadingOverlay;;
  if truthy (d_error data) then showNotification (js_string (d_error data)) "error"
  else
    showNotification (js_string (d_success data)) "success";;
    modify (fun s =>
      set_fileList
        (option_map (filter (fun it => negb (item_id it =? listItem))) (fileList (files s)))
        s);;
    modify (fun s => set_fileCount (Z.max 0 (fileCount (files s) - 1)) s);;
    selected <- gets (fun s => selectedFile (vars s));;
    (if strict_eq selected filename then resetUI else ret tt);;
    n <- gets fileButtons;;
    if n =? 0 then
      enableChat false;;
      modify (set_welcome_text welcome_empty);;
      modify (set_chatBox []);;
      modify (set_welcome_display block)
    else ret tt.

Definition deleteDocument_catch : M unit :=
  hideLoadingOverlay;;
  consoleError "Delete error:";;
  showNotification "Failed to delete document." "error".

(** The click handler of the file list, for a click inside the file
    button, and inside the delete button, of the item [id]; [confirmed]
    is the answer to the confirmation dialog. *)
Definition fileClick (id : nat) : M unit :=
  l <- gets items;;
  match find (fun it => item_id it =? id) l with
  | None => ret tt
  | Some it =>
      let name := btn_filename it in
      modify (set_selectedFile (named name));;
      loadPdf ("/uploads/" ++ name)%string;;
      loadHistory (Some name);;
      updateChatStatus ("Viewing: " ++ name)%string;;
      showNotification ("Now viewing: " ++ name)%string "info"
  end.

Definition deleteClick (id : nat) (confirmed : bool) : M unit :=
  l <- gets items;;
  match find (fun it => (item_id it =? id) && has_delete_btn it) l with
  | None => ret tt
  | Some it => if confirmed then deleteDocument (li_filename it) id else ret tt
  end.

(** *** Upload *)

Definition uploadSubmit (file : option File) : M unit :=
  match file with
  | None => alert "Please select a PDF file."
  | Some f =>
      if negb (String.eqb (file_type f) "application/pdf")
      then alert "Please select a PDF file."
      else if (file_size f >? 10 * 1024 * 1024)%Z
      then alert "File size must be less than 10MB."
      else
        showUploadLoading;;
        emit (Fetch {| method := "POST"; url := "/upload"; body := Some (form_data f) |}
                p_upload)
  end.

Definition upload_then (data : Data) : M unit :=
  if truthy (d_error data) then
    alert (js_string (d_error data));;
    resetUploadButton
  else
    closeUploadModal;;
    showNotification "PDF uploaded successfully!" "success";;
    addFileToList (d_filename data);;
    resetUploadButton.

Definition upload_catch : M unit :=
  consoleError "Upload error:";;
  alert "Upload failed. Please try again.";;
  resetUploadButton.

(** *** Page navigation and the remaining handlers *)

Definition prevPage : M unit :=
  c <- gets (fun s => currentPage (vars s));;
  if (c >? 1)%Z then
    modify (set_currentPage (c - 1)%Z);;
    renderPage (c - 1)%Z;;
    updatePageControls
  else ret tt.

Definition nextPage : M unit :=
  c <- gets (fun s => currentPage (vars s));;
  t <- gets (fun s => totalPages (vars s));;
  if (c <? t)%Z then
    modify (set_currentPage (c + 1)%Z);;
    renderPage (c + 1)%Z;;
    updatePageControls
  else ret tt.

Definition clearChatClick (confirmed : bool) : M unit :=
  selected <- gets (fun s => selectedFile (vars s));;
  if truthy selected then
    if confirmed then clearChatHistory (js_string selected) else ret tt
  else showNotification "Please select a document to clear its chat history" "info".

(** The timer set when the script starts. *)
Definition initTimer : M unit :=
  n <- gets fileButtons;;
  if 0 <? n then
    enableChat true;;
    modify (set_welcome_text welcome_ready)
  else
    enableChat false;;
    modify (set_welcome_text welcome_empty).

(** The start of the script on the page as served. *)
Definition initialize : M unit :=
  modify (set_pdfDoc None);;
  modify (set_currentPage 1%Z);;
  modify (set_totalPages 0%Z);;
  modify (set_selectedFile null);;
  modify (set_currentHighlights []);;
  modify (set_userInput_disabled true);;
  modify (set_sendBtn_disabled true);;
  modify (set_chatStatus "Loading documents...");;
  emit (SetTimeout t_init 100).

(** ** Events *)

Inductive Event : Type :=
| ev_timer (t : Timer)
| ev_reply (k : Pending) (r : Settled Data)
| ev_document (r : Settled Pdf)
| ev_page_rendered (r : Settled (list TextItem))
| ev_page_for_highlight (searchText : string)
| ev_input (value : string)
| ev_open_upload
| ev_close_upload
| ev_upload_submit (file : option File)
| ev_file_click (id : nat)
| ev_delete_click (id : nat) (confirmed : bool)
| ev_prev_page
| ev_next_page
| ev_ask
| ev_clear_chat (confirmed : bool)
| ev_feedback_click (id : nat) (feedback : string)
| ev_modal_close (id : nat)
| ev_modal_submit (id : nat) (value : string).

Definition on_timer (t : Timer) : M unit :=
  match t with
  | t_init => initTimer
  | t_auto_select filename _ => autoSelect filename
  | t_highlight text => highlightText text
  end.

Definition on_reply (k : Pending) (r : Settled Data) : M unit :=
  match k with
  | p_upload => then_catch upload_then upload_catch r
  | p_feedback feedbackType container =>
      then_catch (sendFeedback_then feedbackType container) sendFeedback_catch r
  | p_ask question => then_catch (askQuestion_then question) askQuestion_catch r
  | p_history filename => then_catch (loadHistory_then filename) loadHistory_catch r
  | p_clear_chat filename =>
      then_catch (clearChatHistory_then filename) clearChatHistory_catch r
  | p_delete filename listItem =>
      then_catch (deleteDocument_then filename listItem) deleteDocument_catch r
  end.

Definition handle (ev : Event) : M unit :=
  match ev with
  | ev_timer t => on_timer t
  | ev_reply k r => on_reply k r
  | ev_document r => then_catch loadPdf_then loadPdf_catch r
  | ev_page_rendered r => renderPage_then r
  | ev_page_for_highlight searchText => highlightText_then searchText
  | ev_input value => modify (set_userInput_value value)
  | ev_open_upload => modify (set_uploadModal_hidden false)
  | ev_close_upload => closeUploadModal
  | ev_upload_submit file => uploadSubmit file
  | ev_file_click id => fileClick id
  | ev_delete_click id confirmed => deleteClick id confirmed
  | ev_prev_page => prevPage
  | ev_next_page => nextPage
  | ev_ask => askQuestion
  | ev_clear_chat confirmed => clearChatClick confirmed
  | ev_feedback_click id feedback => feedbackClick id feedback
  | ev_modal_close id => removeModal id
  | ev_modal_submit id value => modalSubmit id value
  end.

(** One event, and a sequence of events, from a state. *)
Definition step (s : State) (ev : Event) : State := exec (handle ev) s.

Definition run (s : State) (evs : list Event) : State := fold_left step evs s.

(** The effects a handler adds to those already issued. *)
Definition issued (m : M unit) (s : State) : list Effect :=
  skipn (List.length (out s)) (out (exec m s)).

Definition path_of (r : Request) : string :=
  match index 0 "?" (url r) with
  | Some n => substring 0 n (url r)
  | None => url r
  end.

Definition is_fetch_to (path : string) (e : Effect) : bool :=
  match e with
  | Fetch r _ => String.eqb (path_of r) path
  | _ => false
  end.

(** ** Notions of the specification *)

(** The key terms as the specification words them: lower case, every
    non-word character replaced by a space, split on white space, the
    words longer than three characters, the first five of them. *)
Definition key_terms (text : string) : list string :=
  firstn 5
    (filter (fun word => 3 <? String.length word)
       (split_ws (map_chars (fun c => if is_word c then c else space)
                    (toLowerCase text)))).

(** A fragment contains a key term as a substring of its lower-cased
    string. *)
Definition mentions (words : list string) (item : TextItem) : Prop :=
  exists word, In word words /\
    exists pre post, toLowerCase (str item) = (pre ++ word ++ post)%string.


(** A page with every element and both libraries, after the script
    started: the state the examples run from. *)
Definition served : State :=
  {| env := {| pdfjs_loaded := true;
               converter := Some (fun text => ("<p>" ++ text ++ "</p>")%string);
               has_pdfViewer := true; has_pdfPlaceholder := true;
               has_canvas := true; has_highlightLayer := true |};
     vars := {| pdfDoc := None; currentPage := 1; totalPages := 0;
                selectedFile := null; currentHighlights := [];
                currentPageTextContent := None |};
     chat := {| chatBox := []; welcome_display := block;
                welcome_text := welcome_empty; chatStatus := "Loading documents...";
                userInput_value := ""; userInput_disabled := true;
                sendBtn_disabled := true |};
     files := {| noDocumentsMessage := true; fileList := None; fileCount := 0 |};
     viewer := {| pdfViewer_display := none; pdfPlaceholder_display := block;
                  loadingOverlay_hidden := true;
                  pageControls := {| prev_disabled := true; next_disabled := true;
                                     page_info := (1, 0)%Z |};
                  highlightLayer := []; highlightIndicators := 0 |};
     dialogs := {| uploadModal_hidden := true; uploadSubmit_busy := false;
                   feedbackModals := [] |};
     out := [];
     fresh := 0 |}.

(** The page shown is one of the pages of the document. *)
Definition page_in_bounds (s : State) : Prop :=
  (1 <= currentPage (vars s) <= totalPages (vars s))%Z.

(** A click on one of the two page buttons. *)
Definition navigation (ev : Event) : Prop := ev = ev_prev_page \/ ev = ev_next_page.

(** What reaches only the console. *)
Definition is_console (e : Effect) : bool :=
  match e with
  | ConsoleError _ => true
  | _ => false
  end.

(** The request [sendFeedback] builds. *)
Definition feedback_request (filename question answer feedbackType additionalInfo : string)
  : Request :=
  post_json "/feedback"
    [("filename", filename); ("question", question); ("answer", answer);
     ("feedback_type", feedbackType); ("additional_info", additionalInfo)].


(** The served page after an answer about [a.pdf] was appended. *)
Definition answered : State :=
  exec (appendMessage "assistant" "Paris" None None None (Some "Capital?") (Some "a.pdf"))
    served.

Definition answered_container : FeedbackContainer :=
  {| fc_id := 0; data_question := "Capital%3F"; data_answer := "Paris";
     data_filename := "a.pdf"; fc_display := buttons |}.


(** The request [loadHistory] issues. *)
Definition history_request (filename : string) : Effect :=
  Fetch {| method := "GET";
           url := ("/history?filename=" ++ encodeURIComponent filename)%string;
           body := None |}
    (p_history (Some filename)).

(** The handler of an event keeps the viewer and the chat with the
    selected document: when it selects another document, it loads the
    viewer from that file and reloads the chat box from its history. *)
Definition synchronised (s : State) (ev : Event) : Prop :=
  forall f,
    selectedFile (vars (step s ev)) = named f -> selectedFile (vars s) <> named f ->
    In (GetDocument ("/uploads/" ++ f)) (issued (handle ev) s)
    /\ In (history_request f) (issued (handle ev) s)
    /\ chatBox (chat (step s ev)) = [].

(** The answered page with [a.pdf] selected, and a reply to a question
    that the backend answered from [b.pdf]. *)
Definition viewing_a : State := set_selectedFile (named "a.pdf") answered.

Definition reply_from_b : Data :=
  {| d_error := None; d_filename := Some "b.pdf"; d_answer := "42";
     d_message_id := Some 7%Z; d_source_page := None; d_source_content := None;
     d_message := None; d_success := None; d_history := None |}.

(** ** What a handler leaves alone

    [preserves f m]: running [m] leaves the observation [f] of the state
    as it was.  [appends P m]: running [m] only adds effects to those
    issued, each of them satisfying [P]. *)
Definition preserves {A B : Type} (f : State -> B) (m : M A) : Prop :=
  forall s, f (snd (m s)) = f s.

Definition appends {A : Type} (P : Effect -> Prop) (m : M A) : Prop :=
  forall s, exists l, out (snd (m s)) = out s ++ l /\ Forall P l.

(** An effect that is no request to the given path; an effect that is
    no request at all. *)
Definition not_fetch_to (path : string) (e : Effect) : Prop := is_fetch_to path e = false.

Definition is_fetch (e : Effect) : bool :=
  match e with
  | Fetch _ _ => true
  | _ => false
  end.

Definition no_fetch (e : Effect) : Prop := is_fetch e = false.

(** The served page listing one document, [a.pdf], as the backend
    renders it. *)
Definition listed : State :=
  set_fileCount 1
    (set_fileList
       (Some [{| item_id := 100; li_filename := Some "a.pdf"; btn_filename := "a.pdf";
                 has_delete_btn := true |}])
       (set_noDocumentsMessage false served)).

(** The paths the client requests, and the paths the specification
    lists. *)
Definition requested_paths : list string :=
  ["/upload"; "/ask"; "/feedback"; "/history"; "/delete"; "/clear_chat"].

Definition listed_paths : list string :=
  ["/upload"; "/ask"; "/feedback"; "/history"; "/select_document"; "/delete";
   "/clear_chat"].

(** Some operation of the client requests the path. *)
Definition requested (path : string) : Prop :=
  exists s ev, existsb (is_fetch_to path) (issued (handle ev) s) = true.

(** ** Failures of requests *)








(** Running [m] leaves the loaded document as it was, or unloads it. *)
Definition keeps_document {A : Type} (m : M A) : Prop :=
  forall s, pdfDoc (vars (snd (m s))) = pdfDoc (vars s)
            \/ pdfDoc (vars (snd (m s))) = None.

(** ** Notions for the further properties *)

(** A lower-case letter, a digit or the underscore. *)
Definition is_lower_word (c : ascii) : bool :=
  let n := code c in
  between 97 122 n || between 48 57 n || (n =? 95).

(** A character of an encoded URI component: unreserved, or the percent
    sign of an escape. *)
Definition uri_safe (c : ascii) : bool := uri_unreserved c || is_percent c.

(** A character that ends or breaks a double-quoted attribute, a query
    parameter or a selector string: the double quote, the angle
    brackets, the ampersand, the question mark, the number sign, the
    equals sign, the backslash and the space. *)
Definition is_delimiter (c : ascii) : bool :=
  let n := code c in
  (n =? 34) || (n =? 60) || (n =? 62) || (n =? 38) || (n =? 63) || (n =? 35)
  || (n =? 61) || (n =? 92) || (n =? 32).

Definition starts_with_space (s : string) : bool :=
  match s with
  | EmptyString => false
  | String c _ => is_space c
  end.

Fixpoint ends_with_space (s : string) : bool :=
  match s with
  | EmptyString => false
  | String c EmptyString => is_space c
  | String _ t => ends_with_space t
  end.

(** The number of fragments that contain a search word. *)
Definition count_matching (words : list string) (items : list TextItem) : nat :=
  List.length (filter (containsSearchTerm words) items).

(** The text item of a fragment in lower case. *)
Definition lower_item (item : TextItem) : TextItem := {| str := toLowerCase (str item) |}.

(** A text without delimiters. *)
Definition delimiter_free (s : string) : bool :=
  all_chars (fun c => negb (is_delimiter c)) s.

(** ** Invariants of the page *)

(** Running [m] from a state that satisfies [I] ends in one that does. *)
Definition keeps {A : Type} (I : State -> Prop) (m : M A) : Prop :=
  forall s, I s -> I (snd (m s)).

(** The page buttons and the page text show the page variables. *)
Definition controls_consistent (s : State) : Prop :=
  pageControls (viewer s)
  = {| prev_disabled := (currentPage (vars s) <=? 1)%Z;
       next_disabled := (currentPage (vars s) >=? totalPages (vars s))%Z;
       page_info := (currentPage (vars s), totalPages (vars s)) |}.

(** The highlight layer holds the highlights the script keeps track of. *)
Definition layer_tracks (s : State) : Prop :=
  has_highlightLayer (env s) = true
  /\ highlightLayer (viewer s) = currentHighlights (vars s).

(** The input and the send button are enabled or disabled together. *)
Definition inputs_in_step (s : State) : Prop :=
  sendBtn_disabled (chat s) = userInput_disabled (chat s).

(** The file counter is not negative. *)
Definition count_nonnegative (s : State) : Prop := (0 <= fileCount (files s))%Z.

(** ** What the client issues *)

(** The requests of the client: the upload, a POST of form data to
    [/upload]; a POST of JSON to one of four paths; the history, a GET
    without body whose path is [/history]. *)
Definition known_request (r : Request) : bool :=
  match body r with
  | Some (form_data _) => String.eqb (method r) "POST" && String.eqb (url r) "/upload"
  | Some (json _) =>
      String.eqb (method r) "POST"
      && existsb (String.eqb (url r)) ["/ask"; "/feedback"; "/clear_chat"; "/delete"]
  | None => String.eqb (method r) "GET" && String.eqb (path_of r) "/history"
  end.

Definition known_effect (e : Effect) : Prop :=
  match e with
  | Fetch r _ => known_request r = true
  | _ => True
  end.

Definition no_document (e : Effect) : Prop :=
  match e with
  | GetDocument _ => False
  | _ => True
  end.

(** The events whose handlers call [loadPdf]. *)
Definition may_load (ev : Event) : bool :=
  match ev with
  | ev_file_click _ => true
  | ev_timer (t_auto_select _ _) => true
  | ev_reply (p_ask _) (resolved _) => true
  | _ => false
  end.

(** ** Feedback containers *)

(** The identifiers of the containers in the chat box are older than
    the next fresh identifier. *)
Definition older (n : nat) (m : MessageElement) : Prop :=
  match m with
  | bot_bubble _ _ fc => fc_id fc < n
  | user_bubble _ => True
  end.

Definition chat_ids_fresh (s : State) : Prop :=
  Forall (older (fresh s)) (chatBox (chat s)).

(** ** The history *)



(** ** Enabling the chat *)

Definition chat_disabled (s : State) : Prop :=
  userInput_disabled (chat s) = true /\ sendBtn_disabled (chat s) = true.

(** The events whose handlers call [enableChat(true)]: the two timers
    and, through [addFileToList], the reply to an upload. *)
Definition enables (ev : Event) : bool :=
  match ev with
  | ev_timer t_init => true
  | ev_timer (t_auto_select _ _) => true
  | ev_reply p_upload (resolved _) => true
  | _ => false
  end.

(** ** Template strings *)

(** The value of [selectedFile] as a template string writes it. *)
Definition template (v : Selected) : string :=
  match v with
  | null => "null"
  | undefined => "undefined"
  | named filename => filename
  end.

(** * Properties *)

(** ** Strings *)

Section Strings.

Lemma prefix_iff (w t : string) :
  String.prefix w t = true <-> exists post, t = (w ++ post)%string.
Proof.
  revert t; induction w as [|c w IH]; intros t; simpl.
  - destruct t; split; eauto.
  - destruct t as [|d t].
    + simpl. split; [discriminate | intros [post H]; discriminate].
    + simpl. destruct (ascii_dec c d) as [Hcd|Hne].
      * subst d. rewrite IH. split; intros [post H]; exists post.
        -- now rewrite H.
        -- simpl in H. congruence.
      * split; [discriminate | intros [post H]; simpl in H; congruence].
Qed.

(** [includes] is containment as a substring. *)
Lemma includes_iff (text word : string) :
  includes text word = true <->
  exists pre post, text = (pre ++ word ++ post)%string.
Proof.
  induction text as [|c t IH]; cbn [includes].
  - rewrite orb_false_r, prefix_iff. split.
    + intros [post H]. now exists EmptyString, post.
    + intros [pre [post H]]. destruct pre; [now exists post | discriminate].
  - rewrite orb_true_iff, prefix_iff, IH. split.
    + intros [[post H] | [pre [post H]]].
      * now exists EmptyString, post.
      * exists (String c pre), post. simpl. now rewrite H.
    + intros [pre [post H]]. destruct pre as [|d pre]; simpl in H.
      * left. now exists post.
      * right. inversion H. now exists pre, post.
Qed.

Lemma is_space_space : is_space space = true.
Proof. reflexivity. Qed.

(** Splitting sees only which characters are white space, and the other
    characters. *)
Lemma split_go_ext (f g : ascii -> ascii) :
  (forall c, is_space (f c) = is_space (g c)) ->
  (forall c, is_space (f c) = false -> f c = g c) ->
  forall s in_ws cur,
    split_go in_ws cur (map_chars f s) = split_go in_ws cur (map_chars g s).
Proof.
  intros Hsp Heq. induction s as [|c t IH]; intros in_ws cur; simpl; trivial.
  rewrite <- Hsp. destruct (is_space (f c)) eqn:E.
  - destruct in_ws; now rewrite IH.
  - now rewrite <- (Heq c E), IH.
Qed.

End Strings.

(** ** Highlighting *)

Section Highlighting.

Lemma searchWords_key_terms (text : string) : searchWords text = key_terms text.
Proof.
  unfold searchWords, key_terms, split_ws, blank_punctuation.
  do 2 f_equal. apply split_go_ext; intros c.
  - destruct (is_word c), (is_space c) eqn:E; simpl; rewrite ?E; auto using is_space_space.
  - destruct (is_word c), (is_space c) eqn:E; simpl; intros H; congruence.
Qed.

Lemma containsSearchTerm_iff (words : list string) (item : TextItem) :
  containsSearchTerm words item = true <-> mentions words item.
Proof.
  unfold containsSearchTerm, mentions. rewrite existsb_exists.
  split; intros [w [Hin H]]; exists w; split; trivial; now apply includes_iff.
Qed.

(** The counter of the loop never depends on where the numbering of the
    fragments starts. *)
Lemma scan_length_index (words : list string) (items : list TextItem) :
  forall i j c, List.length (scan words i c items) = List.length (scan words j c items).
Proof.
  induction items as [|x rest IH]; intros i j c; simpl; trivial.
  destruct (containsSearchTerm words x && (c <? 10)); simpl; auto.
Qed.

Lemma scan_In (words : list string) (items : list TextItem) :
  forall idx c j item,
    In {| hl_index := j; hl_item := item |} (scan words idx c items) <->
    exists i, j = idx + i /\ nth_error items i = Some item /\
              containsSearchTerm words item = true /\
              c + List.length (scan words idx c (firstn i items)) < 10.
Proof.
  induction items as [|x rest IH]; intros idx c j item.
  - simpl. split; [tauto|]. intros [i [_ [H _]]]. destruct i; discriminate.
  - simpl scan at 1.
    destruct (containsSearchTerm words x && (c <? 10)) eqn:E.
    + apply andb_true_iff in E as [Ex Ec]. apply Nat.ltb_lt in Ec.
      simpl In. rewrite IH. split.
      * intros [H | [i [-> [Hn [Hc Hl]]]]].
        -- inversion H; subst. exists 0. simpl. repeat split; trivial; lia.
        -- exists (S i). simpl. rewrite Ex.
           replace (c <? 10) with true by (symmetry; now apply Nat.ltb_lt).
           simpl. repeat split; trivial; lia.
      * intros [[|i] [-> [Hn [Hc Hl]]]].
        -- left. simpl in Hn. inversion Hn. now rewrite Nat.add_0_r.
        -- right. exists i. simpl in Hn, Hl. rewrite Ex in Hl.
           replace (c <? 10) with true in Hl by (symmetry; now apply Nat.ltb_lt).
           simpl in Hl. repeat split; trivial; lia.
    + rewrite IH. split.
      * intros [i [-> [Hn [Hc Hl]]]]. exists (S i). simpl. rewrite E.
        repeat split; trivial; lia.
      * intros [[|i] [-> [Hn [Hc Hl]]]].
        -- simpl in Hn, Hl. inversion Hn; subst.
           rewrite Hc in E. simpl in E. apply Nat.ltb_ge in E. lia.
        -- exists i. simpl in Hn, Hl. rewrite E in Hl.
           repeat split; trivial; lia.
Qed.

Lemma scan_index_ge (words : list string) (items : list TextItem) :
  forall idx c h, In h (scan words idx c items) -> idx <= hl_index h.
Proof.
  induction items as [|x rest IH]; intros idx c h; simpl; [tauto|].
  destruct (containsSearchTerm words x && (c <? 10)); simpl.
  - intros [<- | H]; simpl; [lia | apply IH in H; lia].
  - intros H. apply IH in H. lia.
Qed.

Lemma filter_none {A : Type} (f : A -> bool) (l : list A) :
  (forall x, In x l -> f x = false) -> filter f l = [].
Proof.
  induction l as [|x l IH]; simpl; intros H; trivial.
  rewrite (H x) by auto. auto.
Qed.

(** The highlights laid over the fragments before position [i] are the
    highlights the loop had created when it reached that position. *)
Lemma scan_before (words : list string) (items : list TextItem) :
  forall idx c i,
    filter (fun h => hl_index h <? idx + i) (scan words idx c items)
    = scan words idx c (firstn i items).
Proof.
  induction items as [|x rest IH]; intros idx c i.
  - now rewrite firstn_nil.
  - destruct i as [|i].
    + simpl firstn. simpl (scan _ _ _ []).
      apply filter_none. intros h Hh. apply scan_index_ge in Hh.
      apply Nat.ltb_ge. lia.
    + simpl. destruct (containsSearchTerm words x && (c <? 10)); simpl.
      * replace (idx <? idx + S i) with true by (symmetry; apply Nat.ltb_lt; lia).
        f_equal. rewrite <- IH. apply filter_ext. intros h. f_equal. lia.
      * rewrite <- IH. apply filter_ext. intros h. f_equal. lia.
Qed.

(** C1.  When [highlightText] scans the fragments of the page for a
    search text, the key terms are the first five words longer than
    three characters of the lower-cased text with every non-word
    character turned into a space; the scan appends highlights to the
    highlight layer, and the fragment at a position gets one exactly
    when its lower-cased string contains a key term as a substring and
    fewer than ten of the appended highlights lie on earlier fragments. *)
Theorem highlightText_substring_containment
    (s : State) (searchText : string) (items : list TextItem) :
  currentPageTextContent (vars s) = Some items ->
  searchWords searchText = key_terms searchText /\
  exists created,
    highlightLayer (viewer (exec (highlightText_then searchText) s))
      = highlightLayer (viewer s) ++ created /\
    forall i item, nth_error items i = Some item ->
      (In {| hl_index := i; hl_item := item |} created <->
       mentions (key_terms searchText) item /\
       List.length (filter (fun h => hl_index h <? i) created) < 10).
Proof.
  intros Hc. split; [apply searchWords_key_terms|].
  exists (scan (searchWords searchText) 0 0 items). split.
  - unfold exec, highlightText_then, bind, gets. simpl. rewrite Hc.
    unfold modify, showNotification, emit, modify, ret. simpl.
    destruct (0 <? _); simpl; [destruct (has_pdfViewer (env s))|]; reflexivity.
  - intros i item Hn. rewrite scan_In. rewrite (scan_before _ _ 0 0 i).
    rewrite <- searchWords_key_terms, <- containsSearchTerm_iff. split.
    + intros [k [-> [Hk [Hm Hl]]]]. simpl in *. auto.
    + intros [Hm Hl]. exists i. simpl. auto.
Qed.

Lemma highlightText_substring_containment_witness :
  searchWords "The Quick, brown fox!" = key_terms "The Quick, brown fox!" /\
  exists created,
    highlightLayer
      (viewer (exec (highlightText_then "The Quick, brown fox!")
                 (set_currentPageTextContent
                    (Some [{| str := "A QUICK one" |}; {| str := "slow" |}]) served)))
      = highlightLayer
          (viewer (set_currentPageTextContent
                     (Some [{| str := "A QUICK one" |}; {| str := "slow" |}]) served))
          ++ created /\
    forall i item,
      nth_error [{| str := "A QUICK one" |}; {| str := "slow" |}] i = Some item ->
      (In {| hl_index := i; hl_item := item |} created <->
       mentions (key_terms "The Quick, brown fox!") item /\
       List.length (filter (fun h => hl_index h <? i) created) < 10).
Proof.
  apply (highlightText_substring_containment
           (set_currentPageTextContent
              (Some [{| str := "A QUICK one" |}; {| str := "slow" |}]) served)).
  reflexivity.
Defined.

End Highlighting.

(** ** Runs on small inputs *)

Section Examples.

Example split_ws_pieces : split_ws "  ab  c " = [""; "ab"; "c"; ""].
Proof. reflexivity. Qed.

Example split_ws_empty : split_ws "" = [""].
Proof. reflexivity. Qed.

Example trim_both_ends : trim "  a b  " = "a b".
Proof. reflexivity. Qed.

Example toLowerCase_ascii : toLowerCase "Hello, WORLD_9" = "hello, world_9".
Proof. reflexivity. Qed.

Example includes_middle :
  includes "the quick fox" "quick" = true /\ includes "the quick" "fox" = false.
Proof. split; reflexivity. Qed.

Example encode_reserved : encodeURIComponent "a b/c?.pdf" = "a%20b%2Fc%3F.pdf".
Proof. reflexivity. Qed.

Example encode_latin1 : encodeURIComponent (String (ascii_of_nat 233) "") = "%C3%A9".
Proof. reflexivity. Qed.

Example decode_malformed : decodeURIComponent "100%" = None.
Proof. reflexivity. Qed.

Example show_numbers : show_nat 120 = "120" /\ show_Z (-5) = "-5" /\ show_Z 0 = "0".
Proof. repeat split; reflexivity. Qed.

Example searchWords_short_words_dropped :
  searchWords "The Quick, brown fox!" = ["quick"; "brown"].
Proof. reflexivity. Qed.

Example searchWords_first_five :
  searchWords "alpha beta gamma delta epsilon zeta theta"
  = ["alpha"; "beta"; "gamma"; "delta"; "epsilon"].
Proof. reflexivity. Qed.

Example scan_stops_at_ten :
  List.length (scan ["quick"] 0 0 (repeat {| str := "Quick!" |} 12)) = 10.
Proof. reflexivity. Qed.

(** An upload of [a.pdf] to the served page, then the timer it set: the
    file is listed, counted and selected, the viewer is asked for it and
    its history is requested. *)
Example upload_then_auto_select :
  let reply :=
    {| d_error := None; d_filename := Some "a.pdf"; d_answer := "";
       d_message_id := None; d_source_page := None; d_source_content := None;
       d_message := None; d_success := None; d_history := None |} in
  let s := run served [ev_reply p_upload (resolved reply);
                       ev_timer (t_auto_select (Some "a.pdf") 0)] in
  selectedFile (vars s) = named "a.pdf"
  /\ fileCount (files s) = 1%Z
  /\ map btn_filename (items s) = ["a.pdf"]
  /\ out s = [Notification "PDF uploaded successfully!" "success";
              SetTimeout (t_auto_select (Some "a.pdf") 0) 100;
              GetDocument "/uploads/a.pdf";
              history_request "a.pdf"]
  /\ chatStatus (chat s) = "Connected to document".
Proof. repeat split; reflexivity. Qed.

(** A reply to an upload that carries neither an error nor a file name:
    the item, the selector and the addresses read [undefined], and the
    timer leaves [selectedFile] undefined. *)
Example upload_without_filename :
  let reply :=
    {| d_error := None; d_filename := None; d_answer := "";
       d_message_id := None; d_source_page := None; d_source_content := None;
       d_message := None; d_success := None; d_history := None |} in
  let s := run served [ev_reply p_upload (resolved reply);
                       ev_timer (t_auto_select None 0)] in
  selectedFile (vars s) = undefined
  /\ map btn_filename (items s) = ["undefined"]
  /\ out s = [Notification "PDF uploaded successfully!" "success";
              SetTimeout (t_auto_select None 0) 100;
              GetDocument "/uploads/undefined";
              Fetch {| method := "GET"; url := "/history?filename=undefined";
                       body := None |} (p_history None)].
Proof. repeat split; reflexivity. Qed.

(** Texts in selectors and in markup. *)
Example selector_of_plain_name : css_string "a b.pdf" = attribute_is "a b.pdf".
Proof. reflexivity. Qed.

Example selector_of_quoted_name :
  css_string ("a" ++ double_quote ++ "b.pdf")%string = syntax_error.
Proof. reflexivity. Qed.

Example selector_of_escapes :
  css_string "a\.pdf" = attribute_is "a.pdf"
  /\ css_string "\41 b" = attribute_is "Ab"
  /\ css_string "\263A" = attribute_beyond.
Proof. repeat split; reflexivity. Qed.

Example markup_of_references :
  html_decode "Q&amp;A &lt;1&gt; R&D" = "Q&A <1> R&D".
Proof. reflexivity. Qed.

(** A name with an escaped double quote: the selector asks for the
    name with the quote, and the attribute of the new button ends before
    the quote. *)
Example addFileToList_of_escaped_quote :
  css_string ("a\" ++ double_quote ++ "b")%string
  = attribute_is ("a" ++ double_quote ++ "b")%string
  /\ map btn_filename
       (items (exec (addFileToList (Some ("a\" ++ double_quote ++ "b")%string)) served))
     = ["a\"].
Proof. split; reflexivity. Qed.

(** A name with a double quote: the selector of [addFileToList] is no
    selector, the reply handler of the upload throws after the success
    was notified, and its catch handler reports a failed upload. *)
Example upload_of_quoted_name :
  let reply :=
    {| d_error := None; d_filename := Some ("a" ++ double_quote ++ "b.pdf")%string;
       d_answer := ""; d_message_id := None; d_source_page := None;
       d_source_content := None; d_message := None; d_success := None;
       d_history := None |} in
  let s := step served (ev_reply p_upload (resolved reply)) in
  items s = []
  /\ out s = [Notification "PDF uploaded successfully!" "success";
              ConsoleError "Upload error:";
              Alert "Upload failed. Please try again."].
Proof. split; reflexivity. Qed.

(** A name with a character reference: the button holds the decoded
    name, which the selector of the encoded name does not find, so a
    second call adds a second item. *)
Example addFileToList_of_reference :
  map btn_filename
    (items (exec (addFileToList (Some "Q&amp;A.pdf"))
              (exec (addFileToList (Some "Q&amp;A.pdf")) served)))
  = ["Q&A.pdf"; "Q&A.pdf"].
Proof. reflexivity. Qed.

End Examples.

(** ** Running handlers *)

Create HintDb script discriminated.

Create HintDb monad discriminated.

#[local] Hint Unfold exec try_catch bind gets modify emit ret throw createElement : monad.

#[local] Hint Unfold step handle on_timer on_reply then_catch
  consoleError showNotification alert resetUploadButton showUploadLoading
  closeUploadModal showLoadingOverlay hideLoadingOverlay updateChatStatus
  enableChat renderPage updatePageControls clearHighlights
  loadPdf loadPdf_then loadPdf_catch renderPage_then
  prevPage nextPage uploadSubmit upload_then upload_catch
  appendChild appendMessage loadHistory loadHistory_then loadHistory_catch
  clearChatHistory clearChatHistory_then clearChatHistory_catch
  query_data_filename highlightSelectedDocument
  askQuestion switchDocument showSource askQuestion_then askQuestion_catch
  decode_attribute sendFeedback set_feedback_display sendFeedback_then
  sendFeedback_catch showFeedbackModal removeModal feedbackClick modalSubmit
  addFileToList autoSelect resetUI deleteDocument deleteDocument_then
  deleteDocument_catch fileClick deleteClick clearChatClick initTimer
  highlightText highlightText_then post_json : script.

#[local] Arguments take : simpl never.

(** Unfolds a handler down to updates of the state. *)
Ltac run_script := autounfold with script; autounfold with monad; simpl.

Lemma skipn_exact {A : Type} (a b : list A) : skipn (List.length a) (a ++ b) = b.
Proof. induction a; simpl; auto. Qed.

Lemma issued_exact (m : M unit) (s : State) (l : list Effect) :
  out (exec m s) = out s ++ l -> issued m s = l.
Proof. unfold issued. intros ->. apply skipn_exact. Qed.

(** Takes hypotheses apart and closes what arithmetic or a clash of
    constructors settles. *)
Ltac break_cases :=
  intros;
  repeat match goal with
         | H : _ /\ _ |- _ => destruct H
         | H : exists _, _ |- _ => destruct H
         | H : _ \/ _ |- _ => destruct H
         | H : Some _ = Some _ |- _ => inversion H; subst; clear H
         end;
  try discriminate; try contradiction; try reflexivity; try lia.

(** ** Page navigation *)

Section Navigation.

Lemma prev_page_step (s : State) :
  currentPage (vars (step s ev_prev_page))
    = (if (currentPage (vars s) >? 1)%Z then currentPage (vars s) - 1
       else currentPage (vars s))%Z
  /\ totalPages (vars (step s ev_prev_page)) = totalPages (vars s)
  /\ pdfDoc (vars (step s ev_prev_page)) = pdfDoc (vars s).
Proof.
  run_script. destruct (currentPage (vars s) >? 1)%Z; simpl.
  - destruct (pdfDoc (vars s)) eqn:E; simpl; rewrite ?E; auto.
  - auto.
Qed.

Lemma next_page_step (s : State) :
  currentPage (vars (step s ev_next_page))
    = (if (currentPage (vars s) <? totalPages (vars s))%Z then currentPage (vars s) + 1
       else currentPage (vars s))%Z
  /\ totalPages (vars (step s ev_next_page)) = totalPages (vars s)
  /\ pdfDoc (vars (step s ev_next_page)) = pdfDoc (vars s).
Proof.
  run_script. destruct (currentPage (vars s) <? totalPages (vars s))%Z; simpl.
  - destruct (pdfDoc (vars s)) eqn:E; simpl; rewrite ?E; auto.
  - auto.
Qed.

Lemma document_loaded_step (s : State) (pdf : Pdf) :
  pdfDoc (vars (step s (ev_document (resolved pdf)))) = Some pdf
  /\ totalPages (vars (step s (ev_document (resolved pdf)))) = numPages pdf
  /\ currentPage (vars (step s (ev_document (resolved pdf)))) = 1%Z.
Proof. run_script. auto. Qed.

Lemma navigation_preserves (s : State) (ev : Event) :
  navigation ev -> page_in_bounds s -> page_in_bounds (step s ev).
Proof.
  unfold page_in_bounds. intros [-> | ->] H.
  - destruct (prev_page_step s) as [-> [-> _]].
    destruct (currentPage (vars s) >? 1)%Z eqn:E; lia.
  - destruct (next_page_step s) as [-> [-> _]].
    destruct (currentPage (vars s) <? totalPages (vars s))%Z eqn:E; lia.
Qed.

Lemma navigation_keeps_document (s : State) (ev : Event) :
  navigation ev -> pdfDoc (vars (step s ev)) = pdfDoc (vars s).
Proof.
  intros [-> | ->].
  - apply prev_page_step.
  - apply next_page_step.
Qed.

(** C9.  From a state where a document is loaded and the current page
    lies between 1 and the number of pages, every sequence of clicks on
    the previous-page and next-page buttons leaves a document loaded and
    the current page between 1 and the number of pages; previous-page
    subtracts one exactly when the current page exceeds 1, next-page
    adds one exactly when it is below the number of pages; and a loaded
    document sets the current page to 1 and the number of pages to its
    page count, which establishes the bounds for a document of at least
    one page. *)
Theorem navigation_keeps_page_in_bounds :
  (forall s evs,
      pdfDoc (vars s) <> None -> page_in_bounds s -> Forall navigation evs ->
      page_in_bounds (run s evs) /\ pdfDoc (vars (run s evs)) <> None)
  /\ (forall s,
        currentPage (vars (step s ev_prev_page))
        = if (currentPage (vars s) >? 1)%Z then (currentPage (vars s) - 1)%Z
          else currentPage (vars s))
  /\ (forall s,
        currentPage (vars (step s ev_next_page))
        = if (currentPage (vars s) <? totalPages (vars s))%Z
          then (currentPage (vars s) + 1)%Z else currentPage (vars s))
  /\ (forall s pdf,
        let s' := step s (ev_document (resolved pdf)) in
        pdfDoc (vars s') = Some pdf /\ currentPage (vars s') = 1%Z
        /\ totalPages (vars s') = numPages pdf
        /\ ((1 <= numPages pdf)%Z -> page_in_bounds s')).
Proof.
  split; [|split; [|split]].
  - intros s evs Hdoc Hin Hnav. revert s Hdoc Hin.
    induction Hnav as [|ev evs Hev _ IH]; intros s Hdoc Hin; simpl; [auto|].
    apply IH.
    + now rewrite navigation_keeps_document.
    + now apply navigation_preserves.
  - intros s. apply prev_page_step.
  - intros s. apply next_page_step.
  - intros s pdf s'. subst s'.
    destruct (document_loaded_step s pdf) as [Hd [Ht Hc]].
    rewrite Hd, Ht, Hc. repeat split; trivial; unfold page_in_bounds;
      rewrite ?Ht, ?Hc; lia.
Qed.

Lemma navigation_keeps_page_in_bounds_witness :
  page_in_bounds
    (run (set_totalPages 2 (set_pdfDoc (Some {| numPages := 2 |}) served))
       [ev_next_page; ev_next_page; ev_prev_page; ev_prev_page; ev_prev_page])
  /\ pdfDoc
       (vars
          (run (set_totalPages 2 (set_pdfDoc (Some {| numPages := 2 |}) served))
             [ev_next_page; ev_next_page; ev_prev_page; ev_prev_page; ev_prev_page]))
     <> None.
Proof.
  apply (proj1 navigation_keeps_page_in_bounds).
  - simpl. discriminate.
  - unfold page_in_bounds. simpl. lia.
  - repeat (apply Forall_cons; [unfold navigation; auto|]). apply Forall_nil.
Defined.

End Navigation.

(** ** The guards of [highlightText] *)

(** [highlightText] asks for the current page, to scan its fragments,
    exactly when the text of the page is stored, the search text is not
    empty, the canvas and the highlight layer exist and a document is
    loaded; otherwise it issues nothing. *)
Lemma highlightText_guards (s : State) (searchText : string) :
  issued (highlightText searchText) s
  = match currentPageTextContent (vars s), pdfDoc (vars s) with
    | Some _, Some _ =>
        if nonempty searchText && has_canvas (env s) && has_highlightLayer (env s)
        then [GetPage (currentPage (vars s)) (for_highlight searchText)]
        else []
    | _, _ => []
    end.
Proof.
  apply issued_exact. unfold exec, highlightText, bind, gets.
  destruct (currentPageTextContent (vars s)) as [items|];
    [|unfold ret; simpl; now rewrite app_nil_r].
  destruct (nonempty searchText);
    [|unfold ret; simpl; destruct (pdfDoc (vars s)); simpl; now rewrite app_nil_r].
  run_script.
  destruct (has_highlightLayer (env s)) eqn:E1, (has_canvas (env s)) eqn:E2,
    (pdfDoc (vars s)) eqn:E3;
    simpl; rewrite ?E1, ?E2; simpl; rewrite ?E3; simpl; now rewrite ?app_nil_r.
Qed.

(** ** Rules for what a handler leaves alone *)

Section Frames.

Context {B : Type} (f : State -> B).

Lemma preserves_ret {A : Type} (a : A) : preserves f (ret a).
Proof. intros s. reflexivity. Qed.

Lemma preserves_throw {A : Type} : preserves f (@throw A).
Proof. intros s. reflexivity. Qed.

Lemma preserves_gets {A : Type} (g : State -> A) : preserves f (gets g).
Proof. intros s. reflexivity. Qed.

Lemma preserves_modify (g : State -> State) :
  (forall s, f (g s) = f s) -> preserves f (modify g).
Proof. intros H s. apply H. Qed.

Lemma preserves_bind {A C : Type} (m : M A) (k : A -> M C) :
  preserves f m -> (forall a, preserves f (k a)) -> preserves f (bind m k).
Proof.
  intros Hm Hk s. unfold bind. specialize (Hm s).
  destruct (m s) as [[a|] s1]; simpl in *.
  - now rewrite Hk.
  - exact Hm.
Qed.

Lemma preserves_try_catch (m h : M unit) :
  preserves f m -> preserves f h -> preserves f (try_catch m h).
Proof.
  intros Hm Hh s. unfold try_catch. specialize (Hm s).
  destruct (m s) as [[a|] s1]; simpl in *.
  - exact Hm.
  - now rewrite Hh.
Qed.

End Frames.

Section Appends.

Variable P : Effect -> Prop.

Lemma appends_ret {A : Type} (a : A) : appends P (ret a).
Proof. intros s. exists []. simpl. now rewrite app_nil_r. Qed.

Lemma appends_throw {A : Type} : appends P (@throw A).
Proof. intros s. exists []. simpl. now rewrite app_nil_r. Qed.

Lemma appends_gets {A : Type} (g : State -> A) : appends P (gets g).
Proof. intros s. exists []. simpl. now rewrite app_nil_r. Qed.

Lemma appends_modify (g : State -> State) :
  (forall s, out (g s) = out s) -> appends P (modify g).
Proof. intros H s. exists []. simpl. now rewrite H, app_nil_r. Qed.

Lemma appends_emit (e : Effect) : P e -> appends P (emit e).
Proof. intros H s. exists [e]. simpl. auto. Qed.

Lemma appends_createElement : appends P createElement.
Proof. intros s. exists []. simpl. now rewrite app_nil_r. Qed.

Lemma appends_bind {A C : Type} (m : M A) (k : A -> M C) :
  appends P m -> (forall a, appends P (k a)) -> appends P (bind m k).
Proof.
  intros Hm Hk s. unfold bind. destruct (Hm s) as [l [Hl HP]].
  destruct (m s) as [[a|] s1]; simpl in *.
  - destruct (Hk a s1) as [l' [Hl' HP']].
    exists (l ++ l'). rewrite Hl', Hl, app_assoc. split; trivial.
    apply Forall_app. auto.
  - eauto.
Qed.

Lemma appends_try_catch (m h : M unit) :
  appends P m -> appends P h -> appends P (try_catch m h).
Proof.
  intros Hm Hh s. unfold try_catch. destruct (Hm s) as [l [Hl HP]].
  destruct (m s) as [[a|] s1]; simpl in *.
  - eauto.
  - destruct (Hh s1) as [l' [Hl' HP']].
    exists (l ++ l'). rewrite Hl', Hl, app_assoc. split; trivial.
    apply Forall_app. auto.
Qed.

(** What was issued is the list that was added. *)
Lemma appends_issued (m : M unit) :
  appends P m -> forall s, Forall P (issued m s).
Proof.
  intros H s. destruct (H s) as [l [Hl HP]].
  now rewrite (issued_exact m s l Hl).
Qed.

End Appends.

(** Running a sequence whose first part returns. *)
Lemma bind_returned {A C : Type} (m : M A) (k : A -> M C) (s s1 : State) (a : A) :
  m s = (returned a, s1) -> bind m k s = k a s1.
Proof. unfold bind. now intros ->. Qed.

Lemma try_catch_returned (m h : M unit) (s s1 : State) :
  m s = (returned tt, s1) -> try_catch m h s = (returned tt, s1).
Proof. unfold try_catch. now intros ->. Qed.

Lemma try_catch_thrown (m h : M unit) (s s1 : State) :
  m s = (thrown, s1) -> try_catch m h s = h s1.
Proof. unfold try_catch. now intros ->. Qed.

(** Goes through the code of a handler with the rules above; the cases
    of a conditional are taken one by one. *)
Ltac unchanged :=
  intros ?;
  first [ reflexivity
        | repeat match goal with
                 | |- context [match ?x with _ => _ end] => destruct x
                 end; reflexivity ].

Ltac frame_step :=
  match goal with
  | |- preserves _ (bind _ _) => apply preserves_bind; [|intros ?]
  | |- preserves _ (ret _) => apply preserves_ret
  | |- preserves _ throw => apply preserves_throw
  | |- preserves _ (gets _) => apply preserves_gets
  | |- preserves _ (modify _) => apply preserves_modify; unchanged
  | |- preserves _ (try_catch _ _) => apply preserves_try_catch
  | |- preserves _ (if ?b then _ else _) => destruct b
  | |- preserves _ (match ?x with _ => _ end) => destruct x
  | |- appends _ (bind _ _) => apply appends_bind; [|intros ?]
  | |- appends _ (ret _) => apply appends_ret
  | |- appends _ throw => apply appends_throw
  | |- appends _ (gets _) => apply appends_gets
  | |- appends _ createElement => apply appends_createElement
  | |- appends _ (modify _) => apply appends_modify; unchanged
  | |- appends _ (emit _) => apply appends_emit; reflexivity
  | |- appends _ (try_catch _ _) => apply appends_try_catch
  | |- appends _ (if ?b then _ else _) => destruct b
  | |- appends _ (match ?x with _ => _ end) => destruct x
  end.

Ltac frames := repeat frame_step.

(** ** Upload *)

Section Upload.

Lemma uploadSubmit_issued (s : State) (file : option File) :
  issued (handle (ev_upload_submit file)) s =
  match file with
  | None => [Alert "Please select a PDF file."]
  | Some f =>
      if negb (String.eqb (file_type f) "application/pdf")
      then [Alert "Please select a PDF file."]
      else if (file_size f >? 10 * 1024 * 1024)%Z
           then [Alert "File size must be less than 10MB."]
           else [Fetch {| method := "POST"; url := "/upload"; body := Some (form_data f) |}
                   p_upload]
  end.
Proof.
  apply issued_exact. run_script. destruct file as [f|]; simpl; trivial.
  destruct (String.eqb (file_type f) "application/pdf"); simpl; trivial.
  change (10 * 1024 * 1024)%Z with 10485760%Z.
  destruct (file_size f >? 10485760)%Z; reflexivity.
Qed.

(** C8.  Submitting the upload form issues a request to [/upload]
    exactly when a file is chosen, its type is [application/pdf] and its
    size is at most 10*1024*1024 bytes; the request is then the one
    thing issued, a POST carrying the file.  Otherwise the one thing
    issued is an alert, [Please select a PDF file.] without a file of
    that type and [File size must be less than 10MB.] for a larger
    file. *)
Theorem upload_request_iff_valid (s : State) (file : option File) :
  let sent := issued (handle (ev_upload_submit file)) s in
  (existsb (is_fetch_to "/upload") sent = true <->
   exists f, file = Some f /\ file_type f = "application/pdf"
             /\ (file_size f <= 10 * 1024 * 1024)%Z)
  /\ (forall f, file = Some f -> file_type f = "application/pdf" ->
                (file_size f <= 10 * 1024 * 1024)%Z ->
        sent = [Fetch {| method := "POST"; url := "/upload";
                         body := Some (form_data f) |} p_upload])
  /\ ((file = None \/ exists f, file = Some f /\ file_type f <> "application/pdf") ->
        sent = [Alert "Please select a PDF file."])
  /\ (forall f, file = Some f -> file_type f = "application/pdf" ->
                (file_size f > 10 * 1024 * 1024)%Z ->
        sent = [Alert "File size must be less than 10MB."]).
Proof.
  intros sent. subst sent. rewrite uploadSubmit_issued.
  change (10 * 1024 * 1024)%Z with 10485760%Z.
  destruct file as [f|];
    [destruct (String.eqb_spec (file_type f) "application/pdf") as [Ht|Ht];
     [destruct (Z.gtb_spec (file_size f) 10485760) as [Hs|Hs]|]|];
    simpl; (split; [split|split; [|split]]); break_cases.
  exists f. auto.
Qed.

Lemma upload_request_iff_valid_witness :
  issued (handle (ev_upload_submit
                    (Some {| file_type := "application/pdf"; file_size := 10485760 |})))
    served
  = [Fetch {| method := "POST"; url := "/upload";
              body := Some (form_data {| file_type := "application/pdf";
                                         file_size := 10485760 |}) |} p_upload].
Proof.
  apply (proj1 (proj2 (upload_request_iff_valid served
                         (Some {| file_type := "application/pdf";
                                  file_size := 10485760 |}))))
    with (f := {| file_type := "application/pdf"; file_size := 10485760 |}).
  - reflexivity.
  - reflexivity.
  - simpl. lia.
Defined.

End Upload.

(** ** Loading a document *)

Section LoadPdf.

Variable s : State.
Hypothesis viewer_present : has_pdfViewer (env s) = true.
Hypothesis placeholder_present : has_pdfPlaceholder (env s) = true.

(** With the library, [loadPdf] asks it for the document and issues
    nothing else. *)
Lemma loadPdf_delegates (url : string) :
  pdfjs_loaded (env s) = true ->
  issued (loadPdf url) s = [GetDocument url] /\ vars (exec (loadPdf url) s) = vars s.
Proof.
  intros Hlib. split; [apply issued_exact|]; run_script;
    rewrite viewer_present, placeholder_present, Hlib; reflexivity.
Qed.

(** Without the library, [loadPdf] reports it and restores the
    placeholder. *)
Lemma loadPdf_without_library (url : string) :
  pdfjs_loaded (env s) = false ->
  let s' := exec (loadPdf url) s in
  issued (loadPdf url) s
    = [ConsoleError "PDF.js not loaded"; Notification "PDF viewer not available." "error"]
  /\ loadingOverlay_hidden (viewer s') = true
  /\ pdfPlaceholder_display (viewer s') = block
  /\ pdfViewer_display (viewer s') = none
  /\ vars s' = vars s.
Proof.
  intros Hlib s'. subst s'. split; [apply issued_exact|]; run_script;
    rewrite viewer_present, placeholder_present, Hlib; simpl.
  - now rewrite <- app_assoc.
  - auto.
Qed.

End LoadPdf.

(** A resolved load installs the document. *)
Lemma loadPdf_resolved (s : State) (pdf : Pdf) :
  let s' := step s (ev_document (resolved pdf)) in
  pdfDoc (vars s') = Some pdf /\ totalPages (vars s') = numPages pdf
  /\ currentPage (vars s') = 1%Z /\ loadingOverlay_hidden (viewer s') = true.
Proof. run_script. auto. Qed.

(** A rejected load reports the failure and restores the placeholder. *)
Lemma loadPdf_rejected (s : State) :
  let s' := step s (ev_document rejected) in
  issued (handle (ev_document rejected)) s
    = [ConsoleError "Error loading PDF:"; Notification "Failed to load PDF." "error"]
  /\ loadingOverlay_hidden (viewer s') = true
  /\ pdfPlaceholder_display (viewer s') = block
  /\ pdfViewer_display (viewer s') = none
  /\ vars s' = vars s.
Proof.
  split; [apply issued_exact|]; run_script.
  - now rewrite <- app_assoc.
  - auto.
Qed.

(** *** No other source of documents *)

Lemma keeps_document_ret {A : Type} (a : A) : keeps_document (ret a).
Proof. intros s. now left. Qed.

Lemma keeps_document_throw {A : Type} : keeps_document (@throw A).
Proof. intros s. now left. Qed.

Lemma keeps_document_gets {A : Type} (g : State -> A) : keeps_document (gets g).
Proof. intros s. now left. Qed.

Lemma keeps_document_modify (g : State -> State) :
  (forall s, pdfDoc (vars (g s)) = pdfDoc (vars s) \/ pdfDoc (vars (g s)) = None) ->
  keeps_document (modify g).
Proof. intros H s. apply H. Qed.

Lemma keeps_document_bind {A C : Type} (m : M A) (k : A -> M C) :
  keeps_document m -> (forall a, keeps_document (k a)) -> keeps_document (bind m k).
Proof.
  intros Hm Hk s. unfold bind. specialize (Hm s).
  destruct (m s) as [[a|] s1]; simpl in *; trivial.
  destruct (Hk a s1) as [H | H]; [rewrite H; exact Hm | now right].
Qed.

Lemma keeps_document_try_catch (m h : M unit) :
  keeps_document m -> keeps_document h -> keeps_document (try_catch m h).
Proof.
  intros Hm Hh s. unfold try_catch. specialize (Hm s).
  destruct (m s) as [[a|] s1]; simpl in *; trivial.
  destruct (Hh s1) as [H | H]; [rewrite H; exact Hm | now right].
Qed.

Ltac document_step :=
  match goal with
  | |- keeps_document (bind _ _) => apply keeps_document_bind; [|intros ?]
  | |- keeps_document (ret _) => apply keeps_document_ret
  | |- keeps_document throw => apply keeps_document_throw
  | |- keeps_document (gets _) => apply keeps_document_gets
  | |- keeps_document createElement => intros ?; left; reflexivity
  | |- keeps_document (emit _) => intros ?; left; reflexivity
  | |- keeps_document (modify _) =>
      apply keeps_document_modify; intros ?; first [left; reflexivity | right; reflexivity]
  | |- keeps_document (try_catch _ _) => apply keeps_document_try_catch
  | |- keeps_document (if ?b then _ else _) => destruct b
  | |- keeps_document (match ?x with _ => _ end) => destruct x
  end.

Lemma appendMessage_keeps_document role content messageId sourcePage feedback question
    filename :
  keeps_document
    (appendMessage role content messageId sourcePage feedback question filename).
Proof. unfold appendMessage, appendChild. repeat document_step. Qed.

Lemma history_forEach_keeps_document (filename : option string)
    (history : list HistoryMsg) :
  forall lastUserQuestion,
    keeps_document (history_forEach filename lastUserQuestion history).
Proof.
  induction history as [|msg rest IH]; intros lastUserQuestion; simpl.
  - apply keeps_document_ret.
  - destruct (String.eqb (msg_role msg) "user");
      (apply keeps_document_bind;
       [apply appendMessage_keeps_document | intros _; apply IH]).
Qed.

(** Only the resolved promise of [getDocument] installs a document:
    every other event leaves the document as it was or unloads it. *)
Lemma document_only_from_library (s : State) (ev : Event) :
  (forall pdf, ev <> ev_document (resolved pdf)) ->
  pdfDoc (vars (step s ev)) = pdfDoc (vars s) \/ pdfDoc (vars (step s ev)) = None.
Proof.
  intros Hev. unfold step, exec. revert s.
  change (keeps_document (handle ev)).
  destruct ev as [t | k r | r | r | | | | | | | | | | | | | | ];
    try destruct t; try destruct k; try destruct r as [a|];
    try (exfalso; apply (Hev a); reflexivity);
    autounfold with script;
    repeat first
      [ document_step
      | apply appendMessage_keeps_document
      | apply history_forEach_keeps_document ].
Qed.

(** C7.  On a page with the viewer and its placeholder: [loadPdf] with
    the PDF library asks [pdfjsLib.getDocument] for the document and
    issues nothing else, and no event but the resolved promise of that
    call installs a document; a resolved load sets the
    document, the number of pages to its page count and the current page
    to 1; a rejected load, and [loadPdf] without the library, hide the
    loading overlay, show one error notification ([Failed to load PDF.]
    and [PDF viewer not available.]), show the placeholder again, hide
    the viewer, and leave the script variables as they were. *)
Theorem loadPdf_delegates_and_fails_safely (s : State) (url : string) :
  has_pdfViewer (env s) = true ->
  has_pdfPlaceholder (env s) = true ->
  (pdfjs_loaded (env s) = true -> issued (loadPdf url) s = [GetDocument url])
  /\ (forall ev, (forall pdf, ev <> ev_document (resolved pdf)) ->
        pdfDoc (vars (step s ev)) = pdfDoc (vars s)
        \/ pdfDoc (vars (step s ev)) = None)
  /\ (forall pdf,
        let s' := step s (ev_document (resolved pdf)) in
        pdfDoc (vars s') = Some pdf /\ totalPages (vars s') = numPages pdf
        /\ currentPage (vars s') = 1%Z)
  /\ (let s' := step s (ev_document rejected) in
      filter (fun e => negb (is_console e)) (issued (handle (ev_document rejected)) s)
        = [Notification "Failed to load PDF." "error"]
      /\ loadingOverlay_hidden (viewer s') = true
      /\ pdfPlaceholder_display (viewer s') = block
      /\ pdfViewer_display (viewer s') = none
      /\ pdfDoc (vars s') = pdfDoc (vars s)
      /\ currentPage (vars s') = currentPage (vars s)
      /\ totalPages (vars s') = totalPages (vars s))
  /\ (pdfjs_loaded (env s) = false ->
      let s' := exec (loadPdf url) s in
      filter (fun e => negb (is_console e)) (issued (loadPdf url) s)
        = [Notification "PDF viewer not available." "error"]
      /\ loadingOverlay_hidden (viewer s') = true
      /\ pdfPlaceholder_display (viewer s') = block
      /\ pdfViewer_display (viewer s') = none
      /\ pdfDoc (vars s') = pdfDoc (vars s)
      /\ currentPage (vars s') = currentPage (vars s)
      /\ totalPages (vars s') = totalPages (vars s)).
Proof.
  intros Hv Hp. split; [|split; [|split; [|split]]].
  - intros Hlib. now apply loadPdf_delegates.
  - apply document_only_from_library.
  - intros pdf s'. destruct (loadPdf_resolved s pdf) as [H1 [H2 [H3 _]]]. auto.
  - intros s'. destruct (loadPdf_rejected s) as [Hi [Ho [Hpl [Hvw Hvars]]]].
    subst s'. rewrite Hi, Hvars. simpl. auto 10.
  - intros Hlib s'.
    destruct (loadPdf_without_library s Hv Hp url Hlib) as [Hi [Ho [Hpl [Hvw Hvars]]]].
    subst s'. rewrite Hi, Hvars. simpl. auto 10.
Qed.

Lemma loadPdf_delegates_and_fails_safely_witness :
  issued (loadPdf "/uploads/a.pdf") served = [GetDocument "/uploads/a.pdf"].
Proof.
  apply (proj1 (loadPdf_delegates_and_fails_safely served "/uploads/a.pdf"
                  eq_refl eq_refl)).
  reflexivity.
Defined.

(** ** URI component coding *)

Section UriCoding.

Lemma decode_encode_char (c : ascii) (t : string) :
  decodeURIComponent (encode_char c ++ t)
  = option_map (String c) (decodeURIComponent t).
Proof. destruct c as [[] [] [] [] [] [] [] []]; reflexivity. Qed.

(** Decoding undoes encoding. *)
Lemma decode_encode (text : string) :
  decodeURIComponent (encodeURIComponent text) = Some text.
Proof.
  induction text as [|c t IH]; simpl; trivial.
  now rewrite decode_encode_char, IH.
Qed.

End UriCoding.

(** ** Chat messages *)


Section Messages.

Variables (role content : string) (messageId sourcePage : option Z)
  (feedback question filename : option string).

Let append := appendMessage role content messageId sourcePage feedback question filename.



Lemma appendMessage_bot_run (s : State) (makeHtml : string -> string) :
  role <> "user" -> converter (env s) = Some makeHtml ->
  exists s1,
    append s = (returned tt, s1)
    /\ chatBox (chat s1)
       = chatBox (chat s)
           ++ [bot_bubble (makeHtml content)
                 (if truthyZ sourcePage then sourcePage else None)
                 {| fc_id := fresh s;
                    data_question := encodeURIComponent (or_else question "");
                    data_answer := encodeURIComponent content;
                    data_filename :=
                      encodeURIComponent
                        (or_else filename (or_else (selectedFile (vars s)) ""));
                    fc_display := buttons |}]
    /\ chatStatus (chat s1) = chatStatus (chat s)
    /\ vars s1 = vars s /\ out s1 = out s /\ env s1 = env s.
Proof.
  intros Hrole Hconv. subst append. eexists. split.
  - unfold appendMessage, bind, gets, modify.
    destruct (String.eqb_spec role "user"); [contradiction|].
    simpl. rewrite Hconv. reflexivity.
  - simpl. auto 10.
Qed.



End Messages.



(** ** Feedback *)

Section Feedback.

Lemma nonempty_iff (text : string) : nonempty text = true <-> text <> "".
Proof. destruct text; simpl; split; congruence. Qed.

Lemma nonempty_false_iff (text : string) : nonempty text = false <-> text = "".
Proof. destruct text; simpl; split; congruence. Qed.

(** [sendFeedback] with every required value. *)
Lemma sendFeedback_sends (s : State) (question answer feedbackType additionalInfo : string)
    (fc : FeedbackContainer) (filename : string) :
  decodeURIComponent (data_filename fc) = Some filename ->
  filename <> "" -> question <> "" -> answer <> "" -> feedbackType <> "" ->
  sendFeedback question answer feedbackType additionalInfo fc s
  = (returned tt,
     with_out (out s ++ [Fetch (feedback_request filename question answer feedbackType
                                  additionalInfo)
                           (p_feedback feedbackType fc)]) s).
Proof.
  intros Hd Hf Hq Ha Ht. apply nonempty_iff in Hf, Hq, Ha, Ht.
  run_script. rewrite Hd. simpl. rewrite Hf, Hq, Ha, Ht. reflexivity.
Qed.

(** [sendFeedback] with a required value missing. *)
Lemma sendFeedback_refuses (s : State) (question answer feedbackType additionalInfo : string)
    (fc : FeedbackContainer) (filename : string) :
  decodeURIComponent (data_filename fc) = Some filename ->
  filename = "" \/ question = "" \/ answer = "" \/ feedbackType = "" ->
  exists l,
    sendFeedback question answer feedbackType additionalInfo fc s
    = (returned tt, with_out (out s ++ l) s)
    /\ (l = [Notification "Cannot determine which document this feedback is for" "error"]
        \/ l = [ConsoleError "Missing required fields:";
                Notification "Missing required information for feedback" "error"]).
Proof.
  intros Hd Hmiss. run_script. rewrite Hd. simpl.
  destruct (nonempty filename) eqn:Ef; simpl.
  - destruct (negb (nonempty question) || negb (nonempty answer)
              || negb (nonempty feedbackType)) eqn:E; simpl.
    + eexists. split; [|right; reflexivity]. now rewrite <- app_assoc.
    + apply orb_false_iff in E as [E Et]. apply orb_false_iff in E as [Eq Ea].
      apply negb_false_iff, nonempty_iff in Eq, Ea, Et.
      apply nonempty_iff in Ef. tauto.
  - eexists. split; [|left; reflexivity]. reflexivity.
Qed.

(** C4.  A click on the like button of a container whose question,
    answer and file name are not empty issues one thing, a POST to
    [/feedback] of type [like] with empty additional information.  A
    click on the dislike button issues nothing and opens a dialog; when
    that dialog is submitted for a container whose question, answer and
    file name are not empty, a POST to [/feedback] is issued exactly
    when the trimmed text is not empty, and it is then the one thing
    issued, of type [dislike] with the trimmed text.  When the file
    name, the question, the answer or the feedback type is empty,
    [sendFeedback] issues no request and shows one error notification. *)
Theorem feedback_capture (s : State) :
  (forall id fc question answer filename,
      find_buttons id (chatBox (chat s)) = Some fc ->
      decodeURIComponent (data_question fc) = Some question ->
      decodeURIComponent (data_answer fc) = Some answer ->
      decodeURIComponent (data_filename fc) = Some filename ->
      question <> "" -> answer <> "" -> filename <> "" ->
      issued (handle (ev_feedback_click id "like")) s
      = [Fetch (feedback_request filename question answer "like" "")
           (p_feedback "like" fc)])
  /\ (forall id fc question answer,
        find_buttons id (chatBox (chat s)) = Some fc ->
        decodeURIComponent (data_question fc) = Some question ->
        decodeURIComponent (data_answer fc) = Some answer ->
        issued (handle (ev_feedback_click id "dislike")) s = []
        /\ feedbackModals (dialogs (step s (ev_feedback_click id "dislike")))
           = feedbackModals (dialogs s)
               ++ [{| modal_id := fresh s; modal_question := question;
                      modal_answer := answer; modal_container := fc |}])
  /\ (forall id m filename value,
        find (fun m => modal_id m =? id) (feedbackModals (dialogs s)) = Some m ->
        decodeURIComponent (data_filename (modal_container m)) = Some filename ->
        modal_question m <> "" -> modal_answer m <> "" -> filename <> "" ->
        (existsb (is_fetch_to "/feedback") (issued (handle (ev_modal_submit id value)) s)
           = true <-> trim value <> "")
        /\ (trim value <> "" ->
            issued (handle (ev_modal_submit id value)) s
            = [Fetch (feedback_request filename (modal_question m) (modal_answer m)
                        "dislike" (trim value))
                 (p_feedback "dislike" (modal_container m))]))
  /\ (forall question answer feedbackType additionalInfo fc filename,
        decodeURIComponent (data_filename fc) = Some filename ->
        filename = "" \/ question = "" \/ answer = "" \/ feedbackType = "" ->
        let sent := issued (sendFeedback question answer feedbackType additionalInfo fc) s in
        existsb (is_fetch_to "/feedback") sent = false
        /\ exists message,
             filter (fun e => negb (is_console e)) sent = [Notification message "error"]).
Proof.
  split; [|split; [|split]].
  - intros id fc question answer filename Hfc Hq Ha Hf Hqn Han Hfn.
    apply issued_exact. unfold exec, handle, feedbackClick, bind, gets, decode_attribute.
    simpl. rewrite Hfc, Hq. simpl. rewrite Ha. simpl.
    rewrite (sendFeedback_sends s question answer "like" "" fc filename); auto.
    discriminate.
  - intros id fc question answer Hfc Hq Ha.
    split; [apply issued_exact|]; run_script; rewrite Hfc, Hq; simpl; rewrite Ha; simpl;
      [now rewrite app_nil_r | reflexivity].
  - intros id m filename value Hm Hf Hqn Han Hfn.
    assert (Hrun : exec (handle (ev_modal_submit id value)) s
                   = if nonempty (trim value)
                     then exec (removeModal id)
                            (with_out
                               (out s ++
                                [Fetch (feedback_request filename (modal_question m)
                                          (modal_answer m) "dislike" (trim value))
                                   (p_feedback "dislike" (modal_container m))]) s)
                     else s).
    { unfold exec, handle, modalSubmit, bind, gets. simpl. rewrite Hm.
      destruct (nonempty (trim value)); [|reflexivity].
      rewrite (sendFeedback_sends s _ _ "dislike" (trim value) _ filename); auto.
      discriminate. }
    assert (Hsent : issued (handle (ev_modal_submit id value)) s
                    = if nonempty (trim value)
                      then [Fetch (feedback_request filename (modal_question m)
                                     (modal_answer m) "dislike" (trim value))
                              (p_feedback "dislike" (modal_container m))]
                      else []).
    { apply issued_exact. rewrite Hrun.
      destruct (nonempty (trim value)); [reflexivity | now rewrite app_nil_r]. }
    rewrite Hsent. rewrite <- nonempty_iff.
    destruct (nonempty (trim value)); simpl; split; try split; congruence.
  - intros question answer feedbackType additionalInfo fc filename Hf Hmiss sent.
    destruct (sendFeedback_refuses s question answer feedbackType additionalInfo fc
                filename Hf Hmiss) as [l [Hrun Hl]].
    assert (Hsent : sent = l).
    { subst sent. apply issued_exact. unfold exec. now rewrite Hrun. }
    rewrite Hsent. destruct Hl as [-> | ->]; simpl; eauto.
Qed.

End Feedback.

Lemma feedback_capture_witness :
  issued (handle (ev_feedback_click 0 "like")) answered
  = [Fetch (feedback_request "a.pdf" "Capital?" "Paris" "like" "")
       (p_feedback "like" answered_container)].
Proof.
  apply (proj1 (feedback_capture answered)); try reflexivity; discriminate.
Defined.

(** ** Plain texts in selectors and markup *)

Section PlainTexts.

Lemma plain_char_codes (c : ascii) :
  plain_char c = true ->
  (code c =? 92) = false /\ (code c =? 34) = false /\ is_newline c = false
  /\ (code c =? 0) = false /\ (code c =? 38) = false /\ (code c =? 60) = false.
Proof.
  destruct c as [[] [] [] [] [] [] [] []]; intros H; try discriminate H;
    repeat split; reflexivity.
Qed.

(** A plain text is the attribute value its selector asks for. *)
Lemma css_string_plain (text : string) :
  plain_text text = true -> css_string text = attribute_is text.
Proof.
  unfold css_string, plain_text.
  induction text as [|c t IH]; intros H; [reflexivity|].
  simpl in H. apply andb_true_iff in H as [Hc Ht].
  destruct (plain_char_codes c Hc) as [H1 [H2 [H3 [H4 _]]]].
  cbn [css_scan]. cbv zeta. rewrite H1, H2, H3, H4. cbn [orb].
  now rewrite (IH Ht).
Qed.

(** A plain text is read by the HTML parser as it is. *)
Lemma html_decode_plain (text : string) :
  plain_text text = true -> html_decode text = text.
Proof.
  unfold html_decode, plain_text.
  induction text as [|c t IH]; intros H; [reflexivity|].
  simpl in H. apply andb_true_iff in H as [Hc Ht].
  destruct (plain_char_codes c Hc) as [_ [_ [_ [_ [H5 _]]]]].
  cbn [html_decode_go]. rewrite H5. now rewrite (IH Ht).
Qed.

Lemma before_quote_plain (text : string) :
  plain_text text = true -> before_quote text = text.
Proof.
  unfold plain_text.
  induction text as [|c t IH]; intros H; [reflexivity|].
  simpl in H. apply andb_true_iff in H as [Hc Ht].
  destruct (plain_char_codes c Hc) as [_ [H2 _]].
  cbn [before_quote]. now rewrite H2, (IH Ht).
Qed.

(** A plain text is the value of the attribute it is placed in. *)
Lemma attribute_value_plain (text : string) :
  plain_text text = true -> attribute_value text = text.
Proof.
  intros H. unfold attribute_value. rewrite (before_quote_plain text H).
  now apply html_decode_plain.
Qed.

End PlainTexts.

(** ** The file list *)

Section FileList.

Variable filename : string.
Hypothesis plain : plain_text filename = true.




End FileList.




(** ** Selected document, viewer and chat *)

Section Selection.

(** Against C2 as stated.  An answer from another document switches the
    selection and the viewer, requests no history and leaves the chat
    box with what it held plus the answer: the chat is not reloaded. *)
Lemma ask_switch_does_not_reload_chat :
  let ev := ev_reply (p_ask "why") (resolved reply_from_b) in
  selectedFile (vars viewing_a) = named "a.pdf"
  /\ selectedFile (vars (step viewing_a ev)) = named "b.pdf"
  /\ issued (handle ev) viewing_a
     = [GetDocument "/uploads/b.pdf"; Notification "Switched to document: b.pdf" "info"]
  /\ chatBox (chat (step viewing_a ev))
     = chatBox (chat viewing_a)
         ++ [bot_bubble "<p>42</p>" None
               {| fc_id := 1; data_question := "why"; data_answer := "42";
                  data_filename := "b.pdf"; fc_display := buttons |}]
  /\ ~ synchronised viewing_a ev.
Proof.
  repeat split.
  intros H. destruct (H "b.pdf") as [_ [_ Hbox]].
  - reflexivity.
  - discriminate.
  - discriminate.
Qed.

Section Viewer.

Variable s : State.
Hypothesis viewer_present : has_pdfViewer (env s) = true.
Hypothesis placeholder_present : has_pdfPlaceholder (env s) = true.
Hypothesis library_loaded : pdfjs_loaded (env s) = true.

Lemma file_click_synchronised (id : nat) (it : FileItem) :
  find (fun it => item_id it =? id) (items s) = Some it ->
  let s' := step s (ev_file_click id) in
  selectedFile (vars s') = named (btn_filename it)
  /\ In (GetDocument ("/uploads/" ++ btn_filename it)) (issued (handle (ev_file_click id)) s)
  /\ In (history_request (btn_filename it)) (issued (handle (ev_file_click id)) s)
  /\ chatBox (chat s') = [].
Proof.
  intros Hit. unfold issued. run_script. rewrite Hit. simpl.
  rewrite viewer_present, placeholder_present, library_loaded. simpl.
  rewrite <- !app_assoc, skipn_exact. simpl. unfold history_request. tauto.
Qed.

Lemma auto_select_synchronised (f : string) (id : nat) :
  let ev := ev_timer (t_auto_select (Some f) id) in
  let s' := step s ev in
  selectedFile (vars s') = named f
  /\ In (GetDocument ("/uploads/" ++ f)) (issued (handle ev) s)
  /\ In (history_request f) (issued (handle ev) s)
  /\ chatBox (chat s') = [].
Proof.
  unfold issued. run_script.
  rewrite viewer_present, placeholder_present, library_loaded. simpl.
  rewrite <- !app_assoc, skipn_exact. simpl. unfold history_request. tauto.
Qed.

(** The switch made by a reply that names another document. *)
Lemma switchDocument_switches (data : Data) (f : string) :
  d_filename data = Some f -> f <> "" -> plain_text f = true ->
  selectedFile (vars s) <> named f ->
  exists s1,
    switchDocument data s = (returned tt, s1)
    /\ selectedFile (vars s1) = named f
    /\ out s1 = out s ++ [GetDocument ("/uploads/" ++ f);
                          Notification ("Switched to document: " ++ f) "info"]
    /\ chat s1 = chat s /\ env s1 = env s /\ fresh s1 = fresh s.
Proof.
  intros Hf Hne Hplain Hsel.
  assert (Hstrict : strict_eq (selectedFile (vars s)) (Some f) = false).
  { destruct (selectedFile (vars s)) as [| |g]; simpl; trivial.
    destruct (String.eqb_spec g f); congruence. }
  apply nonempty_iff in Hne.
  eexists. split.
  - unfold switchDocument, bind, gets. rewrite Hf. unfold truthy. rewrite Hne, Hstrict.
    unfold highlightSelectedDocument, query_data_filename, js_string.
    rewrite (css_string_plain f Hplain).
    run_script. rewrite viewer_present, placeholder_present, library_loaded.
    simpl. reflexivity.
  - simpl. rewrite <- app_assoc. auto 10.
Qed.

End Viewer.

Lemma showSource_returns (data : Data) (s0 : State) :
  fst (showSource data s0) = returned tt.
Proof.
  unfold showSource, bind, gets.
  destruct (d_source_page data) as [page|], (pdfDoc (vars s0)) eqn:E; trivial.
  run_script. destruct (page =? 0)%Z; simpl; trivial.
  rewrite E. destruct (truthy (d_source_content data)); reflexivity.
Qed.

Lemma showSource_no_fetch (data : Data) : appends no_fetch (showSource data).
Proof. unfold showSource. autounfold with script. frames. Qed.

Lemma showSource_selectedFile (data : Data) :
  preserves (fun s => selectedFile (vars s)) (showSource data).
Proof. unfold showSource. autounfold with script. unfold emit. frames. Qed.

Lemma showSource_chat (data : Data) : preserves chat (showSource data).
Proof. unfold showSource. autounfold with script. unfold emit. frames. Qed.

(** A reply that names another document switches the selection and the
    viewer to it and appends the answer to the chat box as it stands;
    no request is issued, so the history is not loaded. *)
Lemma ask_switch_keeps_chat (s : State) (question : string) (data : Data) (f : string)
    (makeHtml : string -> string) :
  has_pdfViewer (env s) = true -> has_pdfPlaceholder (env s) = true ->
  pdfjs_loaded (env s) = true -> converter (env s) = Some makeHtml ->
  truthy (d_error data) = false -> d_filename data = Some f -> f <> "" ->
  plain_text f = true -> selectedFile (vars s) <> named f ->
  let ev := ev_reply (p_ask question) (resolved data) in
  let s' := step s ev in
  selectedFile (vars s') = named f
  /\ In (GetDocument ("/uploads/" ++ f)) (issued (handle ev) s)
  /\ existsb is_fetch (issued (handle ev) s) = false
  /\ chatBox (chat s')
     = chatBox (chat s)
         ++ [bot_bubble (makeHtml (d_answer data))
               (if truthyZ (d_source_page data) then d_source_page data else None)
               {| fc_id := fresh s; data_question := encodeURIComponent question;
                  data_answer := encodeURIComponent (d_answer data);
                  data_filename := encodeURIComponent f; fc_display := buttons |}].
Proof.
  intros Hv Hp Hl Hconv He Hf Hne Hplain Hsel ev s'.
  destruct (switchDocument_switches (set_chatStatus "Ready" s) Hv Hp Hl data f Hf Hne Hplain
              Hsel)
    as [s1 [Hrun1 [Hsel1 [Hout1 [Hchat1 [Henv1 Hfresh1]]]]]].
  assert (Hconv1 : converter (env s1) = Some makeHtml) by (rewrite Henv1; exact Hconv).
  destruct (appendMessage_bot_run "assistant" (d_answer data) (d_message_id data)
              (d_source_page data) None (Some question) (d_filename data) s1 makeHtml)
    as [s2 [Hrun2 [Hbox2 [_ [Hvars2 [Hout2 _]]]]]]; [discriminate | exact Hconv1 |].
  assert (Hrun : handle ev s = showSource data s2).
  { subst ev. unfold handle, on_reply, then_catch.
    assert (H : askQuestion_then question data s = showSource data s2).
    { unfold askQuestion_then.
      rewrite (bind_returned _ _ s (set_chatStatus "Ready" s) tt) by reflexivity.
      rewrite He.
      rewrite (bind_returned _ _ _ s1 tt Hrun1).
      now rewrite (bind_returned _ _ _ s2 tt Hrun2). }
    unfold try_catch. rewrite H.
    pose proof (showSource_returns data s2) as Hr.
    destruct (showSource data s2) as [[[]|] s3]; simpl in Hr; congruence. }
  destruct (showSource_no_fetch data s2) as [l [Hout3 Hl3]].
  assert (Hissued : issued (handle ev) s
                    = [GetDocument ("/uploads/" ++ f);
                       Notification ("Switched to document: " ++ f) "info"] ++ l).
  { apply issued_exact. unfold exec. rewrite Hrun, Hout3, Hout2, Hout1.
    simpl. now rewrite <- app_assoc. }
  subst s'. unfold step, exec. rewrite Hissued, Hrun.
  rewrite (showSource_selectedFile data s2), (showSource_chat data s2).
  rewrite Hvars2, Hbox2, Hchat1, Hsel1, Hf. cbn [file_name].
  assert (Hq : or_else (Some question) "" = question) by (destruct question; reflexivity).
  assert (Hff : or_else (Some f) (or_else (Some f) "") = f)
    by (destruct f; [contradiction | reflexivity]).
  rewrite Hq, Hff, Hfresh1. simpl. repeat split; auto.
  clear - Hl3. induction Hl3 as [|e l He _ IH]; simpl; trivial.
  unfold no_fetch in He. now rewrite He.
Qed.

(** Deleting the selected document resets the selection, the viewer
    variables and the chat box. *)
Lemma delete_selected_resets (s : State) (f : string) (id : nat) (data : Data) :
  truthy (d_error data) = false -> selectedFile (vars s) = named f ->
  let s' := step s (ev_reply (p_delete (Some f) id) (resolved data)) in
  selectedFile (vars s') = null /\ pdfDoc (vars s') = None
  /\ currentPage (vars s') = 1%Z /\ totalPages (vars s') = 0%Z
  /\ chatBox (chat s') = [].
Proof.
  intros He Hsel. run_script. rewrite He. simpl. rewrite Hsel. simpl.
  rewrite String.eqb_refl. simpl.
  repeat match goal with
         | |- context [if ?b then _ else _] => destruct b; simpl
         end; auto.
Qed.

(** A successful upload of a new file sets the timer that selects it. *)
Lemma upload_schedules_auto_select (s : State) (data : Data) (f : string) :
  truthy (d_error data) = false -> d_filename data = Some f ->
  plain_text f = true -> has_data_filename f s = false ->
  In (SetTimeout (t_auto_select (Some f) (fresh s)) 100)
    (issued (handle (ev_reply p_upload (resolved data))) s).
Proof.
  intros He Hf Hplain Hnew. unfold has_data_filename, items in Hnew.
  unfold issued, exec, handle, on_reply, then_catch, upload_then. rewrite He, Hf.
  unfold addFileToList, query_data_filename, js_string.
  rewrite (css_string_plain f Hplain), (attribute_value_plain f Hplain).
  run_script.
  unfold has_data_filename, items. simpl. rewrite Hnew. simpl.
  destruct (noDocumentsMessage (files s)), (fileList (files s)) as [l|]; simpl;
    unfold fileButtons, items; simpl;
    try match goal with
        | |- context [if ?b then _ else _] => destruct b; simpl
        end;
    rewrite <- ?app_assoc, skipn_exact; simpl; tauto.
Qed.

(** C2, amended.  On a page with the viewer, its placeholder and the PDF
    library, and for file names of plain characters: a click on a file
    button, and the timer by which a successful upload of a file that
    no element names selects the new file, set the selected file, ask
    for the document at [/uploads/<selected file>], empty the chat box
    and request the history of that file.  A reply to a question that
    names another file sets the selected file and asks for the document
    at [/uploads/<selected file>], issues no request, and appends the
    answer to the chat box as it stands: the chat is not reloaded.  A
    successful deletion of the selected document sets the selected file
    and the document to null, the current page to 1, the number of pages
    to 0, and empties the chat box. *)
Theorem selection_viewer_chat_consistency (s : State) :
  has_pdfViewer (env s) = true -> has_pdfPlaceholder (env s) = true ->
  pdfjs_loaded (env s) = true ->
  (forall id it,
      find (fun it => item_id it =? id) (items s) = Some it ->
      let s' := step s (ev_file_click id) in
      selectedFile (vars s') = named (btn_filename it)
      /\ In (GetDocument ("/uploads/" ++ btn_filename it))
           (issued (handle (ev_file_click id)) s)
      /\ In (history_request (btn_filename it)) (issued (handle (ev_file_click id)) s)
      /\ chatBox (chat s') = [])
  /\ (forall data f,
        truthy (d_error data) = false -> d_filename data = Some f ->
        plain_text f = true -> has_data_filename f s = false ->
        In (SetTimeout (t_auto_select (Some f) (fresh s)) 100)
          (issued (handle (ev_reply p_upload (resolved data))) s))
  /\ (forall f id,
        let ev := ev_timer (t_auto_select (Some f) id) in
        let s' := step s ev in
        selectedFile (vars s') = named f
        /\ In (GetDocument ("/uploads/" ++ f)) (issued (handle ev) s)
        /\ In (history_request f) (issued (handle ev) s)
        /\ chatBox (chat s') = [])
  /\ (forall question data f makeHtml,
        converter (env s) = Some makeHtml ->
        truthy (d_error data) = false -> d_filename data = Some f -> f <> "" ->
        plain_text f = true -> selectedFile (vars s) <> named f ->
        let ev := ev_reply (p_ask question) (resolved data) in
        let s' := step s ev in
        selectedFile (vars s') = named f
        /\ In (GetDocument ("/uploads/" ++ f)) (issued (handle ev) s)
        /\ existsb is_fetch (issued (handle ev) s) = false
        /\ chatBox (chat s')
           = chatBox (chat s)
               ++ [bot_bubble (makeHtml (d_answer data))
                     (if truthyZ (d_source_page data) then d_source_page data else None)
                     {| fc_id := fresh s; data_question := encodeURIComponent question;
                        data_answer := encodeURIComponent (d_answer data);
                        data_filename := encodeURIComponent f;
                        fc_display := buttons |}])
  /\ (forall f id data,
        truthy (d_error data) = false -> selectedFile (vars s) = named f ->
        let s' := step s (ev_reply (p_delete (Some f) id) (resolved data)) in
        selectedFile (vars s') = null /\ pdfDoc (vars s') = None
        /\ currentPage (vars s') = 1%Z /\ totalPages (vars s') = 0%Z
        /\ chatBox (chat s') = []).
Proof.
  intros Hv Hp Hl. split; [|split; [|split; [|split]]].
  - intros id it Hit. now apply file_click_synchronised.
  - intros data f. apply upload_schedules_auto_select.
  - intros f id. now apply auto_select_synchronised.
  - intros question data f makeHtml Hconv He Hf Hne Hplain Hsel.
    now apply ask_switch_keeps_chat.
  - intros f id data. apply delete_selected_resets.
Qed.

Lemma selection_viewer_chat_consistency_witness :
  let s' := step listed (ev_file_click 100) in
  selectedFile (vars s') = named "a.pdf"
  /\ In (GetDocument "/uploads/a.pdf") (issued (handle (ev_file_click 100)) listed)
  /\ In (history_request "a.pdf") (issued (handle (ev_file_click 100)) listed)
  /\ chatBox (chat s') = [].
Proof.
  apply (proj1 (selection_viewer_chat_consistency listed eq_refl eq_refl eq_refl) 100
           {| item_id := 100; li_filename := Some "a.pdf"; btn_filename := "a.pdf";
              has_delete_btn := true |}).
  reflexivity.
Defined.

End Selection.

(** ** Endpoints *)

Section Endpoints.

Lemma appendMessage_appends (P : Effect -> Prop) role content messageId sourcePage
    feedback question filename :
  appends P (appendMessage role content messageId sourcePage feedback question filename).
Proof. unfold appendMessage, appendChild. frames. Qed.

Lemma history_forEach_appends (P : Effect -> Prop) (filename : option string)
    (history : list HistoryMsg) :
  forall lastUserQuestion, appends P (history_forEach filename lastUserQuestion history).
Proof.
  induction history as [|msg rest IH]; intros lastUserQuestion; simpl.
  - apply appends_ret.
  - destruct (String.eqb (msg_role msg) "user");
      (apply appends_bind; [apply appendMessage_appends | intros _; apply IH]).
Qed.

Let quiet : Effect -> Prop := not_fetch_to "/select_document".

Lemma handle_quiet (ev : Event) : appends quiet (handle ev).
Proof.
  destruct ev as [t | k r | r | r | | | | | | | | | | | | | | ];
    try destruct t; try destruct k; try destruct r;
    autounfold with script;
    repeat first
      [ frame_step
      | apply appendMessage_appends
      | apply history_forEach_appends ].
Qed.

Lemma select_document_not_requested : ~ requested "/select_document".
Proof.
  intros [s [ev H]]. apply existsb_exists in H as [e [Hin He]].
  pose proof (appends_issued quiet (handle ev) (handle_quiet ev) s) as Hall.
  rewrite Forall_forall in Hall. specialize (Hall e Hin).
  unfold quiet, not_fetch_to in Hall. congruence.
Qed.

Lemma upload_requested : requested "/upload".
Proof.
  exists served,
    (ev_upload_submit (Some {| file_type := "application/pdf"; file_size := 1024 |})).
  reflexivity.
Qed.

Lemma ask_requested : requested "/ask".
Proof. exists (set_userInput_value " Capital? " served), ev_ask. reflexivity. Qed.

Lemma feedback_requested : requested "/feedback".
Proof. exists answered, (ev_feedback_click 0 "like"). reflexivity. Qed.

Lemma history_requested : requested "/history".
Proof. exists listed, (ev_file_click 100). reflexivity. Qed.

Lemma delete_requested : requested "/delete".
Proof. exists listed, (ev_delete_click 100 true). reflexivity. Qed.

Lemma clear_chat_requested : requested "/clear_chat".
Proof. exists viewing_a, (ev_clear_chat true). reflexivity. Qed.

(** Against C3 as stated.  [/select_document] is one of the seven listed
    paths and no operation requests it. *)
Lemma select_document_listed_not_requested :
  In "/select_document" listed_paths
  /\ ~ (forall path, In path listed_paths -> requested path).
Proof.
  split.
  - simpl. tauto.
  - intros H. apply select_document_not_requested, H. simpl. tauto.
Qed.

(** C3, amended.  Each of [/upload], [/ask], [/feedback], [/history],
    [/delete] and [/clear_chat] is requested by some operation of the
    client; no handler of the client, in any state and for any event,
    requests [/select_document]. *)
Theorem client_requests_six_endpoints :
  (forall path, In path requested_paths -> requested path)
  /\ ~ requested "/select_document".
Proof.
  split.
  - intros path Hin. simpl in Hin.
    destruct Hin as [<- | [<- | [<- | [<- | [<- | [<- | []]]]]]].
    + apply upload_requested.
    + apply ask_requested.
    + apply feedback_requested.
    + apply history_requested.
    + apply delete_requested.
    + apply clear_chat_requested.
  - apply select_document_not_requested.
Qed.

Lemma client_requests_six_endpoints_witness : requested "/history".
Proof.
  apply (proj1 client_requests_six_endpoints). simpl. tauto.
Defined.

End Endpoints.

(** ** Failures are reported and not retried *)

Section Failures.











End Failures.

(** * Further properties *)

(** ** Strings of the script *)

Section MoreStrings.

Lemma all_chars_app (p : ascii -> bool) (a b : string) :
  all_chars p (a ++ b) = all_chars p a && all_chars p b.
Proof. induction a as [|c a IH]; simpl; trivial. now rewrite IH, andb_assoc. Qed.

Lemma all_chars_map (p : ascii -> bool) (f : ascii -> ascii) (s : string) :
  all_chars p (map_chars f s) = all_chars (fun c => p (f c)) s.
Proof. induction s as [|c s IH]; simpl; trivial. now rewrite IH. Qed.

Lemma all_chars_weaken (p q : ascii -> bool) (s : string) :
  (forall c, p c = true -> q c = true) -> all_chars p s = true -> all_chars q s = true.
Proof.
  intros H. induction s as [|c s IH]; simpl; trivial.
  rewrite !andb_true_iff. intros [Hc Hs]. auto.
Qed.

Lemma all_chars_rev_string (p : ascii -> bool) (acc : list ascii) :
  all_chars p (rev_string acc) = forallb p acc.
Proof.
  induction acc as [|c acc IH]; simpl; trivial.
  rewrite all_chars_app, IH. simpl. rewrite andb_true_r. apply andb_comm.
Qed.

(** *** trim *)

Lemma trim_start_blank (s : string) :
  trim_start s = "" <-> all_chars is_space s = true.
Proof.
  induction s as [|c s IH]; simpl; [tauto|].
  destruct (is_space c); simpl; [exact IH | split; discriminate].
Qed.

Lemma trim_end_blank (s : string) :
  trim_end s = "" <-> all_chars is_space s = true.
Proof.
  induction s as [|c s IH]; simpl; [tauto|].
  destruct (trim_end s) as [|d t].
  - destruct (is_space c); simpl; [tauto | split; discriminate].
  - split; [discriminate|]. rewrite andb_true_iff. intros [_ H].
    apply IH in H. discriminate.
Qed.

Lemma all_space_trim_start (s : string) :
  all_chars is_space (trim_start s) = all_chars is_space s.
Proof.
  induction s as [|c s IH]; simpl; trivial.
  destruct (is_space c) eqn:E; simpl; [exact IH | now rewrite E].
Qed.

Lemma trim_blank (s : string) : trim s = "" <-> all_chars is_space s = true.
Proof. unfold trim. now rewrite trim_end_blank, all_space_trim_start. Qed.

Lemma trim_start_starts (s : string) : starts_with_space (trim_start s) = false.
Proof.
  induction s as [|c s IH]; simpl; trivial.
  destruct (is_space c) eqn:E; simpl; trivial.
Qed.

Lemma trim_end_starts (s : string) :
  starts_with_space s = false -> starts_with_space (trim_end s) = false.
Proof.
  destruct s as [|c s]; simpl; trivial. intros E.
  destruct (trim_end s); simpl; [now rewrite E | exact E].
Qed.

Lemma trim_end_ends (s : string) : ends_with_space (trim_end s) = false.
Proof.
  induction s as [|c s IH]; simpl; trivial.
  destruct (trim_end s) as [|d t] eqn:E.
  - destruct (is_space c) eqn:Ec; simpl; trivial.
  - exact IH.
Qed.

Lemma trim_end_fixed (s : string) : trim_end (trim_end s) = trim_end s.
Proof.
  induction s as [|c s IH]; simpl; trivial.
  destruct (trim_end s) as [|d t] eqn:E.
  - destruct (is_space c) eqn:Ec; simpl; trivial. now rewrite Ec.
  - change (trim_end (String c (String d t))) with
      (match trim_end (String d t) with
       | EmptyString => if is_space c then EmptyString else String c EmptyString
       | t' => String c t'
       end).
    now rewrite IH.
Qed.

Lemma trim_start_fixed (s : string) :
  starts_with_space s = false -> trim_start s = s.
Proof. destruct s as [|c s]; simpl; trivial. now intros ->. Qed.

Lemma trim_fixed (s : string) : trim (trim s) = trim s.
Proof.
  unfold trim.
  rewrite (trim_start_fixed (trim_end (trim_start s)))
    by apply trim_end_starts, trim_start_starts.
  apply trim_end_fixed.
Qed.

End MoreStrings.

(** ** Asking a question *)

Section Asking.

(** X1.  [askQuestion] with an input of white space only (or empty)
    returns at once: the state is as it was and nothing is issued.  With
    any other input it adds the user bubble with the trimmed text to the
    chat box, empties the input, sets the status and issues one thing, a
    POST to [/ask] carrying the trimmed text, which neither starts nor
    ends with white space. *)
Theorem askQuestion_sends_trimmed_nonblank (s : State) :
  let value := userInput_value (chat s) in
  (all_chars is_space value = true -> askQuestion s = (returned tt, s))
  /\ (all_chars is_space value = false ->
      let s' := exec askQuestion s in
      issued askQuestion s
        = [Fetch (post_json "/ask" [("question", trim value)]) (p_ask (trim value))]
      /\ chatBox (chat s') = chatBox (chat s) ++ [user_bubble (trim value)]
      /\ userInput_value (chat s') = ""
      /\ chatStatus (chat s') = "Finding best document..."
      /\ starts_with_space (trim value) = false
      /\ ends_with_space (trim value) = false).
Proof.
  intros value. subst value. split.
  - intros Hblank. apply trim_blank in Hblank.
    unfold askQuestion, bind, gets. now rewrite Hblank.
  - intros Hsome. intros s'. subst s'.
    assert (Hne : nonempty (trim (userInput_value (chat s))) = true).
    { destruct (nonempty _) eqn:E; trivial.
      apply nonempty_false_iff, trim_blank in E. congruence. }
    split; [apply issued_exact|]; unfold exec, askQuestion, bind, gets;
      rewrite Hne; run_script.
    + reflexivity.
    + repeat split.
      * apply trim_end_starts, trim_start_starts.
      * apply trim_end_ends.
Qed.

Lemma askQuestion_sends_trimmed_nonblank_witness :
  issued askQuestion (set_userInput_value "  Capital? " served)
  = [Fetch (post_json "/ask" [("question", "Capital?")]) (p_ask "Capital?")].
Proof.
  apply (proj2 (askQuestion_sends_trimmed_nonblank
                  (set_userInput_value "  Capital? " served))).
  reflexivity.
Defined.

End Asking.

(** ** Search words and the scan *)

Section SearchWords.

Lemma split_go_chars (p : ascii -> bool) (s : string) :
  forall in_ws cur,
    forallb p cur = true ->
    all_chars (fun c => is_space c || p c) s = true ->
    Forall (fun w => all_chars p w = true) (split_go in_ws cur s).
Proof.
  induction s as [|c t IH]; intros in_ws cur Hcur Hs; simpl.
  - constructor; [|constructor]. now rewrite all_chars_rev_string.
  - simpl in Hs. apply andb_true_iff in Hs as [Hc Ht].
    destruct (is_space c) eqn:E.
    + destruct in_ws.
      * now apply IH.
      * constructor; [now rewrite all_chars_rev_string | now apply IH].
    + simpl in Hc. apply IH; trivial. simpl. now rewrite Hc.
Qed.

Lemma blank_lower_char (c : ascii) :
  let l := lower_char c in
  let b := if is_word l || is_space l then l else space in
  is_space b || is_lower_word b = true.
Proof. destruct c as [[] [] [] [] [] [] [] []]; reflexivity. Qed.

Lemma In_firstn {A : Type} (n : nat) (l : list A) (x : A) : In x (firstn n l) -> In x l.
Proof.
  revert l; induction n as [|n IH]; intros [|y l]; simpl; try tauto.
  intros [H | H]; auto.
Qed.

(** X2.  The search words of any text are at most five, each longer
    than three characters and made of lower-case letters, digits and
    underscores only: no upper-case letter, white space or punctuation
    of the text reaches a search word. *)
Theorem searchWords_wellformed (searchText : string) :
  List.length (searchWords searchText) <= 5
  /\ forall word, In word (searchWords searchText) ->
       3 < String.length word /\ all_chars is_lower_word word = true.
Proof.
  unfold searchWords. split; [apply firstn_le_length|].
  intros word Hin. apply In_firstn, filter_In in Hin as [Hin Hlen].
  split; [now apply Nat.ltb_lt|].
  unfold split_ws, blank_punctuation, toLowerCase in Hin.
  pose proof (split_go_chars is_lower_word
                (map_chars (fun c => if is_word c || is_space c then c else space)
                   (map_chars lower_char searchText)) false [] eq_refl) as Hall.
  rewrite Forall_forall in Hall. apply Hall; trivial.
  rewrite !all_chars_map. clear. induction searchText as [|c t IH]; simpl; trivial.
  rewrite IH, andb_true_r. apply blank_lower_char.
Qed.

Lemma searchWords_wellformed_witness :
  3 < String.length "quick" /\ all_chars is_lower_word "quick" = true.
Proof.
  apply (proj2 (searchWords_wellformed "The Quick, brown fox!")).
  simpl. tauto.
Defined.

Lemma lower_char_fixed (c : ascii) : lower_char (lower_char c) = lower_char c.
Proof. destruct c as [[] [] [] [] [] [] [] []]; reflexivity. Qed.

Lemma toLowerCase_fixed (s : string) : toLowerCase (toLowerCase s) = toLowerCase s.
Proof.
  unfold toLowerCase. induction s as [|c s IH]; simpl; trivial.
  now rewrite lower_char_fixed, IH.
Qed.

(** X3.  Highlighting ignores case: the highlights laid over the
    fragments of a page are at the same positions when the search text
    and every fragment are first put in lower case. *)
Theorem highlighting_ignores_case (searchText : string) (items : list TextItem) :
  map hl_index (scan (searchWords (toLowerCase searchText)) 0 0 (map lower_item items))
  = map hl_index (scan (searchWords searchText) 0 0 items).
Proof.
  assert (Hw : searchWords (toLowerCase searchText) = searchWords searchText).
  { unfold searchWords. now rewrite toLowerCase_fixed. }
  rewrite Hw. generalize 0 at 1 3 as index. generalize 0 as created.
  induction items as [|item rest IH]; intros created index; simpl; trivial.
  assert (Hc : containsSearchTerm (searchWords searchText) (lower_item item)
               = containsSearchTerm (searchWords searchText) item).
  { unfold containsSearchTerm, lower_item. simpl. now rewrite toLowerCase_fixed. }
  rewrite Hc.
  destruct (containsSearchTerm (searchWords searchText) item && (created <? 10));
    simpl; now rewrite IH.
Qed.

Lemma scan_length (words : list string) (items : list TextItem) :
  forall index created,
    created <= 10 ->
    List.length (scan words index created items)
    = Nat.min (10 - created) (count_matching words items).
Proof.
  unfold count_matching.
  induction items as [|item rest IH]; intros index created Hle; cbn [scan filter].
  - cbn [List.length]. now rewrite Nat.min_0_r.
  - destruct (containsSearchTerm words item) eqn:E; cbn [andb].
    + destruct (Nat.ltb_spec created 10) as [Hlt | Hge]; cbn [List.length].
      * rewrite IH by lia.
        replace (10 - created) with (S (10 - S created)) by lia.
        now rewrite <- Nat.succ_min_distr.
      * rewrite IH by lia. replace (10 - created) with 0 by lia. reflexivity.
    + now apply IH.
Qed.

(** X4.  A scan creates as many highlights as there are fragments
    containing a search word, up to ten: never more than ten, none when
    no fragment matches, and one for every matching fragment when there
    are at most ten. *)
Theorem scan_creates_up_to_ten (words : list string) (items : list TextItem) :
  List.length (scan words 0 0 items) = Nat.min 10 (count_matching words items)
  /\ List.length (scan words 0 0 items) <= 10
  /\ (count_matching words items <= 10 ->
      map hl_item (scan words 0 0 items) = filter (containsSearchTerm words) items).
Proof.
  split; [apply scan_length; lia|]. split.
  - rewrite scan_length by lia. apply Nat.le_min_l.
  - unfold count_matching. generalize 0 at 2 as index.
    assert (H : forall index created,
               created + List.length (filter (containsSearchTerm words) items) <= 10 ->
               map hl_item (scan words index created items)
               = filter (containsSearchTerm words) items).
    { induction items as [|item rest IH]; intros index created Hle; simpl; trivial.
      simpl in Hle. destruct (containsSearchTerm words item) eqn:E; simpl in *.
      - replace (created <? 10) with true by (symmetry; apply Nat.ltb_lt; lia).
        simpl. f_equal. apply IH. lia.
      - now apply IH. }
    intros index Hle. now apply H.
Qed.

Lemma scan_creates_up_to_ten_witness :
  map hl_item (scan ["quick"] 0 0 [{| str := "A QUICK one" |}; {| str := "slow" |}])
  = filter (containsSearchTerm ["quick"]) [{| str := "A QUICK one" |}; {| str := "slow" |}].
Proof.
  apply (proj2 (proj2 (scan_creates_up_to_ten ["quick"]
                         [{| str := "A QUICK one" |}; {| str := "slow" |}]))).
  unfold count_matching. simpl. lia.
Defined.

End SearchWords.

(** ** Encoded text in attributes and addresses *)

Section EncodedText.

Lemma encode_char_safe (c : ascii) : all_chars uri_safe (encode_char c) = true.
Proof. destruct c as [[] [] [] [] [] [] [] []]; reflexivity. Qed.

Lemma uri_safe_no_delimiter (c : ascii) :
  uri_safe c = true -> negb (is_delimiter c) = true.
Proof. destruct c as [[] [] [] [] [] [] [] []]; cbv; congruence. Qed.

Lemma encodeURIComponent_delimiter_free (text : string) :
  delimiter_free (encodeURIComponent text) = true.
Proof.
  unfold delimiter_free. apply all_chars_weaken with (p := uri_safe).
  - apply uri_safe_no_delimiter.
  - induction text as [|c t IH]; simpl; trivial.
    now rewrite all_chars_app, encode_char_safe, IH.
Qed.

(** X5.  The feedback container that [appendMessage] builds for an
    assistant message carries the question, the answer and the file
    name in attributes that hold no quote, angle bracket, ampersand or
    space, whatever the texts are, and that decode to the question (or
    the empty string), to the content, and to the file name given, else
    the selected file, else the empty string. *)
Theorem feedback_attributes_round_trip (s : State) (role content : string)
    (messageId sourcePage : option Z) (feedback question filename : option string)
    (makeHtml : string -> string) :
  role <> "user" -> converter (env s) = Some makeHtml ->
  exists html source fc,
    chatBox (chat (exec (appendMessage role content messageId sourcePage feedback
                           question filename) s))
      = chatBox (chat s) ++ [bot_bubble html source fc]
    /\ decodeURIComponent (data_question fc) = Some (or_else question "")
    /\ decodeURIComponent (data_answer fc) = Some content
    /\ decodeURIComponent (data_filename fc)
       = Some (or_else filename (or_else (selectedFile (vars s)) ""))
    /\ delimiter_free (data_question fc) = true
    /\ delimiter_free (data_answer fc) = true
    /\ delimiter_free (data_filename fc) = true.
Proof.
  intros Hrole Hconv.
  destruct (appendMessage_bot_run role content messageId sourcePage feedback question
              filename s makeHtml Hrole Hconv) as [s1 [Hrun [Hbox _]]].
  do 3 eexists. unfold exec. rewrite Hrun. split; [exact Hbox|].
  simpl. repeat split;
    first [apply decode_encode | apply encodeURIComponent_delimiter_free].
Qed.

Lemma feedback_attributes_round_trip_witness :
  exists html source fc,
    chatBox (chat (exec (appendMessage "assistant" "1 < 2 & 3" None None None
                           (Some "Is 1 < 2?") None) served))
      = chatBox (chat served) ++ [bot_bubble html source fc]
    /\ decodeURIComponent (data_question fc) = Some (or_else (Some "Is 1 < 2?") "")
    /\ decodeURIComponent (data_answer fc) = Some "1 < 2 & 3"
    /\ decodeURIComponent (data_filename fc)
       = Some (or_else None (or_else (selectedFile (vars served)) ""))
    /\ delimiter_free (data_question fc) = true
    /\ delimiter_free (data_answer fc) = true
    /\ delimiter_free (data_filename fc) = true.
Proof.
  apply (feedback_attributes_round_trip served "assistant" "1 < 2 & 3" None None None
           (Some "Is 1 < 2?") None (fun text => ("<p>" ++ text ++ "</p>")%string)).
  - discriminate.
  - reflexivity.
Defined.

(** X6.  [loadHistory] empties the chat box, shows the welcome message
    and issues one request, a GET whose path is [/history] for every
    file name: the name travels encoded, free of [?], [&], [#] and [=],
    and decodes to the name given. *)
Theorem loadHistory_requests_history (s : State) (filename : string) :
  let r := {| method := "GET";
              url := ("/history?filename=" ++ encodeURIComponent filename)%string;
              body := None |} in
  issued (loadHistory (Some filename)) s = [Fetch r (p_history (Some filename))]
  /\ path_of r = "/history"
  /\ delimiter_free (encodeURIComponent filename) = true
  /\ decodeURIComponent (encodeURIComponent filename) = Some filename
  /\ chatBox (chat (exec (loadHistory (Some filename)) s)) = []
  /\ welcome_display (chat (exec (loadHistory (Some filename)) s)) = block.
Proof.
  intros r. subst r. split; [apply issued_exact; reflexivity|].
  split; [reflexivity|].
  split; [apply encodeURIComponent_delimiter_free|].
  split; [apply decode_encode|]. split; reflexivity.
Qed.

End EncodedText.

(** ** Invariants kept by every event *)

Section Keeps.

Variable I : State -> Prop.

Lemma keeps_ret {A : Type} (a : A) : keeps I (ret a).
Proof. intros s H. exact H. Qed.

Lemma keeps_throw {A : Type} : keeps I (@throw A).
Proof. intros s H. exact H. Qed.

Lemma keeps_gets {A : Type} (g : State -> A) : keeps I (gets g).
Proof. intros s H. exact H. Qed.

Lemma keeps_modify (g : State -> State) :
  (forall s, I s -> I (g s)) -> keeps I (modify g).
Proof. intros H s Hs. now apply H. Qed.

Lemma keeps_emit (e : Effect) :
  (forall s, I s -> I (with_out (out s ++ [e]) s)) -> keeps I (emit e).
Proof. intros H s Hs. now apply H. Qed.

Lemma keeps_createElement :
  (forall s, I s -> I (with_fresh (S (fresh s)) s)) -> keeps I createElement.
Proof. intros H s Hs. now apply H. Qed.

Lemma keeps_bind {A C : Type} (m : M A) (k : A -> M C) :
  keeps I m -> (forall a, keeps I (k a)) -> keeps I (bind m k).
Proof.
  intros Hm Hk s Hs. unfold bind. specialize (Hm s Hs).
  destruct (m s) as [[a|] s1]; simpl in *; trivial. now apply Hk.
Qed.

Lemma keeps_try_catch (m h : M unit) :
  keeps I m -> keeps I h -> keeps I (try_catch m h).
Proof.
  intros Hm Hh s Hs. unfold try_catch. specialize (Hm s Hs).
  destruct (m s) as [[a|] s1]; simpl in *; trivial. now apply Hh.
Qed.

Lemma history_forEach_keeps :
  (forall role content messageId sourcePage feedback question filename,
      keeps I (appendMessage role content messageId sourcePage feedback question filename)) ->
  forall filename history lastUserQuestion,
    keeps I (history_forEach filename lastUserQuestion history).
Proof.
  intros Happend filename history.
  induction history as [|msg rest IH]; intros lastUserQuestion; simpl.
  - apply keeps_ret.
  - destruct (String.eqb (msg_role msg) "user");
      (apply keeps_bind; [apply Happend | intros _; apply IH]).
Qed.

(** An invariant kept by the handler of every event holds after every
    sequence of events. *)
Lemma keeps_run :
  (forall ev, keeps I (handle ev)) -> forall evs s, I s -> I (run s evs).
Proof.
  intros H evs. induction evs as [|ev evs IH]; intros s Hs; simpl; trivial.
  apply IH. now apply H.
Qed.

End Keeps.

Ltac head_of t :=
  match t with
  | ?f _ => head_of f
  | _ => t
  end.

(** Goes through the code of a handler: [blocks] settles the parts that
    break the invariant on the way and restore it, [prim] the single
    updates of the state. *)
Ltac keeps_with blocks prim :=
  repeat first
    [ blocks
    | lazymatch goal with
      | |- keeps _ (bind _ _) => apply keeps_bind; [|intros ?]
      | |- keeps _ (ret _) => apply keeps_ret
      | |- keeps _ throw => apply keeps_throw
      | |- keeps _ (gets _) => apply keeps_gets
      | |- keeps _ (try_catch _ _) => apply keeps_try_catch
      | |- keeps _ (emit _) => apply keeps_emit; intros ? ?; prim
      | |- keeps _ createElement => apply keeps_createElement; intros ? ?; prim
      | |- keeps _ (modify _) => apply keeps_modify; intros ? ?; prim
      | |- keeps _ (if ?b then _ else _) => destruct b
      | |- keeps _ (match ?x with _ => _ end) => destruct x
      | |- keeps _ (let _ := _ in _) => cbv zeta
      | |- keeps _ ?m => let h := head_of m in progress unfold h
      end ].

Ltac all_events ev :=
  destruct ev as [t | k r | r | r | | | | | | | | | | | | | | ];
  try destruct t; try destruct k; try destruct r.

(** *** The file counter *)

Lemma handle_keeps_count (ev : Event) : keeps count_nonnegative (handle ev).
Proof.
  all_events ev;
    keeps_with
      ltac:(idtac; lazymatch goal with
            | |- keeps _ (history_forEach _ _ _) => apply history_forEach_keeps; intros
            end)
      ltac:(unfold count_nonnegative in *; simpl in *; first [assumption | lia]).
Qed.



(** X7.  The file counter never becomes negative: from a page whose
    counter is not negative, it is not negative after any sequence of
    events, whatever the replies of the backend, since a deletion counts
    down no further than zero. *)
Theorem file_count_never_negative (s : State) (evs : list Event) :
  count_nonnegative s -> count_nonnegative (run s evs).
Proof. apply keeps_run. exact handle_keeps_count. Qed.

Lemma file_count_never_negative_witness :
  count_nonnegative
    (run served
       [ev_reply (p_delete (Some "a.pdf") 0)
          (resolved {| d_error := None; d_filename := None; d_answer := "";
                       d_message_id := None; d_source_page := None;
                       d_source_content := None; d_message := None;
                       d_success := Some "Deleted"; d_history := None |})]).
Proof.
  apply (file_count_never_negative served). unfold count_nonnegative. simpl. lia.
Defined.

(** *** The input and the send button *)

Lemma enableChat_in_step (enabled : bool) : keeps inputs_in_step (enableChat enabled).
Proof. intros s _. reflexivity. Qed.

Lemma handle_keeps_inputs (ev : Event) : keeps inputs_in_step (handle ev).
Proof.
  all_events ev;
    keeps_with
      ltac:(idtac; lazymatch goal with
            | |- keeps _ (enableChat _) => apply enableChat_in_step
            | |- keeps _ (history_forEach _ _ _) => apply history_forEach_keeps; intros
            end)
      ltac:(unfold inputs_in_step in *; simpl in *; assumption).
Qed.

(** X8.  The question input and the send button are enabled and
    disabled together: once they agree, they agree after any sequence
    of events. *)
Theorem input_and_send_button_in_step (s : State) (evs : list Event) :
  inputs_in_step s -> inputs_in_step (run s evs).
Proof. apply keeps_run. exact handle_keeps_inputs. Qed.

Lemma input_and_send_button_in_step_witness :
  inputs_in_step (run served [ev_timer t_init; ev_ask]).
Proof. apply (input_and_send_button_in_step served). reflexivity. Defined.

(** *** The page controls *)

Lemma updatePageControls_consistent (s : State) :
  controls_consistent (snd (updatePageControls s)).
Proof. reflexivity. Qed.

Lemma prevPage_consistent : keeps controls_consistent prevPage.
Proof.
  intros s H. unfold prevPage, bind, gets.
  destruct (currentPage (vars s) >? 1)%Z; [|exact H].
  run_script. destruct (pdfDoc (vars s)); reflexivity.
Qed.

Lemma nextPage_consistent : keeps controls_consistent nextPage.
Proof.
  intros s H. unfold nextPage, bind, gets.
  destruct (currentPage (vars s) <? totalPages (vars s))%Z; [|exact H].
  run_script. destruct (pdfDoc (vars s)); reflexivity.
Qed.

Lemma loadPdf_then_consistent (pdf : Pdf) : keeps controls_consistent (loadPdf_then pdf).
Proof. intros s _. reflexivity. Qed.

Lemma showSource_consistent (data : Data) : keeps controls_consistent (showSource data).
Proof.
  intros s H. unfold showSource, bind, gets.
  destruct (d_source_page data) as [page|], (pdfDoc (vars s)) eqn:E; try exact H.
  run_script. destruct (page =? 0)%Z; simpl; [exact H|].
  rewrite E. destruct (truthy (d_source_content data)); reflexivity.
Qed.

Lemma resetUI_consistent : keeps controls_consistent resetUI.
Proof.
  intros s _. run_script.
  repeat match goal with
         | |- context [if ?b then _ else _] => destruct b; simpl
         end; reflexivity.
Qed.

Lemma handle_keeps_controls (ev : Event) : keeps controls_consistent (handle ev).
Proof.
  all_events ev;
    keeps_with
      ltac:(idtac; lazymatch goal with
            | |- keeps _ prevPage => apply prevPage_consistent
            | |- keeps _ nextPage => apply nextPage_consistent
            | |- keeps _ (loadPdf_then _) => apply loadPdf_then_consistent
            | |- keeps _ (showSource _) => apply showSource_consistent
            | |- keeps _ resetUI => apply resetUI_consistent
            | |- keeps _ (history_forEach _ _ _) => apply history_forEach_keeps; intros
            end)
      ltac:(unfold controls_consistent in *; simpl in *; assumption).
Qed.

(** X9.  The page buttons and the page text follow the page variables:
    once the previous-page button is disabled exactly on the first
    page, the next-page button exactly on the last, and the text shows
    the current page and the number of pages, this holds after any
    sequence of events; every handler that changes a page variable
    calls [updatePageControls] before it ends. *)
Theorem page_controls_follow_variables (s : State) (evs : list Event) :
  controls_consistent s -> controls_consistent (run s evs).
Proof. apply keeps_run. exact handle_keeps_controls. Qed.

Lemma page_controls_follow_variables_witness :
  controls_consistent
    (run served [ev_document (resolved {| numPages := 3 |}); ev_next_page]).
Proof. apply (page_controls_follow_variables served). reflexivity. Defined.

(** *** The highlight layer *)

Lemma clearHighlights_tracks : keeps layer_tracks clearHighlights.
Proof.
  intros s [Hl _]. unfold clearHighlights, bind, gets. rewrite Hl.
  split; [exact Hl | reflexivity].
Qed.

Lemma highlightText_then_tracks (searchText : string) :
  keeps layer_tracks (highlightText_then searchText).
Proof.
  intros s [Hl H]. unfold highlightText_then, bind, gets.
  destruct (currentPageTextContent (vars s)) as [items|]; [|now split].
  run_script.
  match goal with
  | |- context [if ?b then _ else _] => destruct b
  end; simpl; [destruct (has_pdfViewer (env s))|]; simpl;
    (split; [exact Hl | now rewrite H]).
Qed.

Lemma handle_keeps_layer (ev : Event) : keeps layer_tracks (handle ev).
Proof.
  all_events ev;
    keeps_with
      ltac:(idtac; lazymatch goal with
            | |- keeps _ clearHighlights => apply clearHighlights_tracks
            | |- keeps _ (highlightText_then _) => apply highlightText_then_tracks
            | |- keeps _ (history_forEach _ _ _) => apply history_forEach_keeps; intros
            end)
      ltac:(unfold layer_tracks in *; simpl in *; assumption).
Qed.

(** X10.  On a page with a highlight layer, the layer holds exactly the
    highlights in [currentHighlights]: once it does, it does after any
    sequence of events, since the two are filled together by
    [highlightText] and emptied together by [clearHighlights]. *)
Theorem highlight_layer_tracks_highlights (s : State) (evs : list Event) :
  layer_tracks s -> layer_tracks (run s evs).
Proof. apply keeps_run. exact handle_keeps_layer. Qed.

Lemma highlight_layer_tracks_highlights_witness :
  layer_tracks
    (run (set_currentPageTextContent (Some [{| str := "A QUICK one" |}]) served)
       [ev_page_for_highlight "quick"]).
Proof.
  apply (highlight_layer_tracks_highlights
           (set_currentPageTextContent (Some [{| str := "A QUICK one" |}]) served)).
  split; reflexivity.
Defined.

(** ** What the client issues *)

Section Issued.

Ltac appends_with blocks emitted :=
  repeat first
    [ blocks
    | apply appends_bind; [|intros ?]
    | apply appends_ret
    | apply appends_throw
    | apply appends_gets
    | apply appends_createElement
    | apply appends_try_catch
    | apply appends_modify; unchanged
    | apply appends_emit; emitted
    | match goal with
      | |- appends _ (if ?b then _ else _) => destruct b
      | |- appends _ (match ?x with _ => _ end) => destruct x
      end
    | progress cbv zeta
    | match goal with
      | |- appends _ ?m => let h := head_of m in progress unfold h
      end ].

Lemma handle_known (ev : Event) : appends known_effect (handle ev).
Proof.
  all_events ev;
    appends_with
      ltac:(first [ apply appendMessage_appends | apply history_forEach_appends ])
      ltac:(first [ exact I | reflexivity ]).
Qed.

(** X11.  Every request the client issues, for any event in any state,
    is the upload (a POST of form data to [/upload]), a POST of JSON to
    [/ask], [/feedback], [/clear_chat] or [/delete], or the history (a
    GET without body whose path is [/history]). *)
Theorem requests_are_the_known_ones (s : State) (ev : Event) (r : Request) (k : Pending) :
  In (Fetch r k) (issued (handle ev) s) -> known_request r = true.
Proof.
  intros Hin.
  pose proof (appends_issued known_effect (handle ev) (handle_known ev) s) as Hall.
  rewrite Forall_forall in Hall. exact (Hall _ Hin).
Qed.

Lemma requests_are_the_known_ones_witness :
  known_request (post_json "/delete" [("filename", "a.pdf")]) = true.
Proof.
  apply (requests_are_the_known_ones listed (ev_delete_click 100 true)
           (post_json "/delete" [("filename", "a.pdf")]) (p_delete (Some "a.pdf") 100)).
  simpl. tauto.
Defined.

Lemma other_events_load_nothing (ev : Event) :
  may_load ev = false -> appends no_document (handle ev).
Proof.
  all_events ev; simpl; intros Hm; try discriminate;
    appends_with
      ltac:(first [ apply appendMessage_appends | apply history_forEach_appends ])
      ltac:(exact I).
Qed.

Ltac settle_documents :=
  repeat match goal with
         | |- context [if ?b then _ else _] => destruct b; simpl
         end;
  rewrite <- ?app_assoc, ?skipn_exact, ?skipn_all; simpl;
  intros Hin;
  repeat match goal with
         | H : _ \/ _ |- _ => destruct H
         | H : False |- _ => destruct H
         | H : _ = GetDocument _ |- _ => inversion H; subst; clear H
         end;
  try discriminate; try reflexivity.

Lemma fileClick_loads_selected (s : State) (id : nat) (u : string) :
  In (GetDocument u) (issued (handle (ev_file_click id)) s) ->
  u = ("/uploads/" ++ template (selectedFile (vars (step s (ev_file_click id)))))%string.
Proof.
  unfold issued. run_script.
  destruct (find (fun it => item_id it =? id) (items s)) as [it|]; simpl;
    settle_documents.
Qed.

Lemma autoSelect_loads_selected (s : State) (f : option string) (id : nat) (u : string) :
  In (GetDocument u) (issued (handle (ev_timer (t_auto_select f id))) s) ->
  u = ("/uploads/"
         ++ template (selectedFile (vars (step s (ev_timer (t_auto_select f id))))))%string.
Proof. unfold issued. run_script. destruct f as [f|]; simpl; settle_documents. Qed.

(** The switch either returns, and what it asked the viewer for is the
    file it selected, or throws before it asks the viewer for
    anything. *)
Lemma switchDocument_loads_selected (s : State) (data : Data) :
  exists r s1 l,
    switchDocument data s = (r, s1) /\ out s1 = out s ++ l
    /\ (forall u, In (GetDocument u) l ->
          u = ("/uploads/" ++ template (selectedFile (vars s1)))%string)
    /\ (r = thrown -> l = []).
Proof.
  unfold switchDocument, bind, gets.
  destruct (truthy (d_filename data)
            && negb (strict_eq (selectedFile (vars s)) (d_filename data))) eqn:E.
  - destruct (d_filename data) as [f|]; [|discriminate].
    unfold highlightSelectedDocument, query_data_filename, js_string, of_value.
    destruct (css_string f) as [|value|]; run_script.
    + exists thrown. eexists. exists []. rewrite app_nil_r.
      repeat split; [intros u []].
    + destruct (negb (has_pdfViewer (env s)) || negb (has_pdfPlaceholder (env s)));
        simpl; [|destruct (pdfjs_loaded (env s)); simpl];
        eexists; eexists; eexists; (split; [reflexivity|]);
        (split; [simpl; rewrite <- ?app_assoc; simpl; reflexivity|]);
        (split; [|discriminate]); simpl; intros u Hin;
        repeat match goal with
               | H : _ \/ _ |- _ => destruct H
               | H : False |- _ => destruct H
               | H : _ = GetDocument _ |- _ => inversion H; subst; clear H
               end; try discriminate; reflexivity.
    + destruct (negb (has_pdfViewer (env s)) || negb (has_pdfPlaceholder (env s)));
        simpl; [|destruct (pdfjs_loaded (env s)); simpl];
        eexists; eexists; eexists; (split; [reflexivity|]);
        (split; [simpl; rewrite <- ?app_assoc; simpl; reflexivity|]);
        (split; [|discriminate]); simpl; intros u Hin;
        repeat match goal with
               | H : _ \/ _ |- _ => destruct H
               | H : False |- _ => destruct H
               | H : _ = GetDocument _ |- _ => inversion H; subst; clear H
               end; try discriminate; reflexivity.
  - exists (returned tt), s, []. split; [reflexivity|]. split; [now rewrite app_nil_r|].
    split; [intros u [] | discriminate].
Qed.

Lemma try_catch_bind_returned {A : Type} (m : M A) (k : A -> M unit) (h : M unit)
    (s s1 : State) (a : A) :
  m s = (returned a, s1) -> try_catch (bind m k) h s = try_catch (k a) h s1.
Proof. unfold try_catch, bind. now intros ->. Qed.

Lemma try_catch_bind_thrown {A : Type} (m : M A) (k : A -> M unit) (h : M unit)
    (s s1 : State) :
  m s = (thrown, s1) -> try_catch (bind m k) h s = h s1.
Proof. unfold try_catch, bind. now intros ->. Qed.

Lemma appendMessage_selectedFile role content messageId sourcePage feedback question
    filename :
  preserves (fun s => selectedFile (vars s))
    (appendMessage role content messageId sourcePage feedback question filename).
Proof.
  unfold appendMessage, appendChild. cbv zeta.
  repeat first [ frame_step | (intros ?; reflexivity) ].
Qed.

Lemma answer_keeps_selection (question : string) (data : Data) :
  preserves (fun s => selectedFile (vars s))
    (try_catch
       (bind (appendMessage "assistant" (d_answer data) (d_message_id data)
                (d_source_page data) None (Some question) (d_filename data))
          (fun _ => showSource data))
       askQuestion_catch).
Proof.
  apply preserves_try_catch.
  - apply preserves_bind; [apply appendMessage_selectedFile|].
    intros _. apply showSource_selectedFile.
  - unfold askQuestion_catch, consoleError, updateChatStatus, emit.
    repeat first [ apply appendMessage_selectedFile | frame_step ].
Qed.

Lemma answer_loads_nothing (question : string) (data : Data) :
  appends no_document
    (try_catch
       (bind (appendMessage "assistant" (d_answer data) (d_message_id data)
                (d_source_page data) None (Some question) (d_filename data))
          (fun _ => showSource data))
       askQuestion_catch).
Proof.
  appends_with ltac:(apply appendMessage_appends) ltac:(exact I).
Qed.

Lemma apology_keeps_selection :
  preserves (fun s => selectedFile (vars s)) askQuestion_catch.
Proof.
  unfold askQuestion_catch, consoleError, updateChatStatus, emit.
  repeat first [ apply appendMessage_selectedFile | frame_step ].
Qed.

Lemma apology_loads_nothing : appends no_document askQuestion_catch.
Proof. appends_with ltac:(apply appendMessage_appends) ltac:(exact I). Qed.

Lemma ask_reply_loads_selected (s : State) (question : string) (data : Data)
    (u : string) :
  In (GetDocument u) (issued (handle (ev_reply (p_ask question) (resolved data))) s) ->
  u = ("/uploads/"
         ++ template
              (selectedFile
                 (vars (step s (ev_reply (p_ask question) (resolved data))))))%string.
Proof.
  destruct (truthy (d_error data)) eqn:He.
  - intros Hin. exfalso.
    assert (Hno : appends no_document
                    (handle (ev_reply (p_ask question) (resolved data)))).
    { unfold handle, on_reply, then_catch, askQuestion_then. rewrite He.
      appends_with ltac:(apply appendMessage_appends) ltac:(exact I). }
    pose proof (appends_issued _ _ Hno s) as Hall.
    rewrite Forall_forall in Hall. exact (Hall _ Hin).
  - destruct (switchDocument_loads_selected (set_chatStatus "Ready" s) data)
      as [r [s1 [l [Hrun [Hout [Hl Hthrown]]]]]].
    destruct r as [[]|].
    + assert (Hhandle :
                handle (ev_reply (p_ask question) (resolved data)) s
                = try_catch
                    (bind (appendMessage "assistant" (d_answer data) (d_message_id data)
                             (d_source_page data) None (Some question) (d_filename data))
                       (fun _ => showSource data))
                    askQuestion_catch s1).
      { unfold handle, on_reply, then_catch, askQuestion_then.
        rewrite (try_catch_bind_returned _ _ _ s (set_chatStatus "Ready" s) tt)
          by reflexivity.
        rewrite He. now rewrite (try_catch_bind_returned _ _ _ _ s1 tt Hrun). }
      destruct (answer_loads_nothing question data s1) as [l2 [Hout2 Hl2]].
      assert (Hissued : issued (handle (ev_reply (p_ask question) (resolved data))) s
                        = l ++ l2).
      { apply issued_exact. unfold exec. rewrite Hhandle, Hout2, Hout.
        simpl. now rewrite app_assoc. }
      unfold step, exec. rewrite Hissued, Hhandle.
      rewrite (answer_keeps_selection question data s1).
      intros Hin. apply in_app_or in Hin as [Hin | Hin]; [now apply Hl|].
      rewrite Forall_forall in Hl2. destruct (Hl2 _ Hin).
    + assert (Hhandle :
                handle (ev_reply (p_ask question) (resolved data)) s
                = askQuestion_catch s1).
      { unfold handle, on_reply, then_catch, askQuestion_then.
        rewrite (try_catch_bind_returned _ _ _ s (set_chatStatus "Ready" s) tt)
          by reflexivity.
        rewrite He. now rewrite (try_catch_bind_thrown _ _ _ _ s1 Hrun). }
      destruct (apology_loads_nothing s1) as [l2 [Hout2 Hl2]].
      assert (Hissued : issued (handle (ev_reply (p_ask question) (resolved data))) s
                        = l2).
      { apply issued_exact. unfold exec. rewrite Hhandle, Hout2, Hout.
        rewrite (Hthrown eq_refl). simpl. now rewrite app_nil_r. }
      rewrite Hissued. intros Hin. exfalso.
      rewrite Forall_forall in Hl2. exact (Hl2 _ Hin).
Qed.

(** X12.  The viewer is only ever asked for the selected document:
    whenever a handler calls [pdfjsLib.getDocument], the address is
    [/uploads/] followed by the value [selectedFile] has when the
    handler ends, as a template string writes it: the name of the file,
    or [undefined] after the reply to an upload that carried no file
    name. *)
Theorem viewer_loads_only_the_selected_file (s : State) (ev : Event) (u : string) :
  In (GetDocument u) (issued (handle ev) s) ->
  u = ("/uploads/" ++ template (selectedFile (vars (step s ev))))%string.
Proof.
  destruct (may_load ev) eqn:Hm.
  - destruct ev as [[| f id |] | [| | question | | |] [data|] | | | | | | | |id | | | | | | | | ];
      try discriminate.
    + apply autoSelect_loads_selected.
    + apply ask_reply_loads_selected.
    + apply fileClick_loads_selected.
  - intros Hin. exfalso.
    pose proof (appends_issued _ _ (other_events_load_nothing ev Hm) s) as Hall.
    rewrite Forall_forall in Hall. exact (Hall _ Hin).
Qed.

Lemma viewer_loads_only_the_selected_file_witness :
  "/uploads/undefined"
  = ("/uploads/"
       ++ template (selectedFile (vars (step served (ev_timer (t_auto_select None 0))))))%string.
Proof.
  apply (viewer_loads_only_the_selected_file served (ev_timer (t_auto_select None 0))).
  simpl. tauto.
Defined.

End Issued.

(** ** Feedback dialogs and containers *)

Section MoreFeedback.

Lemma find_removed (id : nat) (ms : list FeedbackModal) :
  find (fun m => modal_id m =? id) (filter (fun m => negb (modal_id m =? id)) ms) = None.
Proof.
  induction ms as [|m ms IH]; simpl; trivial.
  destruct (modal_id m =? id) eqn:E; simpl; trivial. now rewrite E.
Qed.

Lemma find_other_kept (id id' : nat) (ms : list FeedbackModal) :
  id' <> id ->
  find (fun m => modal_id m =? id') (filter (fun m => negb (modal_id m =? id)) ms)
  = find (fun m => modal_id m =? id') ms.
Proof.
  intros Hne. induction ms as [|m ms IH]; simpl; trivial.
  destruct (modal_id m =? id) eqn:E; simpl.
  - apply Nat.eqb_eq in E.
    destruct (Nat.eqb_spec (modal_id m) id'); [congruence | exact IH].
  - destruct (modal_id m =? id'); [reflexivity | exact IH].
Qed.

(** X13.  A feedback dialog submitted with a text of white space only
    stays open: the state is as it was and nothing is issued.  Closing
    a dialog issues nothing, removes that dialog and leaves every other
    dialog in place.  A submission with a text that is not blank closes
    the dialog whenever the file name of the container decodes, also
    when [sendFeedback] refuses to send. *)
Theorem feedback_dialog_lifecycle (s : State) (id : nat) :
  (forall value, all_chars is_space value = true ->
      handle (ev_modal_submit id value) s = (returned tt, s))
  /\ (issued (handle (ev_modal_close id)) s = []
      /\ find (fun m => modal_id m =? id)
           (feedbackModals (dialogs (step s (ev_modal_close id)))) = None
      /\ forall id', id' <> id ->
           find (fun m => modal_id m =? id')
             (feedbackModals (dialogs (step s (ev_modal_close id))))
           = find (fun m => modal_id m =? id') (feedbackModals (dialogs s)))
  /\ (forall value m filename,
        find (fun m => modal_id m =? id) (feedbackModals (dialogs s)) = Some m ->
        decodeURIComponent (data_filename (modal_container m)) = Some filename ->
        all_chars is_space value = false ->
        fst (handle (ev_modal_submit id value) s) = returned tt
        /\ find (fun m => modal_id m =? id)
             (feedbackModals (dialogs (step s (ev_modal_submit id value)))) = None).
Proof.
  split; [|split].
  - intros value Hblank. apply trim_blank in Hblank.
    unfold handle, modalSubmit, bind, gets.
    destruct (find _ _); [|reflexivity]. now rewrite Hblank.
  - split; [apply issued_exact; simpl; now rewrite app_nil_r|].
    split; [apply find_removed|]. intros id' Hne. now apply find_other_kept.
  - intros value m filename Hm Hd Hsome.
    assert (Hne : nonempty (trim value) = true).
    { destruct (nonempty (trim value)) eqn:E; trivial.
      apply nonempty_false_iff, trim_blank in E. congruence. }
    unfold step, exec, handle, modalSubmit, bind, gets. rewrite Hm, Hne.
    unfold sendFeedback, bind, decode_attribute. rewrite Hd.
    unfold ret, removeModal, showNotification, consoleError, emit, modify.
    repeat match goal with
           | |- context [if ?b then _ else _] => destruct b; simpl
           end;
      (split; [reflexivity | apply find_removed]).
Qed.

Lemma feedback_dialog_lifecycle_witness :
  handle (ev_modal_submit 1 "   ") (step answered (ev_feedback_click 0 "dislike"))
  = (returned tt, step answered (ev_feedback_click 0 "dislike")).
Proof.
  apply (proj1 (feedback_dialog_lifecycle
                  (step answered (ev_feedback_click 0 "dislike")) 1)).
  reflexivity.
Defined.

Lemma find_buttons_after_thanks (id : nat) (d : FeedbackDisplay) (box : list MessageElement) :
  d <> buttons ->
  find_buttons id
    (map (fun m =>
            match m with
            | bot_bubble html src fc =>
                if fc_id fc =? id
                then bot_bubble html src
                       {| fc_id := fc_id fc; data_question := data_question fc;
                          data_answer := data_answer fc;
                          data_filename := data_filename fc; fc_display := d |}
                else m
            | user_bubble _ => m
            end) box) = None.
Proof.
  intros Hd. induction box as [|[content|html src fc] box IH]; simpl; trivial.
  destruct (fc_id fc =? id) eqn:E; simpl; rewrite E; simpl; trivial.
  destruct d; [contradiction | exact IH | exact IH].
Qed.

Lemma find_buttons_other (id id' : nat) (d : FeedbackDisplay) (box : list MessageElement) :
  id' <> id ->
  find_buttons id'
    (map (fun m =>
            match m with
            | bot_bubble html src fc =>
                if fc_id fc =? id
                then bot_bubble html src
                       {| fc_id := fc_id fc; data_question := data_question fc;
                          data_answer := data_answer fc;
                          data_filename := data_filename fc; fc_display := d |}
                else m
            | user_bubble _ => m
            end) box)
  = find_buttons id' box.
Proof.
  intros Hne. induction box as [|[content|html src fc] box IH]; simpl; trivial.
  destruct (fc_id fc =? id) eqn:E; simpl.
  - apply Nat.eqb_eq in E.
    destruct (Nat.eqb_spec (fc_id fc) id'); [congruence|]. simpl. exact IH.
  - destruct (_ && _); [reflexivity | exact IH].
Qed.

(** X14.  Feedback is taken once: after the backend has accepted the
    feedback on a container, that container shows no button, so a later
    click on it does nothing and issues nothing; the buttons of every
    other container are as before. *)
Theorem feedback_is_taken_once (s : State) (feedbackType : string)
    (fc : FeedbackContainer) (data : Data) :
  truthy (d_message data) = true ->
  let s' := step s (ev_reply (p_feedback feedbackType fc) (resolved data)) in
  issued (handle (ev_reply (p_feedback feedbackType fc) (resolved data))) s
    = [Notification "Feedback submitted successfully!" "success"]
  /\ (forall feedback,
        handle (ev_feedback_click (fc_id fc) feedback) s' = (returned tt, s'))
  /\ (forall id, id <> fc_id fc ->
        find_buttons id (chatBox (chat s')) = find_buttons id (chatBox (chat s))).
Proof.
  intros Hm s'. subst s'. split; [|split].
  - apply issued_exact. run_script. now rewrite Hm.
  - intros feedback. unfold handle at 1, feedbackClick, bind, gets.
    replace (find_buttons (fc_id fc) _) with (@None FeedbackContainer); [reflexivity|].
    symmetry. run_script. rewrite Hm. simpl.
    apply find_buttons_after_thanks. destruct (String.eqb feedbackType "like"); discriminate.
  - intros id Hne. run_script. rewrite Hm. simpl. now apply find_buttons_other.
Qed.

Lemma feedback_is_taken_once_witness :
  handle (ev_feedback_click 0 "like")
    (step answered
       (ev_reply (p_feedback "like" answered_container)
          (resolved {| d_error := None; d_filename := None; d_answer := "";
                       d_message_id := None; d_source_page := None;
                       d_source_content := None; d_message := Some "saved";
                       d_success := None; d_history := None |})))
  = (returned tt,
     step answered
       (ev_reply (p_feedback "like" answered_container)
          (resolved {| d_error := None; d_filename := None; d_answer := "";
                       d_message_id := None; d_source_page := None;
                       d_source_content := None; d_message := Some "saved";
                       d_success := None; d_history := None |}))).
Proof.
  apply (proj1 (proj2 (feedback_is_taken_once answered "like" answered_container
                         {| d_error := None; d_filename := None; d_answer := "";
                            d_message_id := None; d_source_page := None;
                            d_source_content := None; d_message := Some "saved";
                            d_success := None; d_history := None |} eq_refl))).
Defined.

End MoreFeedback.

(** ** The file list *)

Section FileList.

(** X15.  [addFileToList] with a name of plain characters that no
    element carries puts one item in front of the list, with a file
    button of that name and no delete button, counts one file more, and
    sets the timer that will select the item; the selection is not
    touched.  When the item is the only one, the input and the send
    button are enabled; otherwise the chat is as it was. *)
Theorem addFileToList_adds_in_front (s : State) (filename : string) :
  plain_text filename = true ->
  has_data_filename filename s = false ->
  let s' := exec (addFileToList (Some filename)) s in
  items s' = {| item_id := fresh s; li_filename := None; btn_filename := filename;
                has_delete_btn := false |} :: items s
  /\ fileCount (files s') = (fileCount (files s) + 1)%Z
  /\ issued (addFileToList (Some filename)) s
     = [SetTimeout (t_auto_select (Some filename) (fresh s)) 100]
  /\ vars s' = vars s
  /\ (items s = [] ->
      userInput_disabled (chat s') = false /\ sendBtn_disabled (chat s') = false
      /\ welcome_text (chat s') = welcome_ready)
  /\ (items s <> [] -> chat s' = chat s).
Proof.
  intros Hplain Hnew s'. subst s'.
  unfold issued, exec, addFileToList, query_data_filename, js_string.
  rewrite (css_string_plain filename Hplain), (attribute_value_plain filename Hplain).
  unfold bind, gets. rewrite Hnew.
  destruct s as [e v c [ndm [[|it l]|] cnt] vw d o fr]; destruct ndm; simpl;
    rewrite ?skipn_exact;
    repeat split;
    first [reflexivity | discriminate | (intros H; now destruct H)].
Qed.

Lemma addFileToList_adds_in_front_witness :
  items (exec (addFileToList (Some "b.pdf")) listed)
  = {| item_id := fresh listed; li_filename := None; btn_filename := "b.pdf";
       has_delete_btn := false |} :: items listed.
Proof.
  apply (addFileToList_adds_in_front listed "b.pdf"); reflexivity.
Defined.

(** X16.  Nothing is deleted without the confirmation: a click on a
    delete button whose confirmation is declined leaves the state as it
    was.  When it is accepted, the one thing issued is a POST to
    [/delete] with the file name of the list item, the loading overlay
    is shown, and the list keeps the item until the reply. *)
Theorem delete_waits_for_confirmation (s : State) (id : nat) :
  handle (ev_delete_click id false) s = (returned tt, s)
  /\ forall it,
       find (fun it => (item_id it =? id) && has_delete_btn it) (items s) = Some it ->
       let s' := step s (ev_delete_click id true) in
       issued (handle (ev_delete_click id true)) s
         = [Fetch (post_json "/delete"
                     match li_filename it with
                     | Some f => [("filename", f)]
                     | None => []
                     end)
              (p_delete (li_filename it) id)]
       /\ loadingOverlay_hidden (viewer s') = false
       /\ files s' = files s /\ vars s' = vars s /\ chat s' = chat s.
Proof.
  split.
  - unfold handle, deleteClick, bind, gets. now destruct (find _ _).
  - intros it Hit s'. subst s'. split; [apply issued_exact|];
      unfold step, exec, handle, deleteClick, bind, gets; rewrite Hit; simpl.
    + reflexivity.
    + repeat split.
Qed.

Lemma delete_waits_for_confirmation_witness :
  loadingOverlay_hidden (viewer (step listed (ev_delete_click 100 true))) = false.
Proof.
  apply (proj2 (delete_waits_for_confirmation listed 100)
           {| item_id := 100; li_filename := Some "a.pdf"; btn_filename := "a.pdf";
              has_delete_btn := true |}).
  reflexivity.
Defined.

(** X17.  The reply to a deletion.  When it carries an error, the error
    is notified and the list, the counter, the variables and the chat
    stay as they were.  Otherwise the list item leaves the list, the
    other items keep their order, and the counter goes down by one, not
    below zero; when the file was not the selected one, no variable of
    the viewer changes, and the chat stays as it was as long as a file
    is left; when no file is left, the chat box is emptied, the input
    and the send button are disabled and the welcome text asks for an
    upload. *)
Theorem delete_reply_updates_list (s : State) (filename : option string) (listItem : nat)
    (data : Data) :
  let ev := ev_reply (p_delete filename listItem) (resolved data) in
  let s' := step s ev in
  (truthy (d_error data) = true ->
     issued (handle ev) s = [Notification (js_string (d_error data)) "error"]
     /\ files s' = files s /\ vars s' = vars s /\ chat s' = chat s)
  /\ (truthy (d_error data) = false ->
      items s' = filter (fun it => negb (item_id it =? listItem)) (items s)
      /\ fileCount (files s') = Z.max 0 (fileCount (files s) - 1)
      /\ (strict_eq (selectedFile (vars s)) filename = false ->
          vars s' = vars s /\ (items s' <> [] -> chat s' = chat s))
      /\ (items s' = [] ->
          chatBox (chat s') = [] /\ userInput_disabled (chat s') = true
          /\ sendBtn_disabled (chat s') = true
          /\ welcome_text (chat s') = welcome_empty
          /\ welcome_display (chat s') = block)).
Proof.
  intros ev s'. subst ev s'. split; intros He.
  - split; [apply issued_exact|]; unfold step, exec; run_script; rewrite He; simpl.
    + reflexivity.
    + repeat split.
  - unfold step, exec. run_script. rewrite He. simpl.
    destruct s as [e v c [ndm fl cnt] vw d o fr]. unfold items. simpl.
    destruct (strict_eq (selectedFile v) filename) eqn:Hsel; simpl;
      destruct fl as [l|]; simpl;
      repeat match goal with
             | |- context [if ?b then _ else _] => destruct b eqn:?; simpl
             end;
      repeat split; try reflexivity; try discriminate; intros.
    all: unfold fileButtons, items in *; simpl in *.
    all: try match goal with
             | H : filter _ _ = [] |- _ => rewrite H in *; simpl in *
             end.
    all: try match goal with
             | H : (List.length ?l =? 0) = true |- _ =>
                 destruct l; simpl in H; [|discriminate]
             end.
    all: first [discriminate | congruence].
Qed.

Lemma delete_reply_updates_list_witness :
  items (step listed
           (ev_reply (p_delete (Some "a.pdf") 100)
              (resolved {| d_error := None; d_filename := None; d_answer := "";
                           d_message_id := None; d_source_page := None;
                           d_source_content := None; d_message := None;
                           d_success := Some "Deleted"; d_history := None |})))
  = filter (fun it => negb (item_id it =? 100)) (items listed).
Proof.
  apply (proj2 (delete_reply_updates_list listed (Some "a.pdf") 100
                  {| d_error := None; d_filename := None; d_answer := "";
                     d_message_id := None; d_source_page := None;
                     d_source_content := None; d_message := None;
                     d_success := Some "Deleted"; d_history := None |})).
  reflexivity.
Defined.

End FileList.

(** ** The history of a document *)

Section History.

Lemma or_else_given (v : string) : or_else (Some v) "" = v.
Proof. unfold or_else. destruct v; reflexivity. Qed.






End History.

(** ** Clearing the chat *)

Section ClearChat.

(** X19.  The clear-chat button.  Without a selected file it only
    notifies that a document must be selected.  With one, a declined
    confirmation leaves the state as it was, and an accepted one issues
    a single POST to [/clear_chat] with the selected file and shows the
    loading overlay; the chat box is not touched before the reply. *)
Theorem clear_chat_asks_first (s : State) :
  (truthy (selectedFile (vars s)) = false ->
     forall confirmed,
       issued (handle (ev_clear_chat confirmed)) s
         = [Notification "Please select a document to clear its chat history" "info"]
       /\ chat (step s (ev_clear_chat confirmed)) = chat s
       /\ viewer (step s (ev_clear_chat confirmed)) = viewer s)
  /\ (forall name,
        selectedFile (vars s) = named name -> nonempty name = true ->
        handle (ev_clear_chat false) s = (returned tt, s)
        /\ issued (handle (ev_clear_chat true)) s
           = [Fetch (post_json "/clear_chat" [("filename", name)]) (p_clear_chat name)]
        /\ chat (step s (ev_clear_chat true)) = chat s
        /\ loadingOverlay_hidden (viewer (step s (ev_clear_chat true))) = false).
Proof.
  split.
  - intros Hsel confirmed.
    split; [apply issued_exact|]; unfold step, exec, handle, clearChatClick, bind, gets;
      rewrite Hsel; [reflexivity | split; reflexivity].
  - intros name Hsel Hname.
    assert (Ht : truthy (selectedFile (vars s)) = true) by now rewrite Hsel.
    split; [|split; [apply issued_exact|]];
      unfold step, exec, handle, clearChatClick, bind, gets; rewrite Ht, ?Hsel;
      [reflexivity | reflexivity | split; reflexivity].
Qed.

Lemma clear_chat_asks_first_witness :
  issued (handle (ev_clear_chat true)) served
  = [Notification "Please select a document to clear its chat history" "info"].
Proof.
  apply (proj1 (clear_chat_asks_first served) eq_refl true).
Defined.

(** X20.  The reply to a clear-chat request.  With an error, the error
    is notified and the chat stays as it was.  Otherwise the success is
    notified, the chat box is emptied, the welcome message is shown, and
    the history of the same file is requested again.  In both cases the
    loading overlay is hidden. *)
Theorem clear_chat_reply_reloads_history (s : State) (filename : string) (data : Data) :
  let ev := ev_reply (p_clear_chat filename) (resolved data) in
  let s' := step s ev in
  loadingOverlay_hidden (viewer s') = true
  /\ (truthy (d_error data) = true ->
      issued (handle ev) s = [Notification (js_string (d_error data)) "error"]
      /\ chat s' = chat s)
  /\ (truthy (d_error data) = false ->
      issued (handle ev) s
        = [Notification (js_string (d_success data)) "success"; history_request filename]
      /\ chatBox (chat s') = []
      /\ welcome_display (chat s') = block
      /\ vars s' = vars s).
Proof.
  intros ev s'. subst ev s'.
  split; [|split; intros He; (split; [apply issued_exact|])];
    unfold step, exec; run_script; destruct (truthy (d_error data));
    try discriminate; simpl; rewrite <- ?app_assoc; try reflexivity.
  repeat split.
Qed.

Lemma clear_chat_reply_reloads_history_witness :
  chatBox
    (chat
       (step answered
          (ev_reply (p_clear_chat "a.pdf")
             (resolved {| d_error := None; d_filename := None; d_answer := "";
                          d_message_id := None; d_source_page := None;
                          d_source_content := None; d_message := None;
                          d_success := Some "Cleared"; d_history := None |}))))
  = [].
Proof.
  apply (proj2 (proj2 (clear_chat_reply_reloads_history answered "a.pdf"
                         {| d_error := None; d_filename := None; d_answer := "";
                            d_message_id := None; d_source_page := None;
                            d_source_content := None; d_message := None;
                            d_success := Some "Cleared"; d_history := None |}))).
  reflexivity.
Defined.

End ClearChat.

(** ** From an answer to its feedback *)

Section FeedbackFlow.

Lemma find_buttons_fresh (n : nat) (box : list MessageElement) (html : string)
    (source : option Z) (fc : FeedbackContainer) :
  Forall (older n) box -> fc_id fc = n -> fc_display fc = buttons ->
  find_buttons n (box ++ [bot_bubble html source fc]) = Some fc.
Proof.
  intros Hbox Hid Hd. induction Hbox as [|m box Hm _ IH]; simpl.
  - now rewrite Hid, Nat.eqb_refl, Hd.
  - destruct m as [content|html0 source0 fc0]; simpl in Hm; [exact IH|].
    destruct (Nat.eqb_spec (fc_id fc0) n); [lia | exact IH].
Qed.

Lemma older_weaken (n : nat) (box : list MessageElement) :
  Forall (older n) box -> Forall (older (S n)) box.
Proof.
  apply Forall_impl. intros [content|html source fc]; simpl; [trivial | lia].
Qed.

Lemma appendMessage_keeps_ids role content messageId sourcePage feedback question
    filename :
  keeps chat_ids_fresh
    (appendMessage role content messageId sourcePage feedback question filename).
Proof.
  intros s H. unfold chat_ids_fresh in *. unfold appendMessage, appendChild, bind, gets, modify.
  destruct (String.eqb role "user"); simpl.
  - apply Forall_app. split; [exact H | now repeat constructor].
  - destruct (converter (env s)); simpl; [|exact H].
    apply Forall_app. split; [now apply older_weaken|].
    repeat constructor.
Qed.

Lemma set_feedback_display_keeps_ids (id : nat) (d : FeedbackDisplay) :
  keeps chat_ids_fresh (set_feedback_display id d).
Proof.
  intros s H. unfold chat_ids_fresh in *. simpl.
  induction H as [|m box Hm _ IH]; simpl; constructor; trivial.
  destruct m as [content|html source fc]; trivial.
  destruct (fc_id fc =? id); exact Hm.
Qed.

(** The identifiers in the chat box stay older than the next fresh one
    through every event, so they hold for every state the page
    reaches. *)
Lemma handle_keeps_ids (ev : Event) : keeps chat_ids_fresh (handle ev).
Proof.
  all_events ev;
    keeps_with
      ltac:(idtac; lazymatch goal with
            | |- keeps _ (appendMessage _ _ _ _ _ _ _) => apply appendMessage_keeps_ids
            | |- keeps _ (set_feedback_display _ _) => apply set_feedback_display_keeps_ids
            | |- keeps _ (history_forEach _ _ _) =>
                apply history_forEach_keeps; intros; apply appendMessage_keeps_ids
            end)
      ltac:(unfold chat_ids_fresh in *; simpl in *;
            first [assumption | apply Forall_nil | now apply older_weaken]).
Qed.

Lemma switchDocument_runs (s : State) (data : Data) :
  (forall f, d_filename data = Some f -> plain_text f = true) ->
  exists s1,
    switchDocument data s = (returned tt, s1)
    /\ chat s1 = chat s /\ fresh s1 = fresh s /\ env s1 = env s
    /\ or_else (d_filename data) (or_else (selectedFile (vars s1)) "")
       = or_else (d_filename data) (or_else (selectedFile (vars s)) "").
Proof.
  intros Hplain. unfold switchDocument, bind, gets.
  destruct (truthy (d_filename data)
            && negb (strict_eq (selectedFile (vars s)) (d_filename data))) eqn:E.
  - apply andb_true_iff in E as [Ht _].
    destruct (d_filename data) as [f|]; [|discriminate]. simpl in Ht.
    unfold highlightSelectedDocument, query_data_filename, js_string.
    rewrite (css_string_plain f (Hplain f eq_refl)).
    run_script.
    destruct (negb (has_pdfViewer (env s)) || negb (has_pdfPlaceholder (env s)));
      simpl; [|destruct (pdfjs_loaded (env s)); simpl];
      eexists; (split; [reflexivity|]); simpl; rewrite Ht; auto.
  - exists s. auto.
Qed.

(** The like button of a container with every value, and with a value
    missing. *)
Lemma like_click_sends (s : State) (id : nat) (fc : FeedbackContainer)
    (question answer filename : string) :
  find_buttons id (chatBox (chat s)) = Some fc ->
  decodeURIComponent (data_question fc) = Some question ->
  decodeURIComponent (data_answer fc) = Some answer ->
  decodeURIComponent (data_filename fc) = Some filename ->
  question <> "" -> answer <> "" -> filename <> "" ->
  issued (handle (ev_feedback_click id "like")) s
  = [Fetch (feedback_request filename question answer "like" "") (p_feedback "like" fc)].
Proof.
  intros Hfc Hq Ha Hf Hqn Han Hfn.
  apply issued_exact. unfold exec, handle, feedbackClick, bind, gets, decode_attribute.
  simpl. rewrite Hfc, Hq. simpl. rewrite Ha. simpl.
  rewrite (sendFeedback_sends s question answer "like" "" fc filename); auto.
  discriminate.
Qed.


(** The answer of a reply without error, in the chat box. *)
Lemma ask_reply_appends (s : State) (question : string) (data : Data)
    (makeHtml : string -> string) :
  converter (env s) = Some makeHtml -> truthy (d_error data) = false ->
  (forall f, d_filename data = Some f -> plain_text f = true) ->
  exists s1 source,
    handle (ev_reply (p_ask question) (resolved data)) s = (returned tt, s1)
    /\ chatBox (chat s1)
       = chatBox (chat s)
           ++ [bot_bubble (makeHtml (d_answer data)) source
                 {| fc_id := fresh s;
                    data_question := encodeURIComponent question;
                    data_answer := encodeURIComponent (d_answer data);
                    data_filename :=
                      encodeURIComponent
                        (or_else (d_filename data) (or_else (selectedFile (vars s)) ""));
                    fc_display := buttons |}].
Proof.
  intros Hconv He Hplain.
  destruct (switchDocument_runs (set_chatStatus "Ready" s) data Hplain)
    as [s1 [Hswitch [Hchat [Hfresh [Henv Hshown]]]]].
  assert (Hconv1 : converter (env s1) = Some makeHtml) by now rewrite Henv.
  destruct (appendMessage_bot_run "assistant" (d_answer data) (d_message_id data)
              (d_source_page data) None (Some question) (d_filename data) s1 makeHtml)
    as [s2 [Happend [Hbox _]]]; [discriminate | exact Hconv1 |].
  exists (snd (showSource data s2)). eexists. split.
  - unfold handle, on_reply, then_catch, askQuestion_then.
    rewrite (try_catch_bind_returned _ _ _ s (set_chatStatus "Ready" s) tt)
      by reflexivity.
    rewrite He. rewrite (try_catch_bind_returned _ _ _ _ s1 tt Hswitch).
    rewrite (try_catch_bind_returned _ _ _ _ s2 tt Happend).
    apply try_catch_returned.
    rewrite (surjective_pairing (showSource data s2)).
    now rewrite showSource_returns.
  - rewrite (showSource_chat data s2). rewrite Hbox, Hchat, Hfresh, Hshown.
    rewrite or_else_given. reflexivity.
Qed.

(** X21.  From the answer to its feedback: after a reply to [/ask]
    without error whose file name, when it has one, is of plain
    characters (so that the selector of [highlightSelectedDocument] is
    well formed), a click on the like button of the answer just shown
    issues one thing, a POST to [/feedback] that carries the question
    that was asked, the answer of the reply and the file named by the
    reply, or the selected file when the reply names none. *)
Theorem answer_feedback_names_question_and_file (s : State) (question : string)
    (data : Data) (makeHtml : string -> string) :
  chat_ids_fresh s -> converter (env s) = Some makeHtml ->
  truthy (d_error data) = false ->
  (forall f, d_filename data = Some f -> plain_text f = true) ->
  question <> "" -> d_answer data <> "" ->
  or_else (d_filename data) (or_else (selectedFile (vars s)) "") <> "" ->
  exists fc,
    issued (handle (ev_feedback_click (fresh s) "like"))
      (step s (ev_reply (p_ask question) (resolved data)))
    = [Fetch
         (feedback_request
            (or_else (d_filename data) (or_else (selectedFile (vars s)) ""))
            question (d_answer data) "like" "")
         (p_feedback "like" fc)].
Proof.
  intros Hids Hconv He Hplain Hq Ha Hf.
  destruct (ask_reply_appends s question data makeHtml Hconv He Hplain)
    as [s1 [source [Hrun Hbox]]].
  unfold step, exec. rewrite Hrun. simpl. eexists.
  apply like_click_sends; try eassumption.
  - rewrite Hbox. now apply find_buttons_fresh.
  - apply decode_encode.
  - apply decode_encode.
  - apply decode_encode.
Qed.

Lemma answer_feedback_names_question_and_file_witness :
  exists fc,
    issued (handle (ev_feedback_click (fresh served) "like"))
      (step served
         (ev_reply (p_ask "Capital?")
            (resolved {| d_error := None; d_filename := Some "a.pdf"; d_answer := "Paris";
                         d_message_id := None; d_source_page := None;
                         d_source_content := None; d_message := None;
                         d_success := None; d_history := None |})))
    = [Fetch (feedback_request "a.pdf" "Capital?" "Paris" "like" "")
         (p_feedback "like" fc)].
Proof.
  apply (answer_feedback_names_question_and_file served "Capital?"
           {| d_error := None; d_filename := Some "a.pdf"; d_answer := "Paris";
              d_message_id := None; d_source_page := None;
              d_source_content := None; d_message := None;
              d_success := None; d_history := None |}
           (fun text => ("<p>" ++ text ++ "</p>")%string)).
  - apply Forall_nil.
  - reflexivity.
  - reflexivity.
  - intros f Hf. injection Hf as <-. reflexivity.
  - discriminate.
  - discriminate.
  - discriminate.
Defined.



End FeedbackFlow.

(** ** The viewer *)

Section MoreViewer.

(** X23.  The source page of a reply is taken as it is given: with a
    document loaded and a source page that is not zero, [currentPage]
    becomes that page and the page is requested from the document,
    while the number of pages stays; no bound is checked, so a source
    page below 1 or beyond the last page leaves the current page outside
    the document. *)
Theorem source_page_is_taken_as_given (s : State) (data : Data) (page : Z) (pdf : Pdf) :
  d_source_page data = Some page -> page <> 0%Z -> pdfDoc (vars s) = Some pdf ->
  let s' := exec (showSource data) s in
  currentPage (vars s') = page
  /\ totalPages (vars s') = totalPages (vars s)
  /\ (exists rest, issued (showSource data) s = GetPage page for_render :: rest)
  /\ page_info (pageControls (viewer s')) = (page, totalPages (vars s))
  /\ ((page < 1 \/ totalPages (vars s) < page)%Z -> ~ page_in_bounds s').
Proof.
  intros Hpage Hnz Hdoc s'. subst s'.
  assert (Ht : (page =? 0)%Z = false) by now apply Z.eqb_neq.
  assert (Hissued : exists rest,
             issued (showSource data) s = GetPage page for_render :: rest).
  { unfold issued, exec, showSource, bind, gets. rewrite Hpage, Hdoc.
    run_script. rewrite Ht. simpl. rewrite Hdoc.
    destruct (truthy (d_source_content data)); simpl;
      rewrite <- ?app_assoc, skipn_exact; eexists; reflexivity. }
  assert (Hvars : currentPage (vars (exec (showSource data) s)) = page
                  /\ totalPages (vars (exec (showSource data) s)) = totalPages (vars s)
                  /\ page_info (pageControls (viewer (exec (showSource data) s)))
                     = (page, totalPages (vars s))).
  { unfold exec, showSource, bind, gets. rewrite Hpage, Hdoc.
    run_script. rewrite Ht. simpl. rewrite Hdoc.
    destruct (truthy (d_source_content data)); simpl; auto. }
  destruct Hvars as [Hc [Htot Hinfo]].
  repeat split; trivial.
  unfold page_in_bounds. rewrite Hc, Htot. lia.
Qed.

Lemma source_page_is_taken_as_given_witness :
  currentPage
    (vars
       (exec (showSource {| d_error := None; d_filename := None; d_answer := "Paris";
                            d_message_id := None; d_source_page := Some 7%Z;
                            d_source_content := None; d_message := None;
                            d_success := None; d_history := None |})
          (step served (ev_document (resolved {| numPages := 3 |})))))
  = 7%Z.
Proof.
  apply (source_page_is_taken_as_given
           (step served (ev_document (resolved {| numPages := 3 |})))
           {| d_error := None; d_filename := None; d_answer := "Paris";
              d_message_id := None; d_source_page := Some 7%Z;
              d_source_content := None; d_message := None;
              d_success := None; d_history := None |}
           7%Z {| numPages := 3 |}).
  - reflexivity.
  - discriminate.
  - reflexivity.
Defined.

(** X24.  A page that has been rendered carries no highlight: when the
    rendering of a page settles on a page with a canvas, its text is
    stored for later searches and [currentHighlights] is emptied, with
    the highlight layer when there is one; when the rendering fails,
    the error goes to the console and the variables and the viewer stay
    as they were. *)
Theorem rendered_page_drops_highlights (s : State) (r : Settled (list TextItem)) :
  has_canvas (env s) = true ->
  let s' := step s (ev_page_rendered r) in
  match r with
  | resolved textContent =>
      currentPageTextContent (vars s') = Some textContent
      /\ currentHighlights (vars s') = []
      /\ (has_highlightLayer (env s) = true -> highlightLayer (viewer s') = [])
      /\ issued (handle (ev_page_rendered r)) s = []
  | rejected =>
      vars s' = vars s /\ viewer s' = viewer s
      /\ issued (handle (ev_page_rendered r)) s = [ConsoleError "Error rendering page:"]
  end.
Proof.
  intros Hcanvas s'. subst s'. destruct r as [textContent|].
  - assert (Hissued : issued (handle (ev_page_rendered (resolved textContent))) s = []).
    { apply issued_exact. unfold exec. run_script. rewrite Hcanvas. simpl.
      destruct (has_highlightLayer (env s)); simpl; now rewrite app_nil_r. }
    unfold step, exec. run_script. rewrite Hcanvas. simpl.
    destruct (has_highlightLayer (env s)); simpl; repeat split; trivial; discriminate.
  - split; [|split; [|apply issued_exact]];
      unfold step, exec; run_script; rewrite Hcanvas; reflexivity.
Qed.

Lemma rendered_page_drops_highlights_witness :
  currentHighlights
    (vars (step (run (set_currentPageTextContent (Some [{| str := "A QUICK one" |}]) served)
                   [ev_page_for_highlight "quick"])
             (ev_page_rendered (resolved [{| str := "next page" |}]))))
  = [].
Proof.
  apply (proj1 (proj2 (rendered_page_drops_highlights
                         (run (set_currentPageTextContent
                                 (Some [{| str := "A QUICK one" |}]) served)
                            [ev_page_for_highlight "quick"])
                         (resolved [{| str := "next page" |}]) eq_refl))).
Defined.

(** X25.  With a document loaded, a click on a page button that changes
    the page asks the document for the new page and issues nothing
    else; a click on the previous-page button on page 1 or below, and
    on the next-page button on the last page or beyond, leaves the
    state as it was; and next-page followed by previous-page returns to
    the page it started from. *)
Theorem page_change_renders_new_page (s : State) (pdf : Pdf) :
  pdfDoc (vars s) = Some pdf ->
  let c := currentPage (vars s) in
  let t := totalPages (vars s) in
  ((1 < c)%Z -> issued (handle ev_prev_page) s = [GetPage (c - 1)%Z for_render])
  /\ ((c < t)%Z -> issued (handle ev_next_page) s = [GetPage (c + 1)%Z for_render])
  /\ ((c <= 1)%Z -> handle ev_prev_page s = (returned tt, s))
  /\ ((t <= c)%Z -> handle ev_next_page s = (returned tt, s))
  /\ ((1 <= c < t)%Z ->
      currentPage (vars (run s [ev_next_page; ev_prev_page])) = c
      /\ pageControls (viewer (run s [ev_next_page; ev_prev_page]))
         = {| prev_disabled := (c <=? 1)%Z; next_disabled := false; page_info := (c, t) |}).
Proof.
  intros Hdoc c t. subst c t.
  split; [|split; [|split; [|split]]].
  - intros H. apply Z.gtb_lt in H. apply issued_exact.
    unfold exec, handle, prevPage, bind, gets. rewrite H.
    run_script. now rewrite Hdoc.
  - intros H. apply Z.ltb_lt in H. apply issued_exact.
    unfold exec, handle, nextPage, bind, gets. rewrite H.
    run_script. now rewrite Hdoc.
  - intros H. unfold handle, prevPage, bind, gets.
    replace (currentPage (vars s) >? 1)%Z with false; [reflexivity|].
    symmetry. rewrite Z.gtb_ltb. apply Z.ltb_ge. exact H.
  - intros H. unfold handle, nextPage, bind, gets.
    replace (currentPage (vars s) <? totalPages (vars s))%Z with false; [reflexivity|].
    symmetry. apply Z.ltb_ge. exact H.
  - intros [H1 H2].
    assert (Hn : (currentPage (vars s) <? totalPages (vars s))%Z = true)
      by now apply Z.ltb_lt.
    assert (Hp : (currentPage (vars s) + 1 >? 1)%Z = true)
      by (rewrite Z.gtb_ltb; apply Z.ltb_lt; lia).
    assert (Hge : (currentPage (vars s) >=? totalPages (vars s))%Z = false)
      by (rewrite Z.geb_leb; apply Z.leb_gt; lia).
    unfold run, fold_left, step, exec, handle, nextPage, prevPage, bind, gets.
    rewrite Hn. run_script. rewrite Hdoc. simpl. rewrite Hp. simpl. rewrite Hdoc. simpl.
    replace (currentPage (vars s) + 1 - 1)%Z with (currentPage (vars s)) by lia.
    rewrite Hge. split; reflexivity.
Qed.

Lemma page_change_renders_new_page_witness :
  issued (handle ev_next_page) (step served (ev_document (resolved {| numPages := 3 |})))
  = [GetPage 2%Z for_render].
Proof.
  apply (proj1 (proj2 (page_change_renders_new_page
                         (step served (ev_document (resolved {| numPages := 3 |})))
                         {| numPages := 3 |} eq_refl))).
  reflexivity.
Defined.

(** X26.  One highlighting, from the timer to the scan: on a page with a
    canvas and a highlight layer, a document loaded and the text of the
    page stored, the timer clears the old highlights and asks for the
    current page, and when that page arrives the highlights are exactly
    those of one scan of the stored fragments, at most ten, in the
    variable and in the layer; the notification gives their number, and
    nothing is notified when there is none. *)
Theorem highlighting_replaces_old_highlights (s : State) (searchText : string)
    (items : list TextItem) (pdf : Pdf) :
  has_canvas (env s) = true -> has_highlightLayer (env s) = true ->
  pdfDoc (vars s) = Some pdf -> currentPageTextContent (vars s) = Some items ->
  searchText <> "" ->
  let s1 := step s (ev_timer (t_highlight searchText)) in
  let s2 := step s1 (ev_page_for_highlight searchText) in
  let created := scan (searchWords searchText) 0 0 items in
  issued (handle (ev_timer (t_highlight searchText))) s
    = [GetPage (currentPage (vars s)) (for_highlight searchText)]
  /\ currentHighlights (vars s1) = []
  /\ currentHighlights (vars s2) = created
  /\ highlightLayer (viewer s2) = created
  /\ List.length created <= 10
  /\ issued (handle (ev_page_for_highlight searchText)) s1
     = match created with
       | [] => []
       | _ :: _ =>
           [Notification
              ("Highlighted " ++ show_nat (List.length created)
                 ++ " text section(s) on this page") "info"]
       end.
Proof.
  intros Hcanvas Hlayer Hdoc Htext Hne s1 s2 created.
  apply nonempty_iff in Hne.
  assert (Hs1 : s1 = with_out (out s ++ [GetPage (currentPage (vars s))
                                           (for_highlight searchText)])
                       (set_currentHighlights []
                          (set_highlightIndicators (Nat.pred (highlightIndicators (viewer s)))
                             (set_highlightLayer [] s)))).
  { subst s1. unfold step, exec, handle, on_timer, highlightText, bind, gets.
    rewrite Htext, Hne. run_script. rewrite Hlayer. simpl. rewrite Hcanvas, Hlayer. simpl.
    now rewrite Hdoc. }
  assert (Hrun : forall rest,
             snd (highlightText_then searchText s1)
             = rest -> currentHighlights (vars rest) = created
                       /\ highlightLayer (viewer rest) = created
                       /\ out rest
                          = out s1
                              ++ match created with
                                 | [] => []
                                 | _ :: _ =>
                                     [Notification
                                        ("Highlighted " ++ show_nat (List.length created)
                                           ++ " text section(s) on this page") "info"]
                                 end).
  { intros rest <-. rewrite Hs1. unfold highlightText_then, bind, gets. simpl.
    rewrite Htext. fold created. run_script.
    destruct created as [|h l]; simpl.
    - now rewrite app_nil_r.
    - destruct (has_pdfViewer (env s)); simpl; auto. }
  destruct (Hrun _ eq_refl) as [Hh [Hl Hout]].
  split; [apply issued_exact; fold (step s (ev_timer (t_highlight searchText)));
          fold s1; now rewrite Hs1|].
  split; [now rewrite Hs1|].
  split; [exact Hh|]. split; [exact Hl|].
  split; [subst created; rewrite scan_length by lia; apply Nat.le_min_l|].
  apply issued_exact. exact Hout.
Qed.

Lemma highlighting_replaces_old_highlights_witness :
  currentHighlights
    (vars
       (step
          (step (set_currentPageTextContent (Some [{| str := "A QUICK one" |}])
                   (step served (ev_document (resolved {| numPages := 3 |}))))
             (ev_timer (t_highlight "quick")))
          (ev_page_for_highlight "quick")))
  = scan (searchWords "quick") 0 0 [{| str := "A QUICK one" |}].
Proof.
  apply (highlighting_replaces_old_highlights
           (set_currentPageTextContent (Some [{| str := "A QUICK one" |}])
              (step served (ev_document (resolved {| numPages := 3 |}))))
           "quick" [{| str := "A QUICK one" |}] {| numPages := 3 |}).
  - reflexivity.
  - reflexivity.
  - reflexivity.
  - reflexivity.
  - discriminate.
Defined.

End MoreViewer.

(** ** Enabling and disabling the chat *)

Section Enabling.

Lemma disableChat_disables : keeps chat_disabled (enableChat false).
Proof. intros s _. split; reflexivity. Qed.

Lemma other_events_keep_disabled (ev : Event) :
  enables ev = false -> keeps chat_disabled (handle ev).
Proof.
  all_events ev; simpl; intros Hev; try discriminate;
    keeps_with
      ltac:(idtac; lazymatch goal with
            | |- keeps _ (enableChat false) => apply disableChat_disables
            | |- keeps _ (history_forEach _ _ _) => apply history_forEach_keeps; intros
            end)
      ltac:(unfold chat_disabled in *; simpl in *; assumption).
Qed.

(** X27.  A disabled chat is enabled again only by a timer of the
    script or by the reply to an upload: when the input and the send
    button are disabled, they are still disabled after any other event,
    among them a click on a file of the list. *)
Theorem disabled_chat_needs_timer_or_upload (s : State) (ev : Event) :
  enables ev = false -> chat_disabled s -> chat_disabled (step s ev).
Proof. intros Hev. now apply other_events_keep_disabled. Qed.

Lemma disabled_chat_needs_timer_or_upload_witness :
  chat_disabled (step listed (ev_file_click 100)).
Proof.
  apply (disabled_chat_needs_timer_or_upload listed (ev_file_click 100)).
  - reflexivity.
  - split; reflexivity.
Defined.

(** X28.  Deleting the selected document resets the page and disables
    the chat, also when other documents remain in the list: no file is
    selected, no document is loaded, the chat box is empty, and the
    input and the send button are disabled with the status
    [No documents available]. *)
Theorem deleting_selected_disables_chat (s : State) (filename : option string)
    (listItem : nat) (data : Data) :
  truthy (d_error data) = false ->
  strict_eq (selectedFile (vars s)) filename = true ->
  let s' := step s (ev_reply (p_delete filename listItem) (resolved data)) in
  selectedFile (vars s') = null /\ pdfDoc (vars s') = None
  /\ currentPage (vars s') = 1%Z /\ totalPages (vars s') = 0%Z
  /\ chatBox (chat s') = []
  /\ chat_disabled s'
  /\ chatStatus (chat s') = "No documents available".
Proof.
  intros He Hsel s'. subst s'. unfold step, exec. run_script. rewrite He. simpl.
  rewrite Hsel. simpl.
  repeat match goal with
         | |- context [if ?b then _ else _] => destruct b; simpl
         end;
    repeat split.
Qed.

Lemma deleting_selected_disables_chat_witness :
  chat_disabled
    (step (set_fileList
             (Some [{| item_id := 100; li_filename := Some "a.pdf";
                       btn_filename := "a.pdf"; has_delete_btn := true |};
                    {| item_id := 101; li_filename := Some "b.pdf";
                       btn_filename := "b.pdf"; has_delete_btn := true |}])
             (step listed (ev_file_click 100)))
       (ev_reply (p_delete (Some "a.pdf") 100)
          (resolved {| d_error := None; d_filename := None; d_answer := "";
                       d_message_id := None; d_source_page := None;
                       d_source_content := None; d_message := None;
                       d_success := Some "Deleted"; d_history := None |}))).
Proof.
  apply (deleting_selected_disables_chat
           (set_fileList
              (Some [{| item_id := 100; li_filename := Some "a.pdf";
                        btn_filename := "a.pdf"; has_delete_btn := true |};
                     {| item_id := 101; li_filename := Some "b.pdf";
                        btn_filename := "b.pdf"; has_delete_btn := true |}])
              (step listed (ev_file_click 100)))
           (Some "a.pdf") 100
           {| d_error := None; d_filename := None; d_answer := "";
              d_message_id := None; d_source_page := None;
              d_source_content := None; d_message := None;
              d_success := Some "Deleted"; d_history := None |}).
  - reflexivity.
  - reflexivity.
Defined.

End Enabling.

(** ** Uploads and the loading overlay *)

Section Settling.

Lemma addFileToList_runs (filename : option string) (s : State) :
  exists r s1 l,
    addFileToList filename s = (r, s1)
    /\ out s1 = out s ++ l /\ dialogs s1 = dialogs s.
Proof.
  assert (Hadds : forall existing : M bool,
             existing s = (returned false, s) ->
             exists r s1 l,
               bind existing
                 (fun found : bool =>
                    if found then ret tt
                    else
                      f <- gets files;;
                      (match noDocumentsMessage f, fileList f with
                       | true, None =>
                           modify (set_noDocumentsMessage false);;
                           modify (set_fileList (Some []))
                       | _, _ => ret tt
                       end);;
                      l <- gets items;;
                      id <- createElement;;
                      modify (set_fileList
                                (Some ({| item_id := id; li_filename := None;
                                          btn_filename := attribute_value (js_string filename);
                                          has_delete_btn := false |} :: l)));;
                      modify (fun s => set_fileCount (fileCount (files s) + 1)%Z s);;
                      n <- gets fileButtons;;
                      (if n =? 1 then
                         enableChat true;;
                         modify (set_welcome_text welcome_ready)
                       else ret tt);;
                      emit (SetTimeout (t_auto_select filename id) 100)) s = (r, s1)
               /\ out s1 = out s ++ l /\ dialogs s1 = dialogs s).
  { intros existing He. unfold bind at 1. rewrite He.
    destruct s as [e v c [ndm [[|it l]|] cnt] vw d o fr]; destruct ndm; simpl;
      eexists; eexists; eexists; (split; [reflexivity|]); simpl; split; reflexivity. }
  unfold addFileToList, query_data_filename.
  destruct (css_string (js_string filename)) as [|value|].
  - exists thrown, s, []. split; [reflexivity|]. split; [now rewrite app_nil_r | reflexivity].
  - destruct (has_data_filename value s) eqn:E.
    + exists (returned tt), s, []. unfold bind, gets. rewrite E.
      split; [reflexivity|]. split; [now rewrite app_nil_r | reflexivity].
    + apply Hadds. unfold gets. now rewrite E.
  - apply Hadds. reflexivity.
Qed.

(** X29.  The upload button is released by every settlement of the
    upload, and the dialog closes only on success: after the reply to
    [/upload], whether it carries an error, a file name, or the request
    failed, the submit button is not busy; with an error or a failed
    request the error is shown in an alert and the dialog, the file
    list and the counter stay as they were; without error the dialog is
    hidden and the success is notified first. *)
Theorem upload_settles_the_dialog (s : State) (r : Settled Data) :
  let s' := step s (ev_reply p_upload r) in
  uploadSubmit_busy (dialogs s') = false
  /\ match r with
     | rejected =>
         issued (handle (ev_reply p_upload r)) s
           = [ConsoleError "Upload error:"; Alert "Upload failed. Please try again."]
         /\ uploadModal_hidden (dialogs s') = uploadModal_hidden (dialogs s)
         /\ files s' = files s
     | resolved data =>
         if truthy (d_error data)
         then issued (handle (ev_reply p_upload r)) s = [Alert (js_string (d_error data))]
              /\ uploadModal_hidden (dialogs s') = uploadModal_hidden (dialogs s)
              /\ files s' = files s
         else uploadModal_hidden (dialogs s') = true
              /\ exists rest,
                  issued (handle (ev_reply p_upload r)) s
                  = Notification "PDF uploaded successfully!" "success" :: rest
     end.
Proof.
  intros s'. subst s'. destruct r as [data|].
  - destruct (truthy (d_error data)) eqn:He.
    + split; [|split; [apply issued_exact|]];
        unfold step, exec; run_script; rewrite He; try reflexivity.
      split; reflexivity.
    + destruct (addFileToList_runs (d_filename data)
                  (with_out (out s ++ [Notification "PDF uploaded successfully!" "success"])
                     (set_uploadSubmit_busy false (set_uploadModal_hidden true s))))
        as [res [s1 [l [Hadd [Hout Hdialogs]]]]].
      assert (Hrun : handle (ev_reply p_upload (resolved data)) s
                     = match res with
                       | returned _ => (returned tt, set_uploadSubmit_busy false s1)
                       | thrown => upload_catch s1
                       end).
      { unfold handle, on_reply, then_catch, upload_then. rewrite He.
        rewrite (try_catch_bind_returned _ _ _ s
                   (set_uploadSubmit_busy false (set_uploadModal_hidden true s)) tt)
          by reflexivity.
        rewrite (try_catch_bind_returned _ _ _ _
                   (with_out
                      (out s ++ [Notification "PDF uploaded successfully!" "success"])
                      (set_uploadSubmit_busy false (set_uploadModal_hidden true s))) tt)
          by reflexivity.
        destruct res as [[]|].
        - rewrite (try_catch_bind_returned _ _ _ _ s1 tt Hadd).
          now apply try_catch_returned.
        - now rewrite (try_catch_bind_thrown _ _ _ _ s1 Hadd). }
      destruct res as [[]|].
      * split; [|split; [|exists l; apply issued_exact]];
          unfold step, exec; rewrite Hrun; simpl.
        -- reflexivity.
        -- now rewrite Hdialogs.
        -- rewrite Hout. simpl. now rewrite <- app_assoc.
      * split; [|split; [|eexists; apply issued_exact]];
          unfold step, exec; rewrite Hrun; run_script.
        -- reflexivity.
        -- now rewrite Hdialogs.
        -- rewrite Hout. simpl. rewrite <- !app_assoc. reflexivity.
  - split; [|split; [apply issued_exact|]]; unfold step, exec; run_script;
      rewrite <- ?app_assoc; try reflexivity.
    split; reflexivity.
Qed.

(** X30.  The loading overlay does not stay: every settlement of a
    deletion, of a clear-chat request and of the loading of a document
    hides it, whatever the reply carries. *)
Theorem loading_overlay_is_hidden_again (s : State) :
  (forall filename listItem r,
      loadingOverlay_hidden (viewer (step s (ev_reply (p_delete filename listItem) r)))
      = true)
  /\ (forall filename r,
        loadingOverlay_hidden (viewer (step s (ev_reply (p_clear_chat filename) r))) = true)
  /\ (forall r, loadingOverlay_hidden (viewer (step s (ev_document r))) = true).
Proof.
  split; [|split].
  - intros filename listItem [data|]; unfold step, exec; run_script; [|reflexivity].
    repeat match goal with
           | |- context [if ?b then _ else _] => destruct b; simpl
           end; reflexivity.
  - intros filename [data|]; unfold step, exec; run_script; [|reflexivity].
    destruct (truthy (d_error data)); reflexivity.
  - intros [pdf|]; unfold step, exec; run_script; reflexivity.
Qed.

End Settling.
